(** * Anemos VS Code extension: binary resolution and type synchronisation

    A shallow embedding of [extension.js].  The extension talks to the
    host through Node's [child_process], [https], [fs], [os] and the
    [vscode] API.  Each host call becomes an operation of a small
    state-and-exception monad [M]: the mutable part of the host (the file
    system and the list of host calls made so far) is threaded as a
    [State]; what the host answers (process results, HTTP responses, the
    user's choice, I/O faults, the order of two racing events) is read
    from an [Env].  Recursion that the source leaves unbounded (redirect
    following) takes a fuel argument and reports exhaustion as [Diverged],
    the outcome of a promise that never settles, which no [try]/[catch]
    intercepts.

    A JavaScript string is held as the string of the bytes of its UTF-8
    encoding. *)

From Stdlib Require Import String Ascii List Bool Arith Lia.
From stdpp Require Import base option gmap strings list pretty.

Import ListNotations.
Local Open Scope string_scope.
Local Open Scope list_scope.
Local Set Warnings "-register-all".

(** ** JavaScript values the code handles *)

(** An error object: the name of its class and its message. *)
Record js_error := { error_name : string; message : string }.

(** [new Error(message)]; the errors raised by Node's modules are of this
    class too. *)
Definition Error (message : string) : js_error :=
  {| error_name := "Error"; message := message |}.

Definition TypeError (message : string) : js_error :=
  {| error_name := "TypeError"; message := message |}.

Definition SyntaxError (message : string) : js_error :=
  {| error_name := "SyntaxError"; message := message |}.

(** [`${e}`] for an error object. *)
Definition error_to_string (e : js_error) : string :=
  error_name e +:+ ": " +:+ message e.

(** What [JSON.parse] returns. *)
Inductive json :=
| JNull
| JBool (b : bool)
| JNumber (text : string)                     (* a number, as [String(n)] prints it *)
| JString (s : string)
| JArray (items : list json)
| JObject (fields : list (string * json)).

Fixpoint assoc_lookup {A} (k : string) (l : list (string * A)) : option A :=
  match l with
  | [] => None
  | (k', v) :: l' => if String.eqb k k' then Some v else assoc_lookup k l'
  end.

(** Property read [v.name]: [null.name] raises a [TypeError], a missing
    property (also on a primitive or an array) is [undefined], here [None]. *)
Definition get_property (v : json) (name : string) : js_error + option json :=
  match v with
  | JNull => inl (TypeError ("Cannot read properties of null (reading '" +:+ name +:+ "')"))
  | JObject fields => inr (assoc_lookup name fields)
  | _ => inr None
  end.

(** [v !== s] for a property value [v] and a string [s]. *)
Definition strict_ne_string (v : option json) (s : string) : bool :=
  match v with
  | Some (JString s') => negb (String.eqb s' s)
  | _ => true
  end.

(** The double-quote character, as a one-character string. *)
Definition dq : string := String (ascii_of_nat 34) EmptyString.

(** The string of the given bytes. *)
Definition utf8 (bytes : list nat) : string :=
  string_of_list_ascii (map ascii_of_nat bytes).

(** The code points that [String.prototype.trim] strips, each by its
    UTF-8 encoding: the white space of ECMAScript (TAB, VT, FF, SP, NBSP,
    ZWNBSP and the other space separators of Unicode) and its line
    terminators (LF, CR, LS, PS). *)
Definition white_space : list string :=
  [utf8 [9]; utf8 [10]; utf8 [11]; utf8 [12]; utf8 [13]; utf8 [32];
   utf8 [194; 160];                           (* U+00A0 *)
   utf8 [225; 154; 128];                      (* U+1680 *)
   utf8 [226; 128; 128]; utf8 [226; 128; 129]; utf8 [226; 128; 130];
   utf8 [226; 128; 131]; utf8 [226; 128; 132]; utf8 [226; 128; 133];
   utf8 [226; 128; 134]; utf8 [226; 128; 135]; utf8 [226; 128; 136];
   utf8 [226; 128; 137]; utf8 [226; 128; 138]; (* U+2000 to U+200A *)
   utf8 [226; 128; 168]; utf8 [226; 128; 169]; (* U+2028, U+2029 *)
   utf8 [226; 128; 175];                      (* U+202F *)
   utf8 [226; 129; 159];                      (* U+205F *)
   utf8 [227; 128; 128];                      (* U+3000 *)
   utf8 [239; 187; 191]].                     (* U+FEFF *)

(** The length of the string of [patterns] that [s] starts with, [0] when
    it starts with none. *)
Definition space_at (patterns : list string) (s : string) : nat :=
  match List.find (fun p => String.prefix p s) patterns with
  | Some p => String.length p
  | None => 0
  end.

(** [s] without the strings of [patterns] at its start; [skip] counts the
    bytes still to drop of the one being removed. *)
Fixpoint strip (patterns : list string) (skip : nat) (s : string) : string :=
  match s with
  | EmptyString => EmptyString
  | String _ s' =>
      match skip with
      | S k => strip patterns k s'
      | O =>
          match space_at patterns s with
          | S k => strip patterns k s'
          | O => s
          end
      end
  end.

Definition string_rev (s : string) : string :=
  string_of_list_ascii (rev (list_ascii_of_string s)).

Definition trim_start (s : string) : string := strip white_space 0 s.

Definition trim_end (s : string) : string :=
  string_rev (strip (map string_rev white_space) 0 (string_rev s)).

(** [String.prototype.trim] *)
Definition trim (s : string) : string := trim_end (trim_start s).

(** ** The host *)

(** Pure services of the runtime. *)
Class Host := {
  path_join : list string -> string;          (* path.join(...) *)
  path_ancestors : string -> list string;     (* the directories above a path,
                                                 nearest first *)
  module_dirname : string;                    (* __dirname *)
  JSON_parse : string -> js_error + json;     (* throws a SyntaxError *)
  JSON_stringify : json -> string;
}.

Inductive fsnode := File (content : string) | Dir.

(** The file system: the nodes by path, and the write streams that the
    code has left open on a file that the host has not opened yet, each
    with its path and the data that it holds.  The host opens such a file
    at a time of its own; the model puts that time after the run, see
    [settle]. *)
Record FileSystem := {
  nodes : gmap string fsnode;
  streams : list (string * string);
}.

#[global] Instance fs_lookup : Lookup string fsnode FileSystem :=
  fun path f => nodes f !! path.

#[global] Instance fs_insert : Insert string fsnode FileSystem :=
  fun path node f => {| nodes := <[path := node]> (nodes f); streams := streams f |}.

#[global] Instance fs_delete : Delete string FileSystem :=
  fun path f => {| nodes := delete path (nodes f); streams := streams f |}.

#[global] Instance fs_empty : Empty FileSystem := {| nodes := ∅; streams := [] |}.

Inductive fs_op := OpExists | OpMkdir | OpRead | OpWrite | OpOpen | OpUnlink | OpChmod.

(** One entry per call into the host. *)
Inductive event :=
| EExec (cmd : string)                        (* child_process.exec / execSync *)
| EFs (op : fs_op) (path : string)            (* fs.* *)
| EHttpGet (url : string)                     (* https.get *)
| EPrompt (msg : string)                      (* showInformationMessage with buttons *)
| EInfo (msg : string)
| EErrorMsg (msg : string)
| ELog (msg : string)                         (* console.log *)
| ECommand (name : string).                   (* vscode.commands.executeCommand *)

(** An HTTP response: status line, [Location] header, body, and the point
    at which the body stream emits ['error'] if it does. *)
Record response := {
  statusCode : nat;
  location : option string;
  body : string;
  stream_fault : option (nat * js_error);
}.

(** What the host answers. *)
Record Env := {
  os_platform : string;                       (* os.platform() *)
  os_arch : string;                           (* os.arch() *)
  exec_result : string -> js_error + string;  (* command line to stdout *)
  exec_writes : string -> list (string * fsnode);
                                              (* command line to the nodes that
                                                 the process writes, in order *)
  http_get : string -> js_error + response;    (* URL to first response *)
  fs_fault : fs_op -> string -> option js_error;
  late_open : string -> bool;                 (* whether the response emits
                                                 ['error'] before the write stream
                                                 on the path has opened its file *)
  consent : option string;                    (* button chosen, if any *)
  now : string;                               (* new Date().toISOString() *)
}.

Record State := {
  fs : FileSystem;
  trace : list event;
}.

(** [context], of which the code reads [globalStorageUri.fsPath]. *)
Record Context := { globalStorageUri_fsPath : string }.

(** ** The monad *)

Inductive outcome (A : Type) :=
| Returned (a : A)
| Thrown (e : js_error)
| Diverged.
Arguments Returned {A} a.
Arguments Thrown {A} e.
Arguments Diverged {A}.

Definition M (A : Type) : Type := Env -> State -> outcome A * State.

Definition ret {A} (a : A) : M A := fun _ s => (Returned a, s).

Definition throw {A} (e : js_error) : M A := fun _ s => (Thrown e, s).

Definition bind {A B} (m : M A) (k : A -> M B) : M B :=
  fun env s =>
    match m env s with
    | (Returned a, s') => k a env s'
    | (Thrown e, s') => (Thrown e, s')
    | (Diverged, s') => (Diverged, s')
    end.

(** [try { m } catch (e) { h e }] *)
Definition try_catch {A} (m : M A) (h : js_error -> M A) : M A :=
  fun env s =>
    match m env s with
    | (Thrown e, s') => h e env s'
    | r => r
    end.

Declare Scope js_scope.
Delimit Scope js_scope with js.
Notation "x <- m ;; k" := (bind m (fun x => k))
  (at level 100, m at next level, right associativity) : js_scope.
Notation "m ;;; k" := (bind m (fun _ => k))
  (at level 100, right associativity) : js_scope.
Local Open Scope js_scope.

Definition ask : M Env := fun env s => (Returned env, s).

Definition emit (e : event) : M unit :=
  fun _ s => (Returned tt, {| fs := fs s; trace := trace s ++ [e] |}).

Definition get_fs : M FileSystem := fun _ s => (Returned (fs s), s).

Definition put_fs (f : FileSystem) : M unit :=
  fun _ s => (Returned tt, {| fs := f; trace := trace s |}).

(** A promise that never settles. *)
Definition diverge {A} : M A := fun _ s => (Diverged, s).

Definition lift_sum {A} (r : js_error + A) : M A :=
  match r with
  | inl e => throw e
  | inr a => ret a
  end.

(** Raise the fault the host injects for [op] on [path], if any. *)
Definition check_fault (op : fs_op) (path : string) : M unit :=
  env <- ask ;;
  match fs_fault env op path with
  | Some e => throw e
  | None => ret tt
  end.

(** ** Host calls *)

Definition console_log (msg : string) : M unit := emit (ELog msg).

(** [vscode.window.showInformationMessage(msg)], not awaited. *)
Definition showInformationMessage (msg : string) : M unit := emit (EInfo msg).

Definition showErrorMessage (msg : string) : M unit := emit (EErrorMsg msg).

(** [await vscode.window.showInformationMessage(msg, 'Yes', 'No')]: the
    button the user chose, [None] when the message was dismissed. *)
Definition showInformationMessage_choice (msg : string) : M (option string) :=
  emit (EPrompt msg) ;;;
  env <- ask ;;
  ret (consent env).

Definition executeCommand (name : string) : M unit := emit (ECommand name).

(** [execAsync(cmd)] and [execSync(cmd, { encoding: 'utf8' })] of a
    command that only reports, as [--help] and [--version] do: the
    standard output, or the error of a failed launch or non-zero exit. *)
Definition exec (cmd : string) : M string :=
  emit (EExec cmd) ;;;
  env <- ask ;;
  lift_sum (exec_result env cmd).

(** The file system with the nodes of [writes] written, in order. *)
Definition write_all (writes : list (string * fsnode)) (f : FileSystem) : FileSystem :=
  fold_left (fun f' w => <[fst w := snd w]> f') writes f.

(** [execSync(cmd, { encoding: 'utf8' })] of a command that writes files,
    as [declarations] does: what the process writes is on the file system
    whether it then succeeds or fails. *)
Definition exec_writing (cmd : string) : M string :=
  emit (EExec cmd) ;;;
  env <- ask ;;
  f <- get_fs ;;
  put_fs (write_all (exec_writes env cmd) f) ;;;
  lift_sum (exec_result env cmd).

(** What [https.get] requests when its first argument is no URL: the
    defaults of its options, host localhost and port 443. *)
Definition default_url : string := "https://localhost:443/".

(** The promise around [https.get(url, resolve).on('error', reject)].
    With [undefined] for [url], [https.get] takes [resolve] for its options
    and has no callback: the request goes to [default_url], its error
    rejects the promise and its response settles nothing. *)
Definition https_get (url : option string) : M response :=
  match url with
  | None =>
      emit (EHttpGet default_url) ;;;
      env <- ask ;;
      match http_get env default_url with
      | inl e => throw e
      | inr _ => diverge
      end
  | Some u =>
      emit (EHttpGet u) ;;;
      env <- ask ;;
      lift_sum (http_get env u)
  end.

Definition fs_existsSync (path : string) : M bool :=
  emit (EFs OpExists path) ;;;
  f <- get_fs ;;
  ret (match f !! path with Some _ => true | None => false end).

Definition is_file (node : option fsnode) : bool :=
  match node with
  | Some (File _) => true
  | _ => false
  end.

(** The file system with a directory at each path of [dirs]. *)
Definition make_dirs (dirs : list string) (f : FileSystem) : FileSystem :=
  fold_right (fun d f' => <[d := Dir]> f') f dirs.

(** [fs.mkdirSync(path, { recursive: true })]: the directory and every
    directory above it; a file in the way is an error. *)
Definition fs_mkdirSync `{Host} (path : string) : M unit :=
  emit (EFs OpMkdir path) ;;;
  check_fault OpMkdir path ;;;
  f <- get_fs ;;
  match f !! path with
  | Some (File _) => throw (Error ("EEXIST: file already exists, mkdir " +:+ path))
  | _ =>
      if existsb (fun d => is_file (f !! d)) (path_ancestors path) then
        throw (Error ("ENOTDIR: not a directory, mkdir " +:+ path))
      else put_fs (make_dirs (path :: path_ancestors path) f)
  end.

Definition fs_readFileSync (path : string) : M string :=
  emit (EFs OpRead path) ;;;
  check_fault OpRead path ;;;
  f <- get_fs ;;
  match f !! path with
  | Some (File c) => ret c
  | Some Dir => throw (Error "EISDIR: illegal operation on a directory, read")
  | None => throw (Error ("ENOENT: no such file or directory, open " +:+ path))
  end.

Definition fs_writeFileSync (path data : string) : M unit :=
  emit (EFs OpWrite path) ;;;
  check_fault OpWrite path ;;;
  f <- get_fs ;;
  match f !! path with
  | Some Dir => throw (Error ("EISDIR: illegal operation on a directory, open " +:+ path))
  | _ => put_fs (<[path := File data]> f)
  end.

Definition fs_chmodSync (path mode : string) : M unit :=
  emit (EFs OpChmod path) ;;;
  check_fault OpChmod path ;;;
  f <- get_fs ;;
  match f !! path with
  | Some _ => ret tt
  | None => throw (Error ("ENOENT: no such file or directory, chmod " +:+ path))
  end.

(** [util.promisify(fs.unlink)] *)
Definition fsUnlink (path : string) : M unit :=
  emit (EFs OpUnlink path) ;;;
  check_fault OpUnlink path ;;;
  f <- get_fs ;;
  match f !! path with
  | Some (File _) => put_fs (delete path f)
  | Some Dir => throw (Error ("EISDIR: illegal operation on a directory, unlink " +:+ path))
  | None => throw (Error ("ENOENT: no such file or directory, unlink " +:+ path))
  end.

(** The first [n] characters of [s]. *)
Definition string_take (n : nat) (s : string) : string := substring 0 n s.

(** [`${v}`] for a property value. *)
Fixpoint json_to_string (v : json) : string :=
  match v with
  | JNull => "null"
  | JBool b => if b then "true" else "false"
  | JNumber text => text
  | JString s => s
  | JArray items =>
      String.concat ","
        (map (fun i => match i with JNull => EmptyString | _ => json_to_string i end) items)
  | JObject _ => "[object Object]"
  end.

Definition value_to_string (v : option json) : string :=
  match v with
  | Some j => json_to_string j
  | None => "undefined"
  end.

(** ** The Resolver *)

Definition getGithubReleaseUrl (env : Env) : string :=
  let version := "latest" in
  let platformId :=
    if String.eqb (os_platform env) "win32" then "windows"
    else if String.eqb (os_platform env) "darwin" then "darwin"
    else "linux" in
  let archId :=
    if String.eqb (os_arch env) "x64" then "amd64"
    else if String.eqb (os_arch env) "arm64" then "arm64"
    else "amd64" in
  "https://github.com/ohayocorp/anemos/releases/" +:+ version
    +:+ "/download/anemos-" +:+ platformId +:+ "-" +:+ archId.

(** The file system with one more write stream left open. *)
Definition leave_stream (path data : string) (f : FileSystem) : FileSystem :=
  {| nodes := nodes f; streams := streams f ++ [(path, data)] |}.

(** The write stream on [destPath] fed by [response.pipe(file)].
    [fs.createWriteStream] returns at once and the host opens the file
    later.  The stream may fail to open or fail on a write: its ['error']
    handler unlinks [destPath], ignoring errors, and rejects.  The response
    may emit ['error'] after part of the body has arrived: its handler
    rejects and leaves the write stream as it is, which is a file with that
    part when the open came first, and a stream still to open when it did
    not ([late_open]; an open that fails is taken to be reported before the
    response fails).  Otherwise the file holds the whole body at
    ['finish']. *)
Definition writeResponseToFile (response : response) (destPath : string) : M unit :=
  env <- ask ;;
  let file_error (err : js_error) : M unit :=
    try_catch (fsUnlink destPath) (fun unlinkError => ret tt) ;;;
    throw err in
  emit (EFs OpOpen destPath) ;;;
  match fs_fault env OpOpen destPath with
  | Some err => file_error err
  | None =>
      f <- get_fs ;;
      match f !! destPath with
      | Some Dir =>
          file_error (Error ("EISDIR: illegal operation on a directory, open " +:+ destPath))
      | _ =>
          match stream_fault response with
          | Some (n, err) =>
              if late_open env destPath then
                put_fs (leave_stream destPath (string_take n (body response)) f) ;;;
                throw err
              else
                put_fs (<[destPath := File EmptyString]> f) ;;;
                match fs_fault env OpWrite destPath with
                | Some err' => file_error err'
                | None =>
                    put_fs (<[destPath := File (string_take n (body response))]> f) ;;;
                    throw err
                end
          | None =>
              put_fs (<[destPath := File EmptyString]> f) ;;;
              match fs_fault env OpWrite destPath with
              | Some err => file_error err
              | None => put_fs (<[destPath := File (body response)]> f)
              end
          end
      end
  end.

(** What a write stream left open does once the host has opened its
    file: the file is created or truncated and the data written; or the
    open fails on a directory, or the write fails and the ['error'] handler
    unlinks the file. *)
Definition land (env : Env) (f : gmap string fsnode) (stream : string * string)
    : gmap string fsnode :=
  let (path, data) := stream in
  match f !! path with
  | Some Dir => f
  | _ =>
      match fs_fault env OpWrite path with
      | None => <[path := File data]> f
      | Some _ =>
          match fs_fault env OpUnlink path with
          | None => delete path f
          | Some _ => <[path := File EmptyString]> f
          end
      end
  end.

(** The file system once the host has opened the files of the write
    streams left open. *)
Definition settle (env : Env) (f : FileSystem) : FileSystem :=
  {| nodes := fold_left (land env) (streams f) (nodes f); streams := [] |}.

(** The [catch] block of [downloadFile], up to its [throw]: clean up
    partial file in case of error, ignoring errors during cleanup. *)
Definition cleanupPartialFile (destPath : string) : M unit :=
  try_catch
    (present <- fs_existsSync destPath ;;
     if present then fsUnlink destPath else ret tt)
    (fun unlinkError => ret tt).

(** The [try] block of [downloadFile]; [recurse] is [downloadFile] itself. *)
Definition downloadFile_try (recurse : option string -> string -> M unit)
    (url : option string) (destPath : string) : M unit :=
  response <- https_get url ;;
  (* Handle redirects. *)
  if Nat.eqb (statusCode response) 302 || Nat.eqb (statusCode response) 301 then
    recurse (location response) destPath
  else if negb (Nat.eqb (statusCode response) 200) then
    throw (Error ("Failed to download: " +:+ pretty (statusCode response)))
  else
    writeResponseToFile response destPath.

Fixpoint downloadFile (fuel : nat) (url : option string) (destPath : string) : M unit :=
  match fuel with
  | O => diverge
  | S fuel' =>
      try_catch
        (downloadFile_try (downloadFile fuel') url destPath)
        (fun error =>
           cleanupPartialFile destPath ;;;
           throw error)
  end.

(** Determine platform and appropriate filename. *)
Definition binaryName (env : Env) : string :=
  if String.eqb (os_platform env) "win32" then "anemos.exe" else "anemos".

Section Extension.
Context `{Host}.

Definition binaryPath (context : Context) (env : Env) : string :=
  path_join [globalStorageUri_fsPath context; binaryName env].

(** The directories that [mkdirSync] makes of the storage path. *)
Definition storage_dirs (context : Context) : list string :=
  globalStorageUri_fsPath context :: path_ancestors (globalStorageUri_fsPath context).

(** The [try] statement that ends [ensureAnemosBinary]: acquisition. *)
Definition downloadAnemosBinary (fuel : nat) (context : Context) : M string :=
  env <- ask ;;
  let platform := os_platform env in
  let storagePath := globalStorageUri_fsPath context in
  let binaryPath := binaryPath context env in
  try_catch
    ((* Ask user for permission to download. *)
     downloadChoice <- showInformationMessage_choice
       "Anemos binary not found. Would you like to download it from GitHub?" ;;
     (match downloadChoice with
      | Some choice =>
          if String.eqb choice "Yes" then ret tt
          else throw (Error "User did not consent to download Anemos binary.")
      | None => throw (Error "User did not consent to download Anemos binary.")
      end) ;;;
     showInformationMessage "Downloading Anemos binary from GitHub..." ;;;
     (* Storage path within the extension. *)
     present <- fs_existsSync storagePath ;;
     (if negb present then fs_mkdirSync storagePath else ret tt) ;;;
     let releaseUrl := getGithubReleaseUrl env in
     downloadFile fuel (Some releaseUrl) binaryPath ;;;
     (* Make binary executable on non-Windows platforms. *)
     (if negb (String.eqb platform "win32") then fs_chmodSync binaryPath "755" else ret tt) ;;;
     showInformationMessage "Anemos binary downloaded successfully." ;;;
     ret binaryPath)
    (fun error =>
       showErrorMessage ("Failed to download Anemos: " +:+ message error) ;;;
       throw error).

Definition ensureAnemosBinary (fuel : nat) (context : Context) : M string :=
  env <- ask ;;
  let binaryName := binaryName env in
  (* Check if anemos is in PATH. *)
  onPath <- try_catch (exec (binaryName +:+ " --help") ;;; ret true)
                      (fun error => ret false) ;;
  if onPath then ret binaryName else
  (* Check global storage for existing binary. *)
  let binaryPath := binaryPath context env in
  cached <- fs_existsSync binaryPath ;;
  if cached then ret binaryPath else
  downloadAnemosBinary fuel context.

(** ** The Synchronizer *)

(** The body of the [try] block of [getAnemosToolVersion]. *)
Definition getAnemosToolVersion_try (fuel : nat) (context : Context) : M string :=
  anemosPath <- ensureAnemosBinary fuel context ;;
  versionOutput <- exec (dq +:+ anemosPath +:+ dq +:+ " --version") ;;
  let version := trim versionOutput in
  console_log ("Detected anemos tool version: " +:+ version) ;;;
  ret version.

Definition getAnemosToolVersion (fuel : nat) (context : Context) : M string :=
  try_catch
    (getAnemosToolVersion_try fuel context)
    (fun e =>
       console_log ("Error getting anemos version: " +:+ error_to_string e) ;;;
       ret "unknown").

Definition generateAnemosTypes (fuel : nat) (context : Context) (outputDir : string) : M unit :=
  try_catch
    (console_log ("Generating Anemos type definitions in " +:+ outputDir) ;;;
     anemosPath <- ensureAnemosBinary fuel context ;;
     exec_writing (dq +:+ anemosPath +:+ dq +:+ " declarations " +:+ dq +:+ outputDir +:+ dq) ;;;
     console_log "Successfully generated type definitions.")
    (fun e =>
       console_log ("Error generating type definitions: " +:+ error_to_string e) ;;;
       throw e).

Definition typesDir : string :=
  path_join [module_dirname; "node_modules"; "anemos-typescript-plugin"; ".anemos-types"].

Definition versionFilePath : string := path_join [typesDir; "version.json"].

(** The record written to [version.json]. *)
Definition version_record (currentVersion generated : string) : json :=
  JObject [("version", JString currentVersion); ("generated", JString generated)].

(** The staleness check: the [if (fs.existsSync(versionFilePath))] statement,
    returning the final value of [needsUpdate]. *)
Definition checkNeedsUpdate (currentVersion : string) : M bool :=
  present <- fs_existsSync versionFilePath ;;
  if present then
    try_catch
      (text <- fs_readFileSync versionFilePath ;;
       versionData <- lift_sum (JSON_parse text) ;;
       stored <- lift_sum (get_property versionData "version") ;;
       let needsUpdate :=
         strict_ne_string stored currentVersion || String.eqb currentVersion "0.0.0" in
       (if needsUpdate then
          console_log ("Types need update: current version " +:+ currentVersion
                       +:+ ", stored version " +:+ value_to_string stored)
        else
          console_log ("Types are up to date (version " +:+ currentVersion +:+ ")")) ;;;
       ret needsUpdate)
      (fun e =>
         console_log ("Error reading version file: " +:+ error_to_string e) ;;;
         ret true)
  else
    console_log "No version file found, will generate types." ;;;
    ret true.

(** The block under [if (needsUpdate)]: generate types, save the version
    info, restart the TS server. *)
Definition regenerate (fuel : nat) (context : Context) (currentVersion : string) : M unit :=
  generateAnemosTypes fuel context typesDir ;;;
  (* Save the version info. *)
  env <- ask ;;
  fs_writeFileSync versionFilePath
    (JSON_stringify (version_record currentVersion (now env))) ;;;
  console_log ("Updated version file to " +:+ currentVersion) ;;;
  (* Restart the TS server so that the new types are picked up. *)
  executeCommand "typescript.restartTsServer".

(** What [ensureTypesAreUpToDate] does once [currentVersion] is known. *)
Definition regenerateIfStale (fuel : nat) (context : Context) (currentVersion : string) : M unit :=
  needsUpdate <- checkNeedsUpdate currentVersion ;;
  (* Generate types if needed. *)
  if needsUpdate then regenerate fuel context currentVersion else ret tt.

(** The body of the [try] block of [ensureTypesAreUpToDate]. *)
Definition ensureTypesAreUpToDate_try (fuel : nat) (context : Context) : M unit :=
  currentVersion <- getAnemosToolVersion fuel context ;;
  regenerateIfStale fuel context currentVersion.

Definition ensureTypesAreUpToDate (fuel : nat) (context : Context) : M unit :=
  try_catch
    (ensureTypesAreUpToDate_try fuel context)
    (fun e => console_log ("Error ensuring types are up to date: " +:+ error_to_string e)).

End Extension.

(** ** Notions used to state the properties *)

(** The command lines of [getAnemosToolVersion] and [generateAnemosTypes]. *)
Definition version_cmd (anemosPath : string) : string :=
  dq +:+ anemosPath +:+ dq +:+ " --version".

Definition declarations_cmd (anemosPath outputDir : string) : string :=
  dq +:+ anemosPath +:+ dq +:+ " declarations " +:+ dq +:+ outputDir +:+ dq.


(** Number of positions of [s] at which [sub] occurs. *)
Fixpoint occurrences (sub s : string) : nat :=
  (if String.prefix sub s then 1 else 0) +
  match s with
  | EmptyString => 0
  | String _ s' => occurrences sub s'
  end.

Definition platform_ids : list string := ["windows"; "darwin"; "linux"].
Definition arch_ids : list string := ["amd64"; "arm64"].

(** Occurrences in [url] of the identifiers of [ids], all together. *)
Definition count_ids (ids : list string) (url : string) : nat :=
  sum_list (map (fun id => occurrences id url) ids).

Definition is_redirect (r : response) : bool :=
  Nat.eqb (statusCode r) 302 || Nat.eqb (statusCode r) 301.

(** [redirect_chain env url hops final]: requesting [url] answers with a
    301 or 302 towards the first of [hops], and so on through [hops]; the
    last target answers [final], with status 200. *)
Inductive redirect_chain (env : Env) : string -> list string -> response -> Prop :=
| chain_end url final :
    http_get env url = inr final ->
    statusCode final = 200 ->
    redirect_chain env url [] final
| chain_hop url r next hops final :
    http_get env url = inr r ->
    is_redirect r = true ->
    location r = Some next ->
    redirect_chain env next hops final ->
    redirect_chain env url (next :: hops) final.

(** [redirect_walk env url hops final]: as [redirect_chain], but [final]
    is any response that is no 301 and no 302, whatever its status. *)
Inductive redirect_walk (env : Env) : string -> list string -> response -> Prop :=
| walk_end url final :
    http_get env url = inr final ->
    is_redirect final = false ->
    redirect_walk env url [] final
| walk_hop url r next hops final :
    http_get env url = inr r ->
    is_redirect r = true ->
    location r = Some next ->
    redirect_walk env next hops final ->
    redirect_walk env url (next :: hops) final.

(** The redirects from [url] end (in a response that is no redirect or
    in a failed request) within [n] requests.  A redirect without target
    ends them when the request to [default_url] fails. *)
Fixpoint redirects_within (env : Env) (n : nat) (url : option string) : bool :=
  match n with
  | O => false
  | S n' =>
      match url with
      | None =>
          match http_get env default_url with
          | inl _ => true
          | inr _ => false
          end
      | Some u =>
          match http_get env u with
          | inl _ => true
          | inr r => if is_redirect r then redirects_within env n' (location r) else true
          end
      end
  end.

(** [env] with the faults of [fs.unlink] replaced by [g]. *)
Definition with_unlink_fault (g : string -> option js_error) (env : Env) : Env :=
  {| os_platform := os_platform env;
     os_arch := os_arch env;
     exec_result := exec_result env;
     exec_writes := exec_writes env;
     http_get := http_get env;
     fs_fault := fun op path =>
       match op with OpUnlink => g path | _ => fs_fault env op path end;
     late_open := late_open env;
     consent := consent env;
     now := now env |}.

(** The events [s'] has after those of [s]. *)
Definition events_since (s s' : State) (l : list event) : Prop :=
  trace s' = trace s ++ l.

(** ** A sample host *)

Definition posix_join (parts : list string) : string := String.concat "/" parts.

(** The path without its last component, [None] when it has one only. *)
Fixpoint posix_dirname (path : string) : option string :=
  match path with
  | EmptyString => None
  | String c path' =>
      match posix_dirname path' with
      | Some d => Some (String c d)
      | None => if Ascii.eqb c "/"%char then Some EmptyString else None
      end
  end.

Fixpoint posix_ancestors_from (n : nat) (path : string) : list string :=
  match n with
  | O => []
  | S n' =>
      match posix_dirname path with
      | Some (String c d) => String c d :: posix_ancestors_from n' (String c d)
      | _ => []
      end
  end.

(** The directories above a path, the root apart. *)
Definition posix_ancestors (path : string) : list string :=
  posix_ancestors_from (String.length path) path.

(** [JSON.stringify] on values whose strings need no escaping. *)
Fixpoint json_print (v : json) : string :=
  match v with
  | JNull => "null"
  | JBool b => if b then "true" else "false"
  | JNumber text => text
  | JString s => dq +:+ s +:+ dq
  | JArray items => "[" +:+ String.concat "," (map json_print items) +:+ "]"
  | JObject fields =>
      "{" +:+ String.concat ","
                (map (fun kv => dq +:+ fst kv +:+ dq +:+ ":" +:+ json_print (snd kv)) fields)
          +:+ "}"
  end.

(** A parser that knows the texts of the values of [known] and rejects
    every other text. *)
Definition parse_known (known : list json) (text : string) : js_error + json :=
  match List.find (fun j => String.eqb (json_print j) text) known with
  | Some j => inr j
  | None => inl (SyntaxError "Unexpected token in JSON")
  end.

Definition sample_host : Host :=
  {| path_join := posix_join;
     path_ancestors := posix_ancestors;
     module_dirname := "/ext";
     JSON_parse := parse_known [version_record "1.2.0" "2025-01-01T00:00:00.000Z"];
     JSON_stringify := json_print |}.

Definition sample_context : Context := {| globalStorageUri_fsPath := "/store" |}.

Definition no_fault : fs_op -> string -> option js_error := fun _ _ => None.

Definition empty_state : State := {| fs := ∅; trace := [] |}.

(** The command lines of the sample host, for the binary on the search path. *)
Definition sample_version_cmd : string := dq +:+ "anemos" +:+ dq +:+ " --version".

Definition sample_types_dir : string :=
  "/ext/node_modules/anemos-typescript-plugin/.anemos-types".

Definition sample_declarations_cmd : string :=
  dq +:+ "anemos" +:+ dq +:+ " declarations " +:+ dq +:+ sample_types_dir +:+ dq.

(** What [declarations] writes: the output directory and one file of
    declarations. *)
Definition sample_writes (cmd : string) : list (string * fsnode) :=
  if String.eqb cmd sample_declarations_cmd then
    [(sample_types_dir, Dir);
     (sample_types_dir +:+ "/index.d.ts", File "declare module 'anemos';")]
  else [].

(** An environment on Linux, x64, built from the answers of the host; the
    open of a write stream comes before an error of the response. *)
Definition sample_env (processes : string -> js_error + string)
    (site : string -> js_error + response)
    (faults : fs_op -> string -> option js_error)
    (answer : option string) : Env :=
  {| os_platform := "linux";
     os_arch := "x64";
     exec_result := processes;
     exec_writes := sample_writes;
     http_get := site;
     fs_fault := faults;
     late_open := fun _ => false;
     consent := answer;
     now := "2025-06-01T12:00:00.000Z" |}.

(** [env] with the open of every write stream after the error of the
    response. *)
Definition with_late_open (env : Env) : Env :=
  {| os_platform := os_platform env;
     os_arch := os_arch env;
     exec_result := exec_result env;
     exec_writes := exec_writes env;
     http_get := http_get env;
     fs_fault := fs_fault env;
     late_open := fun _ => true;
     consent := consent env;
     now := now env |}.

Definition no_process : string -> js_error + string :=
  fun _ => inl (Error "Command failed").

Definition no_network : string -> js_error + response :=
  fun _ => inl (Error "getaddrinfo ENOTFOUND").

(** Answers of a site, by URL. *)
Fixpoint site_of (pages : list (string * response)) (url : string) : js_error + response :=
  match pages with
  | [] => inl (Error "getaddrinfo ENOTFOUND")
  | (u, r) :: pages' => if String.eqb url u then inr r else site_of pages' url
  end.

Definition redirect_to (status : nat) (target : string) : response :=
  {| statusCode := status; location := Some target; body := EmptyString;
     stream_fault := None |}.

Definition page (status : nat) (content : string) : response :=
  {| statusCode := status; location := None; body := content; stream_fault := None |}.

(** A page whose stream breaks after [n] characters. *)
Definition broken_page (content : string) (n : nat) : response :=
  {| statusCode := 200; location := None; body := content;
     stream_fault := Some (n, Error "read ECONNRESET") |}.

(** The host refuses every unlink. *)
Definition unlink_refused : fs_op -> string -> option js_error :=
  fun op _ =>
    match op with
    | OpUnlink => Some (Error "EPERM: operation not permitted, unlink")
    | _ => None
    end.

(** Answers of processes, by command line. *)
Fixpoint processes_of (answers : list (string * (js_error + string))) (cmd : string)
    : js_error + string :=
  match answers with
  | [] => inl (Error "Command failed")
  | (c, r) :: answers' => if String.eqb cmd c then r else processes_of answers' cmd
  end.

(** Two redirects, then the binary. *)
Definition redirecting_site : string -> js_error + response :=
  site_of [("https://example.org/a", redirect_to 302 "https://example.org/b");
           ("https://example.org/b", redirect_to 301 "https://example.org/c");
           ("https://example.org/c", page 200 "binary")].

(** A state whose file system holds the given files. *)
Definition state_with (files : list (string * string)) : State :=
  {| fs := {| nodes := list_to_map (map (fun pc => (fst pc, File (snd pc))) files);
              streams := [] |};
     trace := [] |}.

(** The binary is on the search path; its [--version] fails, its
    [declarations] works. *)
Definition env_version_query_fails : Env :=
  sample_env
    (processes_of
       [("anemos --help", inr "usage: anemos");
        (sample_version_cmd, inl (Error "Command failed: anemos --version"));
        (sample_declarations_cmd, inr EmptyString)])
    no_network no_fault None.

(** No binary anywhere, and the user answers No. *)
Definition env_user_declines : Env :=
  sample_env no_process no_network no_fault (Some "No").

(** No binary anywhere, the user answers Yes, and the network is down. *)
Definition env_offline : Env :=
  sample_env no_process no_network no_fault (Some "Yes").

(** A response whose stream breaks after three characters. *)
Definition env_stream_breaks (faults : fs_op -> string -> option js_error) : Env :=
  sample_env no_process
    (site_of [("https://example.org/a", broken_page "binary" 3)]) faults None.

(** The release asset breaks after three characters; the user answers Yes. *)
Definition env_release_breaks (faults : fs_op -> string -> option js_error) : Env :=
  sample_env no_process
    (site_of
       [("https://github.com/ohayocorp/anemos/releases/latest/download/anemos-linux-amd64",
         broken_page "binary" 3)])
    faults (Some "Yes").

(** A 204 response. *)
Definition env_no_content (faults : fs_op -> string -> option js_error) : Env :=
  sample_env no_process
    (site_of [("https://example.org/a", page 204 EmptyString)]) faults None.

Definition env_redirects : Env :=
  sample_env no_process redirecting_site no_fault None.

(** A 32-bit macOS host. *)
Definition env_darwin_ia32 : Env :=
  {| os_platform := "darwin";
     os_arch := "ia32";
     exec_result := no_process;
     exec_writes := fun _ => [];
     http_get := no_network;
     fs_fault := no_fault;
     late_open := fun _ => false;
     consent := None;
     now := "2025-06-01T12:00:00.000Z" |}.

(** The tool is on the search path and reports 1.2.0. *)
Definition env_tool_1_2_0 : Env :=
  sample_env
    (processes_of
       [("anemos --help", inr "usage: anemos");
        (sample_version_cmd, inr "1.2.0");
        (sample_declarations_cmd, inr EmptyString)])
    no_network no_fault None.

Definition sample_version_file : string :=
  "/ext/node_modules/anemos-typescript-plugin/.anemos-types/version.json".

(** The version file holds the record of 1.2.0. *)
Definition state_record_1_2_0 : State :=
  state_with
    [(sample_version_file,
      json_print (version_record "1.2.0" "2025-01-01T00:00:00.000Z"))].

(** The prompt of the acquisition step and the error of a refusal. *)
Definition consent_message : string :=
  "Anemos binary not found. Would you like to download it from GitHub?".

Definition declined : js_error :=
  Error "User did not consent to download Anemos binary.".

(** The user chose the Yes button. *)
Definition answers_yes (env : Env) : bool :=
  match consent env with
  | Some choice => String.eqb choice "Yes"
  | None => false
  end.


(** ** Relations between the state before and after a computation *)

(** Under [env], [m] takes every state to one related to it by [R]. *)
Definition preserves (R : State -> State -> Prop) (env : Env) {A} (m : M A) : Prop :=
  forall s, R s (snd (m env s)).

(** The trace only grows. *)
Definition trace_grows (s s' : State) : Prop :=
  exists l, events_since s s' l.

(** The node at [path] is the same. *)
Definition same_at (path : string) (s s' : State) : Prop :=
  fs s' !! path = fs s !! path.

(** Under [env], [m] does not run out of fuel. *)
Definition terminates (env : Env) {A} (m : M A) : Prop :=
  forall s, fst (m env s) <> Diverged.

(** ** Further notions: resolution without acquisition, command lines *)

(** The location that the two probes of [ensureAnemosBinary] find in a
    state, if any: the bare name when the search-path probe succeeds, the
    cache path when it fails and the cache holds a node. *)
Definition located `{Host} (context : Context) (env : Env) (s : State) : option string :=
  match exec_result env (binaryName env +:+ " --help") with
  | inr _ => Some (binaryName env)
  | inl _ =>
      match fs s !! binaryPath context env with
      | Some _ => Some (binaryPath context env)
      | None => None
      end
  end.

(** The host calls of the two probes. *)
Definition probe_events `{Host} (context : Context) (env : Env) : list event :=
  match exec_result env (binaryName env +:+ " --help") with
  | inr _ => [EExec (binaryName env +:+ " --help")]
  | inl _ => [EExec (binaryName env +:+ " --help"); EFs OpExists (binaryPath context env)]
  end.

Definition is_prompt (e : event) : bool :=
  match e with
  | EPrompt _ => true
  | _ => false
  end.

Definition is_request (e : event) : bool :=
  match e with
  | EHttpGet _ => true
  | _ => false
  end.

(** ** The workbench: workspace, terminals, activation *)

(** A call on a terminal object. *)
Inductive terminal_call :=
| TShow                                       (* terminal.show() *)
| TSendText (text : string).                  (* terminal.sendText(text) *)

(** A terminal of the workbench: its name, its exit status ([undefined],
    here [None], while it runs) and the calls made on it, oldest first. *)
Record terminal := {
  terminal_name : string;
  exitStatus : option nat;
  calls : list terminal_call;
}.

(** Calls into the workbench that are not host calls of [State]. *)
Inductive ui_event :=
| UWarning (msg : string)                     (* vscode.window.showWarningMessage *)
| URegisterCommand (name : string)            (* vscode.commands.registerCommand *)
| UOnDidCloseTerminal                         (* vscode.window.onDidCloseTerminal *)
| USubscribe (name : string).                 (* context.subscriptions.push *)

(** What the workbench answers, on top of the host. *)
Record Workbench := {
  host_env : Env;
  workspaceFolders : option (list string);    (* uri.fsPath of each folder *)
}.

(** The state of the workbench and of the module: the host, the
    terminals by handle, the module variable [anemosTerminal] ([null] is
    [None]) and the calls into the workbench. *)
Record WState := {
  host : State;
  terminals : list terminal;
  anemosTerminal : option nat;
  ui : list ui_event;
}.

Definition W (A : Type) : Type := Workbench -> WState -> outcome A * WState.

Definition retW {A} (a : A) : W A := fun _ ws => (Returned a, ws).

Definition throwW {A} (e : js_error) : W A := fun _ ws => (Thrown e, ws).

Definition bindW {A B} (m : W A) (k : A -> W B) : W B :=
  fun wb ws =>
    match m wb ws with
    | (Returned a, ws') => k a wb ws'
    | (Thrown e, ws') => (Thrown e, ws')
    | (Diverged, ws') => (Diverged, ws')
    end.

Definition try_catchW {A} (m : W A) (h : js_error -> W A) : W A :=
  fun wb ws =>
    match m wb ws with
    | (Thrown e, ws') => h e wb ws'
    | r => r
    end.

Declare Scope wb_scope.
Delimit Scope wb_scope with wb.
Notation "x <~ m ;; k" := (bindW m (fun x => k))
  (at level 100, m at next level, right associativity) : wb_scope.
Notation "m ;;~ k" := (bindW m (fun _ => k))
  (at level 100, right associativity) : wb_scope.
Local Open Scope wb_scope.

(** A computation on the host, run in the workbench. *)
Definition liftM {A} (m : M A) : W A :=
  fun wb ws =>
    let (r, s') := m (host_env wb) (host ws) in
    (r, {| host := s'; terminals := terminals ws;
           anemosTerminal := anemosTerminal ws; ui := ui ws |}).

Definition askW : W Workbench := fun wb ws => (Returned wb, ws).

Definition emitW (e : ui_event) : W unit :=
  fun _ ws =>
    (Returned tt,
     {| host := host ws; terminals := terminals ws;
        anemosTerminal := anemosTerminal ws; ui := ui ws ++ [e] |}).

Definition showWarningMessage (msg : string) : W unit := emitW (UWarning msg).

(** Read and write the module variable [anemosTerminal]. *)
Definition get_anemosTerminal : W (option nat) :=
  fun _ ws => (Returned (anemosTerminal ws), ws).

Definition set_anemosTerminal (t : option nat) : W unit :=
  fun _ ws =>
    (Returned tt,
     {| host := host ws; terminals := terminals ws; anemosTerminal := t; ui := ui ws |}).

(** [vscode.window.createTerminal(name)]: a new running terminal; its
    handle is the next free one. *)
Definition createTerminal (name : string) : W nat :=
  fun _ ws =>
    (Returned (length (terminals ws)),
     {| host := host ws;
        terminals := terminals ws ++
          [{| terminal_name := name; exitStatus := None; calls := [] |}];
        anemosTerminal := anemosTerminal ws; ui := ui ws |}).

(** [terminal.exitStatus] *)
Definition terminal_exitStatus (t : nat) : W (option nat) :=
  fun _ ws => (Returned (terminals ws !! t ≫= exitStatus), ws).

Definition record_call (c : terminal_call) (term : terminal) : terminal :=
  {| terminal_name := terminal_name term; exitStatus := exitStatus term;
     calls := calls term ++ [c] |}.

(** A method call on the terminal of handle [t]. *)
Definition terminal_do (t : nat) (c : terminal_call) : W unit :=
  fun _ ws =>
    (Returned tt,
     {| host := host ws; terminals := alter (record_call c) t (terminals ws);
        anemosTerminal := anemosTerminal ws; ui := ui ws |}).

Section Activation.
Context `{Host}.

(** The handler of the command [anemos.build]. *)
Definition buildCommand (fuel : nat) (context : Context) : W unit :=
  wb <~ askW ;;
  (* Get the workspace root path. *)
  match workspaceFolders wb with
  | None | Some [] =>
      liftM (showErrorMessage "No workspace folder is open.")
  | Some (workspaceRoot :: _) =>
      resolved <~
        try_catchW
          (anemosPath <~ liftM (ensureAnemosBinary fuel context) ;; retW (Some anemosPath))
          (fun _ =>
             liftM (showErrorMessage "Failed to find or download Anemos binary.") ;;~
             retW None) ;;
      match resolved with
      | None => retW tt
      | Some anemosPath =>
          (* Check if terminal exists, or if it has been disposed. *)
          current <~ get_anemosTerminal ;;
          stale <~ match current with
                   | None => retW true
                   | Some t =>
                       status <~ terminal_exitStatus t ;;
                       retW (match status with Some _ => true | None => false end)
                   end ;;
          (if stale : bool then
             t <~ createTerminal "Anemos Build" ;; set_anemosTerminal (Some t)
           else retW tt) ;;~
          current <~ get_anemosTerminal ;;
          match current with
          | None => throwW (TypeError "Cannot read properties of null (reading 'show')")
          | Some t =>
              terminal_do t TShow ;;~
              (* Change to workspace root and run build command. *)
              terminal_do t (TSendText ("cd " +:+ dq +:+ workspaceRoot +:+ dq)) ;;~
              terminal_do t (TSendText (dq +:+ anemosPath +:+ dq +:+ " build index.js"))
          end
      end
  end.

(** The listener of [onDidCloseTerminal], called with the handle of the
    terminal that closed. *)
Definition onDidCloseTerminal_listener (t : nat) : W unit :=
  current <~ get_anemosTerminal ;;
  match current with
  | Some t' => if Nat.eqb t t' then set_anemosTerminal None else retW tt
  | None => retW tt
  end.

Definition activate (fuel : nat) (context : Context) : W unit :=
  (* Check for anemos binary at extension initialization. *)
  try_catchW
    (liftM (ensureAnemosBinary fuel context) ;;~
     liftM (ensureTypesAreUpToDate fuel context))
    (fun _ =>
       showWarningMessage
         "Anemos binary not found and could not be downloaded. Some features may not work.") ;;~
  (* Register the anemos build command. *)
  emitW (URegisterCommand "anemos.build") ;;~
  (* Listen for terminal close events to handle terminal disposal. *)
  emitW UOnDidCloseTerminal ;;~
  emitW (USubscribe "anemos.build").

End Activation.

(** The workbench marks the terminal of handle [t] as exited with [code]. *)
Definition terminal_exits (t code : nat) (ws : WState) : WState :=
  {| host := host ws;
     terminals :=
       alter (fun term => {| terminal_name := terminal_name term;
                             exitStatus := Some code; calls := calls term |})
             t (terminals ws);
     anemosTerminal := anemosTerminal ws; ui := ui ws |}.

(** The calls that one build makes on its terminal. *)
Definition build_calls (workspaceRoot anemosPath : string) : list terminal_call :=
  [TShow;
   TSendText ("cd " +:+ dq +:+ workspaceRoot +:+ dq);
   TSendText (dq +:+ anemosPath +:+ dq +:+ " build index.js")].

Definition record_calls (cs : list terminal_call) (term : terminal) : terminal :=
  {| terminal_name := terminal_name term; exitStatus := exitStatus term;
     calls := calls term ++ cs |}.

(** A sample workbench with one folder open. *)
Definition sample_workbench (env : Env) : Workbench :=
  {| host_env := env; workspaceFolders := Some ["/home/dev/project"] |}.

Definition fresh_wstate : WState :=
  {| host := empty_state; terminals := []; anemosTerminal := None; ui := [] |}.

(** [ws] with the host state [s]. *)
Definition with_host (s : State) (ws : WState) : WState :=
  {| host := s; terminals := terminals ws;
     anemosTerminal := anemosTerminal ws; ui := ui ws |}.

(** The test of the build handler: no terminal is remembered, or the one
    remembered has an exit status. *)
Definition terminal_is_stale (ws : WState) : bool :=
  match anemosTerminal ws with
  | None => true
  | Some t =>
      match terminals ws !! t ≫= exitStatus with
      | Some _ => true
      | None => false
      end
  end.

(** A new terminal that has received the calls [cs]. *)
Definition new_terminal (name : string) (cs : list terminal_call) : terminal :=
  {| terminal_name := name; exitStatus := None; calls := cs |}.

Definition log_error (msg : string) (s : State) : State :=
  {| fs := fs s; trace := trace s ++ [EErrorMsg msg] |}.

(** ** Which host calls a computation makes *)

(** From [s] to [s'] the trace grew by events that all satisfy [P]. *)
Definition only (P : event -> bool) (s s' : State) : Prop :=
  exists l, trace s' = trace s ++ l /\ forallb P l = true.

(** The host calls of a download to [dest]: requests, and the existence
    test, the open and the unlink of [dest]. *)
Definition download_call (dest : string) (e : event) : bool :=
  match e with
  | EHttpGet _ => true
  | EFs OpExists path | EFs OpOpen path | EFs OpUnlink path => String.eqb path dest
  | _ => false
  end.

(** Neither a prompt nor a request. *)
Definition silent_call (e : event) : bool := negb (is_prompt e) && negb (is_request e).

(** No prompt. *)
Definition unprompted_call (e : event) : bool := negb (is_prompt e).

(** The number of prompts in a trace. *)
Definition prompts (t : list event) : nat := length (List.filter is_prompt t).

(** From a state with the location [p] in reach, the location stays in
    reach and the calls made are silent. *)
Definition silent_from `{Host} (context : Context) (env : Env) (p : string)
    (s s' : State) : Prop :=
  located context env s = Some p ->
  located context env s' = Some p /\ only silent_call s s'.

(** ** Further sample worlds *)

(** A host whose parser knows the texts of [known]. *)
Definition host_knowing (known : list json) : Host :=
  {| path_join := posix_join;
     path_ancestors := posix_ancestors;
     module_dirname := "/ext";
     JSON_parse := parse_known known;
     JSON_stringify := json_print |}.

Definition sample_release_url : string :=
  "https://github.com/ohayocorp/anemos/releases/latest/download/anemos-linux-amd64".

(** The release URL redirects once, to the binary; the user answers Yes. *)
Definition env_release_available : Env :=
  sample_env no_process
    (site_of [(sample_release_url, redirect_to 302 "https://objects.example.org/anemos");
              ("https://objects.example.org/anemos", page 200 "binary")])
    no_fault (Some "Yes").

(** A redirect to itself. *)
Definition env_redirect_cycle : Env :=
  sample_env no_process
    (site_of [("https://example.org/a", redirect_to 301 "https://example.org/a")])
    no_fault None.

(** The host refuses to open files for writing. *)
Definition open_refused : fs_op -> string -> option js_error :=
  fun op _ =>
    match op with
    | OpOpen => Some (Error "EACCES: permission denied, open")
    | _ => None
    end.

Definition env_open_refused : Env :=
  sample_env no_process
    (site_of [("https://example.org/a", page 200 "binary")]) open_refused None.

(** The tool is on the search path and reports 2.0.0. *)
Definition env_tool_2_0_0 : Env :=
  sample_env
    (processes_of
       [("anemos --help", inr "usage: anemos");
        (sample_version_cmd, inr "2.0.0");
        (sample_declarations_cmd, inr EmptyString)])
    no_network no_fault None.

(** The version file holds the text null. *)
Definition state_record_null : State := state_with [(sample_version_file, "null")].

(** The version file holds a record that says unknown. *)
Definition state_record_unknown : State :=
  state_with
    [(sample_version_file,
      json_print (version_record "unknown" "2025-01-01T00:00:00.000Z"))].

(** A workbench state with one running terminal, remembered. *)
Definition wstate_with_terminal : WState :=
  {| host := empty_state;
     terminals := [new_terminal "Anemos Build" []];
     anemosTerminal := Some 0;
     ui := [] |}.

(** ** What the regeneration is made of *)

(** The first host call of [generateAnemosTypes]. *)
Definition generation_log (outputDir : string) : event :=
  ELog ("Generating Anemos type definitions in " +:+ outputDir).

(** The state in which [generateAnemosTypes] resolves the binary. *)
Definition generation_started (outputDir : string) (s : State) : State :=
  {| fs := fs s; trace := trace s ++ [generation_log outputDir] |}.

(** Every host call but a [writeFileSync]. *)
Definition not_write (e : event) : bool :=
  match e with
  | EFs OpWrite _ => false
  | _ => true
  end.

(** ** Sample worlds for the download and the regeneration *)

(** A redirect, then a 204. *)
Definition env_redirect_then_no_content (faults : fs_op -> string -> option js_error) : Env :=
  sample_env no_process
    (site_of [("https://example.org/a", redirect_to 302 "https://example.org/b");
              ("https://example.org/b", page 204 EmptyString)])
    faults None.

(** The tool is on the search path and reports 0.0.0. *)
Definition env_tool_0_0_0 : Env :=
  sample_env
    (processes_of
       [("anemos --help", inr "usage: anemos");
        (sample_version_cmd, inr "0.0.0");
        (sample_declarations_cmd, inr EmptyString)])
    no_network no_fault None.

(** The tool is on the search path and reports 1.2.0; its declarations
    command fails. *)
Definition env_declarations_fail : Env :=
  sample_env
    (processes_of
       [("anemos --help", inr "usage: anemos");
        (sample_version_cmd, inr "1.2.0");
        (sample_declarations_cmd, inl (Error "Command failed: anemos declarations"))])
    no_network no_fault None.

(** The version file holds the record of 0.0.0. *)
Definition state_record_0_0_0 : State :=
  state_with
    [(sample_version_file,
      json_print (version_record "0.0.0" "2025-01-01T00:00:00.000Z"))].

(** A storage directory two levels down. *)
Definition deep_context : Context := {| globalStorageUri_fsPath := "/home/dev/store" |}.

(** * Properties *)

(** One step of a computation run on a state: unfold the outermost [bind]
    and the state access at its head. *)
Ltac step :=
  unfold bind at 1;
  first [unfold ask at 1 | unfold emit at 1 | unfold get_fs at 1 | unfold put_fs at 1];
  cbv beta iota zeta; cbn [fs trace].

(** Unfold the operations of the monad and the host calls. *)
Ltac unfold_ops :=
  unfold cleanupPartialFile, fs_existsSync, fs_mkdirSync, fs_readFileSync,
    fs_writeFileSync, fs_chmodSync, fsUnlink, check_fault, exec, https_get,
    showInformationMessage_choice, showInformationMessage, showErrorMessage,
    console_log, executeCommand, lift_sum, bind, try_catch, emit, ask, get_fs,
    put_fs, ret, throw, diverge;
  cbn [fst snd fs trace].

(** ** The file system *)

Lemma fs_lookup_insert_eq (f : FileSystem) path node :
  <[path := node]> f !! path = Some node.
Proof. apply (lookup_insert_eq (nodes f)). Qed.

Lemma fs_lookup_insert_ne (f : FileSystem) path path' node :
  path <> path' -> <[path := node]> f !! path' = f !! path'.
Proof. apply (lookup_insert_ne (nodes f)). Qed.

Lemma fs_lookup_delete_eq (f : FileSystem) path : delete path f !! path = None.
Proof. apply (lookup_delete_eq (nodes f)). Qed.

Lemma fs_lookup_delete_ne (f : FileSystem) path path' :
  path <> path' -> delete path f !! path' = f !! path'.
Proof. apply (lookup_delete_ne (nodes f)). Qed.

Lemma fs_insert_id (f : FileSystem) path node :
  f !! path = Some node -> <[path := node]> f = f.
Proof.
  intros Hnode. destruct f as [n st]. unfold insert, fs_insert. cbn [nodes streams].
  f_equal. by apply insert_id.
Qed.

Lemma fs_lookup_leave_stream (f : FileSystem) path data path' :
  leave_stream path data f !! path' = f !! path'.
Proof. reflexivity. Qed.

(** A path outside of [dirs] is as it was. *)
Lemma fs_lookup_make_dirs_ne (f : FileSystem) dirs path :
  ~ In path dirs -> make_dirs dirs f !! path = f !! path.
Proof.
  induction dirs as [|d dirs IH]; cbn [make_dirs fold_right In]; [done|].
  intros Hout. rewrite fs_lookup_insert_ne by (intros ->; apply Hout; by left).
  apply IH. intros Hin. apply Hout. by right.
Qed.

Lemma fs_lookup_make_dirs_in (f : FileSystem) dirs path :
  In path dirs -> make_dirs dirs f !! path = Some Dir.
Proof.
  induction dirs as [|d dirs IH]; cbn [make_dirs fold_right In]; [done|].
  intros [-> | Hin]; [apply fs_lookup_insert_eq|].
  destruct (decide (d = path)) as [-> | Hne]; [apply fs_lookup_insert_eq|].
  rewrite fs_lookup_insert_ne by done. by apply IH.
Qed.


(** A node found after the writes was there before or was written. *)
Lemma fs_lookup_write_all writes : forall (f : FileSystem) path node,
  write_all writes f !! path = Some node ->
  f !! path = Some node \/ In (path, node) writes.
Proof.
  induction writes as [|[p n] writes IH]; intros f path node; cbn [write_all fold_left];
    [by left|].
  change (write_all writes (<[p := n]> f) !! path = Some node ->
          f !! path = Some node \/ In (path, node) ((p, n) :: writes)).
  intros Hnode. apply IH in Hnode as [Hnode | Hin]; [| right; by right].
  destruct (decide (p = path)) as [-> | Hne].
  - rewrite fs_lookup_insert_eq in Hnode. injection Hnode as ->. right. by left.
  - rewrite fs_lookup_insert_ne in Hnode by done. by left.
Qed.

(** A node stays a node under writes. *)
Lemma fs_lookup_write_all_some writes : forall (f : FileSystem) path node,
  f !! path = Some node -> exists node', write_all writes f !! path = Some node'.
Proof.
  induction writes as [|[p n] writes IH]; intros f path node Hnode;
    cbn [write_all fold_left]; [by exists node|].
  change (exists node', write_all writes (<[p := n]> f) !! path = Some node').
  destruct (decide (p = path)) as [-> | Hne].
  - eapply IH. apply fs_lookup_insert_eq.
  - eapply IH. rewrite fs_lookup_insert_ne by done. exact Hnode.
Qed.

Lemma fs_delete_delete (f : FileSystem) path : delete path (delete path f) = delete path f.
Proof.
  destruct f as [n st]. unfold delete, fs_delete. cbn [nodes streams]. f_equal.
  apply delete_delete_eq.
Qed.

(** A stream on another path leaves the node of a path as it is. *)
Lemma land_lookup_ne env (n : gmap string fsnode) stream path :
  fst stream <> path -> land env n stream !! path = n !! path.
Proof.
  destruct stream as [p d]. cbn [fst]. intros Hne. unfold land.
  destruct (n !! p) as [[c|]|]; try reflexivity;
    (destruct (fs_fault env OpWrite p); [destruct (fs_fault env OpUnlink p)|]);
    first [by apply lookup_insert_ne | by apply lookup_delete_ne].
Qed.

(** With no write stream left open on it, a path is in the end as it is. *)
Lemma settle_lookup_ne env (f : FileSystem) path :
  ~ In path (map fst (streams f)) -> settle env f !! path = f !! path.
Proof.
  destruct f as [n st]. unfold settle, lookup at 1, fs_lookup. cbn [nodes streams].
  unfold lookup at 2, fs_lookup. cbn [nodes].
  revert n. induction st as [|stream st IH]; intros n Hout; cbn [fold_left]; [done|].
  rewrite IH by (intros Hin; apply Hout; by right).
  apply land_lookup_ne. intros Heq. apply Hout. by left.
Qed.

(** ** Equations of the monad *)

Lemma try_catch_bind_returned {A B} (m : M A) (k : A -> M B) h env s a s1 :
  m env s = (Returned a, s1) ->
  try_catch (bind m k) h env s = try_catch (k a) h env s1.
Proof. intros Hm. unfold try_catch, bind. rewrite Hm. reflexivity. Qed.

Lemma bind_unfold {A B} (m : M A) (k : A -> M B) env s :
  bind m k env s =
    match m env s with
    | (Returned a, s') => k a env s'
    | (Thrown e, s') => (Thrown e, s')
    | (Diverged, s') => (Diverged, s')
    end.
Proof. reflexivity. Qed.

Lemma bind_returned {A B} (m : M A) (k : A -> M B) env s a s1 :
  m env s = (Returned a, s1) -> bind m k env s = k a env s1.
Proof. intros Hm. unfold bind. rewrite Hm. reflexivity. Qed.

Lemma try_catch_returned {A} (m : M A) h env s a s1 :
  m env s = (Returned a, s1) -> try_catch m h env s = (Returned a, s1).
Proof. intros Hm. unfold try_catch. rewrite Hm. reflexivity. Qed.

Lemma try_catch_thrown {A} (m : M A) h env s e s1 :
  m env s = (Thrown e, s1) -> try_catch m h env s = h e env s1.
Proof. intros Hm. unfold try_catch. rewrite Hm. reflexivity. Qed.

(** ** Rules for the state relations *)

Section Preservation.
Variable R : State -> State -> Prop.
Variable allowed : string -> Prop.
Variable env : Env.
Context `{!Reflexive R, !Transitive R}.
Context `{Host}.
Hypothesis R_emit : forall s e,
  R s {| fs := fs s; trace := trace s ++ [e] |}.
Hypothesis R_insert : forall s path node,
  allowed path -> R s {| fs := <[path := node]> (fs s); trace := trace s |}.
Hypothesis R_delete : forall s path,
  allowed path -> R s {| fs := delete path (fs s); trace := trace s |}.
Hypothesis R_leave : forall s path data,
  allowed path -> R s {| fs := leave_stream path data (fs s); trace := trace s |}.

Lemma preserves_ret {A} (a : A) : preserves R env (ret a).
Proof. intros s. reflexivity. Qed.

Lemma preserves_throw {A} e : preserves R env (@throw A e).
Proof. intros s. reflexivity. Qed.

Lemma preserves_diverge {A} : preserves R env (@diverge A).
Proof. intros s. reflexivity. Qed.

Lemma preserves_bind {A B} (m : M A) (k : A -> M B) :
  preserves R env m -> (forall a, preserves R env (k a)) -> preserves R env (bind m k).
Proof.
  intros Hm Hk s. unfold bind. specialize (Hm s).
  destruct (m env s) as [[a|e|] s1]; cbn [snd] in *; try exact Hm.
  etransitivity; [exact Hm | apply Hk].
Qed.

Lemma preserves_try_catch {A} (m : M A) (h : js_error -> M A) :
  preserves R env m -> (forall e, preserves R env (h e)) -> preserves R env (try_catch m h).
Proof.
  intros Hm Hh s. unfold try_catch. specialize (Hm s).
  destruct (m env s) as [[a|e|] s1]; cbn [snd] in *; try exact Hm.
  etransitivity; [exact Hm | apply Hh].
Qed.

Lemma preserves_ask : preserves R env ask.
Proof. intros s. reflexivity. Qed.

Lemma preserves_ask_bind {A} (k : Env -> M A) :
  preserves R env (k env) -> preserves R env (bind ask k).
Proof. intros Hk s. exact (Hk s). Qed.

Lemma preserves_get_fs : preserves R env get_fs.
Proof. intros s. reflexivity. Qed.

Lemma preserves_emit e : preserves R env (emit e).
Proof. intros s. apply R_emit. Qed.

Lemma preserves_lift_sum {A} (r : js_error + A) : preserves R env (lift_sum r).
Proof. destruct r; [apply preserves_throw | apply preserves_ret]. Qed.

Lemma preserves_check_fault op path : preserves R env (check_fault op path).
Proof.
  intros s. unfold check_fault, bind, ask. cbn.
  destruct (fs_fault env op path); reflexivity.
Qed.

Lemma preserves_exec cmd : preserves R env (exec cmd).
Proof.
  unfold exec. apply preserves_bind; [apply preserves_emit | intros _].
  apply preserves_bind; [apply preserves_ask | intros env'].
  apply preserves_lift_sum.
Qed.

Lemma R_write_all writes : forall s,
  Forall (fun w => allowed (fst w)) writes ->
  R s {| fs := write_all writes (fs s); trace := trace s |}.
Proof.
  induction writes as [|[p n] writes IH]; intros s Hall.
  - by destruct s.
  - apply Forall_cons in Hall as [Hp Hall]. cbn [fst] in Hp.
    etransitivity; [apply (R_insert s p n Hp)|].
    exact (IH {| fs := <[p := n]> (fs s); trace := trace s |} Hall).
Qed.

Lemma R_make_dirs dirs s :
  Forall allowed dirs ->
  R s {| fs := make_dirs dirs (fs s); trace := trace s |}.
Proof.
  induction dirs as [|d dirs IH]; intros Hall.
  - by destruct s.
  - apply Forall_cons in Hall as [Hd Hall].
    etransitivity; [apply (IH Hall)|].
    exact (R_insert {| fs := make_dirs dirs (fs s); trace := trace s |} d Dir Hd).
Qed.

Lemma preserves_exec_writing cmd :
  Forall (fun w => allowed (fst w)) (exec_writes env cmd) ->
  preserves R env (exec_writing cmd).
Proof.
  intros Hall s. unfold exec_writing, bind, emit, ask, get_fs, put_fs. cbn [fs trace].
  assert (Hs : R s {| fs := write_all (exec_writes env cmd) (fs s);
                      trace := trace s ++ [EExec cmd] |}).
  { etransitivity; [apply (R_emit s (EExec cmd))|].
    apply (R_write_all _ {| fs := fs s; trace := trace s ++ [EExec cmd] |} Hall). }
  by destruct (exec_result env cmd).
Qed.

Lemma preserves_https_get url : preserves R env (https_get url).
Proof.
  destruct url as [u|]; cbn.
  - apply preserves_bind; [apply preserves_emit | intros _].
    apply preserves_bind; [apply preserves_ask | intros env'].
    apply preserves_lift_sum.
  - apply preserves_bind; [apply preserves_emit | intros _].
    apply preserves_ask_bind.
    destruct (http_get env default_url); [apply preserves_throw | apply preserves_diverge].
Qed.

Lemma preserves_choice msg : preserves R env (showInformationMessage_choice msg).
Proof.
  unfold showInformationMessage_choice.
  apply preserves_bind; [apply preserves_emit | intros _].
  apply preserves_bind; [apply preserves_ask | intros env']. apply preserves_ret.
Qed.

Lemma preserves_existsSync path : preserves R env (fs_existsSync path).
Proof.
  unfold fs_existsSync.
  apply preserves_bind; [apply preserves_emit | intros _].
  apply preserves_bind; [apply preserves_get_fs | intros f]. apply preserves_ret.
Qed.

(** [put_fs] of the file system just read, changed at one allowed path. *)
Lemma R_after_emit s e path node :
  allowed path ->
  R s {| fs := <[path := node]> (fs s); trace := trace s ++ [e] |}.
Proof.
  intros Hp. etransitivity; [apply (R_emit s e)|].
  apply (R_insert {| fs := fs s; trace := trace s ++ [e] |} path node Hp).
Qed.

Lemma preserves_mkdirSync path :
  Forall allowed (path :: path_ancestors path) -> preserves R env (fs_mkdirSync path).
Proof.
  intros Hp s. unfold fs_mkdirSync, check_fault, bind, emit, ask, get_fs, put_fs, throw, ret.
  cbn [fs trace fst snd].
  destruct (fs_fault env OpMkdir path); cbn [fs trace fst snd]; [apply R_emit|].
  assert (Hdirs : R s {| fs := make_dirs (path :: path_ancestors path) (fs s);
                         trace := trace s ++ [EFs OpMkdir path] |}).
  { etransitivity; [apply (R_emit s (EFs OpMkdir path))|].
    apply (R_make_dirs _ {| fs := fs s; trace := trace s ++ [EFs OpMkdir path] |} Hp). }
  destruct (fs s !! path) as [[c|]|]; cbn [fs trace fst snd]; [apply R_emit | ..];
    destruct (existsb _ _); cbn [fs trace fst snd]; first [apply R_emit | exact Hdirs].
Qed.

Lemma preserves_readFileSync path : preserves R env (fs_readFileSync path).
Proof.
  intros s. unfold fs_readFileSync, check_fault, bind, emit, ask, get_fs, throw, ret.
  cbn. destruct (fs_fault env OpRead path); cbn; [apply R_emit|].
  destruct (fs s !! path) as [[c|]|]; cbn; apply R_emit.
Qed.

Lemma preserves_writeFileSync path data :
  allowed path -> preserves R env (fs_writeFileSync path data).
Proof.
  intros Hp s. unfold fs_writeFileSync, check_fault, bind, emit, ask, get_fs, put_fs, throw, ret.
  cbn. destruct (fs_fault env OpWrite path); cbn; [apply R_emit|].
  destruct (fs s !! path) as [[c|]|]; cbn;
    first [apply R_emit | apply R_after_emit; exact Hp].
Qed.

Lemma preserves_chmodSync path mode : preserves R env (fs_chmodSync path mode).
Proof.
  intros s. unfold fs_chmodSync, check_fault, bind, emit, ask, get_fs, throw, ret.
  cbn. destruct (fs_fault env OpChmod path); cbn; [apply R_emit|].
  destruct (fs s !! path) as [[c|]|]; cbn; apply R_emit.
Qed.

Lemma preserves_unlink path : allowed path -> preserves R env (fsUnlink path).
Proof.
  intros Hp s. unfold fsUnlink, check_fault, bind, emit, ask, get_fs, put_fs, throw, ret.
  cbn. destruct (fs_fault env OpUnlink path); cbn; [apply R_emit|].
  destruct (fs s !! path) as [[c|]|]; cbn; try apply R_emit.
  etransitivity; [apply (R_emit s (EFs OpUnlink path))|].
  apply (R_delete {| fs := fs s; trace := trace s ++ [EFs OpUnlink path] |} path Hp).
Qed.

(** The cleanup of the two error handlers: unlink, ignoring its failure. *)
Lemma preserves_cleanup path (m : M unit) :
  allowed path ->
  preserves R env m ->
  preserves R env (try_catch (fsUnlink path) (fun _ => ret tt) ;;; m).
Proof.
  intros Hp Hm. apply preserves_bind; [| intros _; exact Hm].
  apply preserves_try_catch; [apply preserves_unlink; exact Hp | intros e; apply preserves_ret].
Qed.

Lemma preserves_cleanupPartialFile dest :
  allowed dest -> preserves R env (cleanupPartialFile dest).
Proof.
  intros Hp. apply preserves_try_catch; [| intros e'; apply preserves_ret].
  apply preserves_bind; [apply preserves_existsSync | intros present].
  destruct present; [apply preserves_unlink; exact Hp | apply preserves_ret].
Qed.

Lemma preserves_writeResponseToFile r dest :
  allowed dest -> preserves R env (writeResponseToFile r dest).
Proof.
  intros Hp s. unfold writeResponseToFile. step. step.
  pose (s0 := {| fs := fs s; trace := trace s ++ [EFs OpOpen dest] |}).
  assert (Hs0 : R s s0) by apply R_emit.
  assert (Hclean : forall err s1, R s s1 ->
    R s (snd ((try_catch (fsUnlink dest) (fun _ => ret tt) ;;; @throw unit err) env s1))).
  { intros err s1 Hs1. etransitivity; [exact Hs1|].
    apply (preserves_cleanup dest (throw err) Hp (preserves_throw err)). }
  destruct (fs_fault env OpOpen dest) as [err|]; [apply Hclean; exact Hs0|].
  step.
  assert (Hput : forall node, R s {| fs := <[dest := node]> (fs s); trace := trace s0 |}).
  { intros node. etransitivity; [exact Hs0|]. apply (R_insert s0 dest node Hp). }
  assert (Hleave : forall data,
    R s {| fs := leave_stream dest data (fs s); trace := trace s0 |}).
  { intros data. etransitivity; [exact Hs0|]. apply (R_leave s0 dest data Hp). }
  destruct (fs s !! dest) as [[c|]|]; [| apply Hclean; exact Hs0 |];
    (destruct (stream_fault r) as [[n err]|];
     [destruct (late_open env dest); step; [apply Hleave|] |]; step;
     (destruct (fs_fault env OpWrite dest) as [err'|]; [apply Hclean, Hput|]);
     try step; apply Hput).
Qed.

Lemma preserves_downloadFile fuel url dest :
  allowed dest -> preserves R env (downloadFile fuel url dest).
Proof.
  intros Hp. revert url. induction fuel as [|fuel IH]; intros url; cbn [downloadFile]; unfold downloadFile_try.
  - apply preserves_diverge.
  - apply preserves_try_catch.
    + apply preserves_bind; [apply preserves_https_get | intros r].
      destruct (Nat.eqb (statusCode r) 302 || Nat.eqb (statusCode r) 301); [apply IH|].
      destruct (negb (Nat.eqb (statusCode r) 200));
        [apply preserves_throw | apply preserves_writeResponseToFile; exact Hp].
    + intros e. apply preserves_bind; [| intros _; apply preserves_throw].
      apply preserves_cleanupPartialFile; exact Hp.
Qed.

(** The functions of the extension: the file system changes at the cache
    path, the storage directories, the version file and where the
    declarations command writes. *)
Ltac preserved :=
  repeat first
    [ assumption
    | match goal with
      | |- forall _, _ => intro
      | |- preserves _ _ (bind ask _) => apply preserves_ask_bind
      | |- preserves _ _ (bind _ _) => apply preserves_bind
      | |- preserves _ _ (try_catch _ _) => apply preserves_try_catch
      | |- preserves _ _ (ret _) => apply preserves_ret
      | |- preserves _ _ (throw _) => apply preserves_throw
      | |- preserves _ _ (emit _) => apply preserves_emit
      | |- preserves _ _ (exec _) => apply preserves_exec
      | |- preserves _ _ (exec_writing _) => apply preserves_exec_writing
      | |- Forall _ _ => solve [auto]
      | |- preserves _ _ (showInformationMessage_choice _) => apply preserves_choice
      | |- preserves _ _ (fs_existsSync _) => apply preserves_existsSync
      | |- preserves _ _ (fs_readFileSync _) => apply preserves_readFileSync
      | |- preserves _ _ (fs_chmodSync _ _) => apply preserves_chmodSync
      | |- preserves _ _ (lift_sum _) => apply preserves_lift_sum
      | |- preserves _ _ (fs_mkdirSync _) => apply preserves_mkdirSync
      | |- preserves _ _ (fs_writeFileSync _ _) => apply preserves_writeFileSync
      | |- preserves _ _ (downloadFile _ _ _) => apply preserves_downloadFile
      | |- preserves _ _ (if ?b then _ else _) => destruct b
      | |- preserves _ _ (match ?x with _ => _ end) => destruct x
      end ].

Lemma preserves_downloadAnemosBinary fuel context :
  allowed (binaryPath context env) ->
  Forall allowed (storage_dirs context) ->
  preserves R env (downloadAnemosBinary fuel context).
Proof.
  intros Hbin Hdir. unfold downloadAnemosBinary, showInformationMessage, showErrorMessage.
  preserved.
Qed.

(** Acquisition relates the state after the prompt to the final one. *)
Lemma preserves_after_prompt fuel context s :
  allowed (binaryPath context env) ->
  Forall allowed (storage_dirs context) ->
  R {| fs := fs s; trace := trace s ++ [EPrompt consent_message] |}
    (snd (downloadAnemosBinary fuel context env s)).
Proof.
  intros Hbin Hdir. unfold downloadAnemosBinary. unfold bind at 1, ask at 1.
  rewrite (try_catch_bind_returned _ _ _ env s (consent env)
             {| fs := fs s; trace := trace s ++ [EPrompt consent_message] |})
    by reflexivity.
  match goal with
  | |- R ?s1 (snd (try_catch ?m ?h env ?s1)) =>
      generalize s1; change (preserves R env (try_catch m h))
  end.
  unfold showInformationMessage, showErrorMessage. preserved.
Qed.

Lemma preserves_ensureAnemosBinary fuel context :
  allowed (binaryPath context env) ->
  Forall allowed (storage_dirs context) ->
  preserves R env (ensureAnemosBinary fuel context).
Proof.
  intros Hbin Hdir. unfold ensureAnemosBinary.
  pose proof (preserves_downloadAnemosBinary fuel context Hbin Hdir). preserved.
Qed.

Lemma preserves_getAnemosToolVersion fuel context :
  allowed (binaryPath context env) ->
  Forall allowed (storage_dirs context) ->
  preserves R env (getAnemosToolVersion fuel context).
Proof.
  intros Hbin Hdir. unfold getAnemosToolVersion, getAnemosToolVersion_try, console_log.
  pose proof (preserves_ensureAnemosBinary fuel context Hbin Hdir). preserved.
Qed.

Lemma preserves_generateAnemosTypes fuel context outputDir :
  allowed (binaryPath context env) ->
  Forall allowed (storage_dirs context) ->
  (forall anemosPath,
     Forall (fun w => allowed (fst w))
       (exec_writes env (declarations_cmd anemosPath outputDir))) ->
  preserves R env (generateAnemosTypes fuel context outputDir).
Proof.
  intros Hbin Hdir Hwrites. unfold generateAnemosTypes, console_log.
  unfold declarations_cmd in Hwrites.
  pose proof (preserves_ensureAnemosBinary fuel context Hbin Hdir). preserved.
Qed.

Lemma preserves_checkNeedsUpdate currentVersion :
  preserves R env (checkNeedsUpdate currentVersion).
Proof. unfold checkNeedsUpdate, console_log. preserved. Qed.

Lemma preserves_regenerateIfStale fuel context currentVersion :
  allowed (binaryPath context env) ->
  Forall allowed (storage_dirs context) ->
  (forall anemosPath,
     Forall (fun w => allowed (fst w))
       (exec_writes env (declarations_cmd anemosPath typesDir))) ->
  allowed versionFilePath ->
  preserves R env (regenerateIfStale fuel context currentVersion).
Proof.
  intros Hbin Hdir Hwrites Hver.
  unfold regenerateIfStale, regenerate, console_log, executeCommand.
  pose proof (preserves_checkNeedsUpdate currentVersion).
  pose proof (preserves_generateAnemosTypes fuel context typesDir Hbin Hdir Hwrites).
  preserved.
Qed.

Lemma preserves_ensureTypesAreUpToDate fuel context :
  allowed (binaryPath context env) ->
  Forall allowed (storage_dirs context) ->
  (forall anemosPath,
     Forall (fun w => allowed (fst w))
       (exec_writes env (declarations_cmd anemosPath typesDir))) ->
  allowed versionFilePath ->
  preserves R env (ensureTypesAreUpToDate fuel context).
Proof.
  intros Hbin Hdir Hwrites Hver.
  unfold ensureTypesAreUpToDate, ensureTypesAreUpToDate_try, console_log.
  pose proof (preserves_getAnemosToolVersion fuel context Hbin Hdir).
  pose proof (fun v => preserves_regenerateIfStale fuel context v Hbin Hdir Hwrites Hver).
  preserved.
Qed.

End Preservation.

(** The two relations in use. *)

#[local] Instance trace_grows_refl : Reflexive trace_grows.
Proof. intros s. exists []. unfold events_since. by rewrite app_nil_r. Qed.

#[local] Instance trace_grows_trans : Transitive trace_grows.
Proof.
  intros s1 s2 s3 [l1 H1] [l2 H2]. exists (l1 ++ l2). unfold events_since in *.
  by rewrite H2, H1, app_assoc.
Qed.

#[local] Instance same_at_refl path : Reflexive (same_at path).
Proof. intros s. reflexivity. Qed.

#[local] Instance same_at_trans path : Transitive (same_at path).
Proof. intros s1 s2 s3 H1 H2. unfold same_at in *. congruence. Qed.

Section Frames.
Context `{Host}.
Variables (fuel : nat) (context : Context) (env : Env).

Lemma trace_grows_emit s e : trace_grows s {| fs := fs s; trace := trace s ++ [e] |}.
Proof. by exists [e]. Qed.

Lemma trace_grows_fs s f : trace_grows s {| fs := f; trace := trace s |}.
Proof. exists []. unfold events_since. cbn. by rewrite app_nil_r. Qed.

Lemma not_in_forall (path : string) (l : list string) :
  ~ In path l -> Forall (fun p => path <> p) l.
Proof. intros Hout. apply List.Forall_forall. intros p Hin ->. by apply Hout. Qed.

Lemma not_written_forall (path : string) (writes : list (string * fsnode)) :
  ~ In path (map fst writes) -> Forall (fun w => path <> fst w) writes.
Proof.
  intros Hout. apply List.Forall_forall. intros w Hin Heq. apply Hout.
  rewrite Heq. by apply in_map.
Qed.

(** The rules of [same_at] for the changes of the file system. *)
Ltac frame_rules :=
  try apply _; try done; unfold same_at; cbn [fs trace]; intros;
  first [ by apply fs_lookup_insert_ne
        | by apply fs_lookup_delete_ne
        | apply fs_lookup_leave_stream
        | by apply not_in_forall
        | by apply not_written_forall
        | idtac ].

(** Outside of the cache path and the storage directories, resolution
    leaves the file system as it is. *)
Lemma ensureAnemosBinary_same_at path :
  path <> binaryPath context env ->
  ~ In path (storage_dirs context) ->
  preserves (same_at path) env (ensureAnemosBinary fuel context).
Proof.
  intros Hbin Hdir.
  apply (preserves_ensureAnemosBinary (same_at path) (fun p => path <> p)); frame_rules.
Qed.

Lemma getAnemosToolVersion_same_at path :
  path <> binaryPath context env ->
  ~ In path (storage_dirs context) ->
  preserves (same_at path) env (getAnemosToolVersion fuel context).
Proof.
  intros Hbin Hdir.
  apply (preserves_getAnemosToolVersion (same_at path) (fun p => path <> p)); frame_rules.
Qed.

Lemma generateAnemosTypes_same_at path outputDir :
  path <> binaryPath context env ->
  ~ In path (storage_dirs context) ->
  (forall anemosPath,
     ~ In path (map fst (exec_writes env (declarations_cmd anemosPath outputDir)))) ->
  preserves (same_at path) env (generateAnemosTypes fuel context outputDir).
Proof.
  intros Hbin Hdir Hwrites.
  apply (preserves_generateAnemosTypes (same_at path) (fun p => path <> p)); frame_rules.
Qed.

(** A pass changes the file system at the cache path, the storage
    directories, the version file and where [declarations] writes, and
    nowhere else. *)
Lemma ensureTypesAreUpToDate_same_at path :
  path <> binaryPath context env ->
  ~ In path (storage_dirs context) ->
  (forall anemosPath,
     ~ In path (map fst (exec_writes env (declarations_cmd anemosPath typesDir)))) ->
  path <> versionFilePath ->
  preserves (same_at path) env (ensureTypesAreUpToDate fuel context).
Proof.
  intros Hbin Hdir Hwrites Hver.
  apply (preserves_ensureTypesAreUpToDate (same_at path) (fun p => path <> p)); frame_rules.
Qed.


End Frames.

(** ** Release URL *)

(** C7: whatever the platform and the architecture, the release URL holds
    one occurrence of one platform identifier among windows, darwin, linux
    and one occurrence of one architecture identifier among amd64, arm64;
    an architecture other than x64 and arm64 gives amd64; and the version
    component of the path is the token latest. *)
Theorem release_url_shape (env : Env) :
  let url := getGithubReleaseUrl env in
  count_ids platform_ids url = 1 /\
  count_ids arch_ids url = 1 /\
  (String.eqb (os_arch env) "arm64" = false -> occurrences "amd64" url = 1) /\
  String.prefix "https://github.com/ohayocorp/anemos/releases/latest/download/anemos-" url = true.
Proof.
  unfold getGithubReleaseUrl.
  destruct (String.eqb (os_platform env) "win32");
    [| destruct (String.eqb (os_platform env) "darwin")];
    (destruct (String.eqb (os_arch env) "x64");
       [| destruct (String.eqb (os_arch env) "arm64")]);
    cbv zeta; repeat split; try (vm_compute; reflexivity);
    intros Harm; first [discriminate Harm | vm_compute; reflexivity].
Qed.

(** ** Resolution *)

Section Resolution.
Context `{Host}.

Ltac run :=
  unfold ensureAnemosBinary, downloadAnemosBinary, exec, fs_existsSync,
    showInformationMessage_choice, showInformationMessage, showErrorMessage,
    console_log, bind, try_catch, emit, ask, get_fs, lift_sum, ret, throw;
  cbn [fst snd fs trace].

(** The search-path probe succeeded: the bare name, after the one process
    launch. *)
Lemma resolve_on_path fuel context env s out :
  exec_result env (binaryName env +:+ " --help") = inr out ->
  ensureAnemosBinary fuel context env s =
    (Returned (binaryName env),
     {| fs := fs s; trace := trace s ++ [EExec (binaryName env +:+ " --help")] |}).
Proof. intros Hprobe. run. rewrite Hprobe. reflexivity. Qed.

(** The probe failed and the cache holds the binary. *)
Lemma resolve_cached fuel context env s err node :
  exec_result env (binaryName env +:+ " --help") = inl err ->
  fs s !! binaryPath context env = Some node ->
  ensureAnemosBinary fuel context env s =
    (Returned (binaryPath context env),
     {| fs := fs s;
        trace := trace s ++ [EExec (binaryName env +:+ " --help");
                             EFs OpExists (binaryPath context env)] |}).
Proof.
  intros Hprobe Hnode. run. rewrite Hprobe. cbn [fs trace]. rewrite Hnode.
  rewrite <- app_assoc. reflexivity.
Qed.

(** Both probes failed: resolution is the acquisition step. *)
Lemma resolve_acquire fuel context env s err :
  exec_result env (binaryName env +:+ " --help") = inl err ->
  fs s !! binaryPath context env = None ->
  ensureAnemosBinary fuel context env s =
    downloadAnemosBinary fuel context env
      {| fs := fs s;
         trace := trace s ++ [EExec (binaryName env +:+ " --help");
                              EFs OpExists (binaryPath context env)] |}.
Proof.
  intros Hprobe Hnode.
  unfold ensureAnemosBinary, exec, fs_existsSync, bind, try_catch, emit, ask, get_fs,
    lift_sum, ret, throw; cbn [fst snd fs trace].
  rewrite Hprobe. cbn [fs trace]. rewrite Hnode. rewrite <- app_assoc. reflexivity.
Qed.

(** Acquisition starts with the consent prompt. *)
Lemma acquire_prompts_first fuel context env s :
  exists rest,
    events_since s (snd (downloadAnemosBinary fuel context env s))
                 (EPrompt consent_message :: rest).
Proof.
  destruct (preserves_after_prompt trace_grows (fun _ => True) env
              trace_grows_emit
              (fun s0 path node _ => trace_grows_fs s0 _)
              (fun s0 path _ => trace_grows_fs s0 _)
              (fun s0 path data _ => trace_grows_fs s0 _)
              fuel context s I (Forall_true _ _ (fun _ => I))) as [rest Hev].
  exists rest. unfold events_since in *. cbn [trace] in Hev.
  rewrite <- app_assoc in Hev. exact Hev.
Qed.

(** C3: resolution tries the search path, then the cache, then acquisition,
    and stops at the first that has the binary.  When the probe succeeds the
    bare name is returned and the process launch is the only host call: no
    file-system and no network access.  When the probe fails and the cache
    holds the file, its path is returned after the one existence test: no
    prompt, no download.  Only when both fail does the prompt come. *)
Theorem resolution_order fuel context env s :
  let probe := binaryName env +:+ " --help" in
  let cache := binaryPath context env in
  let result := ensureAnemosBinary fuel context env s in
  match exec_result env probe with
  | inr _ =>
      result = (Returned (binaryName env),
                {| fs := fs s; trace := trace s ++ [EExec probe] |})
  | inl _ =>
      match fs s !! cache with
      | Some _ =>
          result = (Returned cache,
                    {| fs := fs s;
                       trace := trace s ++ [EExec probe; EFs OpExists cache] |})
      | None =>
          exists rest,
            events_since s (snd result)
              ([EExec probe; EFs OpExists cache; EPrompt consent_message] ++ rest)
      end
  end.
Proof.
  cbv zeta.
  destruct (exec_result env (binaryName env +:+ " --help")) as [err|out] eqn:Hprobe.
  - destruct (fs s !! binaryPath context env) as [node|] eqn:Hnode.
    + eapply resolve_cached; eassumption.
    + rewrite (resolve_acquire fuel context env s err Hprobe Hnode).
      destruct (acquire_prompts_first fuel context env
                  {| fs := fs s;
                     trace := trace s ++ [EExec (binaryName env +:+ " --help");
                                          EFs OpExists (binaryPath context env)] |})
        as [rest Hev].
      exists rest. unfold events_since in *. cbn [trace] in Hev.
      rewrite Hev, <- app_assoc. reflexivity.
  - eapply resolve_on_path; eassumption.
Qed.

(** C6: when neither the search path nor the cache has the binary and the
    user does not choose Yes, resolution fails with the error of a refused
    consent; the file system is what it was, and the host calls made are
    the probe, the cache test, the prompt and the error message: no
    directory creation, no request, no write. *)
Theorem declined_consent_creates_nothing fuel context env s err :
  exec_result env (binaryName env +:+ " --help") = inl err ->
  fs s !! binaryPath context env = None ->
  answers_yes env = false ->
  ensureAnemosBinary fuel context env s =
    (Thrown declined,
     {| fs := fs s;
        trace := trace s ++ [EExec (binaryName env +:+ " --help");
                             EFs OpExists (binaryPath context env);
                             EPrompt consent_message;
                             EErrorMsg ("Failed to download Anemos: " +:+ message declined)] |}).
Proof.
  intros Hprobe Hnode Hno. run. rewrite Hprobe. cbn [fs trace]. rewrite Hnode.
  unfold answers_yes in Hno.
  destruct (consent env) as [choice|]; [rewrite Hno|]; cbn [fs trace];
    rewrite <- !app_assoc; reflexivity.
Qed.

End Resolution.

(** ** Download *)

Section Download.
Variable env : Env.
Variable dest : string.

(** What the cleanup leaves, case by case. *)
Lemma cleanup_absent s :
  fs s !! dest = None ->
  cleanupPartialFile dest env s =
    (Returned tt, {| fs := fs s; trace := trace s ++ [EFs OpExists dest] |}).
Proof. intros Hd. unfold_ops. rewrite Hd. reflexivity. Qed.

Lemma cleanup_file s c :
  fs s !! dest = Some (File c) ->
  fs_fault env OpUnlink dest = None ->
  cleanupPartialFile dest env s =
    (Returned tt,
     {| fs := delete dest (fs s);
        trace := trace s ++ [EFs OpExists dest; EFs OpUnlink dest] |}).
Proof.
  intros Hd Hu. unfold_ops. rewrite Hd, Hu. cbn [fs trace]. rewrite Hd.
  rewrite <- app_assoc. reflexivity.
Qed.

Lemma cleanup_refused s node err :
  fs s !! dest = Some node ->
  fs_fault env OpUnlink dest = Some err ->
  cleanupPartialFile dest env s =
    (Returned tt,
     {| fs := fs s; trace := trace s ++ [EFs OpExists dest; EFs OpUnlink dest] |}).
Proof.
  intros Hd Hu. unfold_ops. rewrite Hd, Hu. cbn [fs trace].
  rewrite <- app_assoc. reflexivity.
Qed.

Lemma cleanup_directory s :
  fs s !! dest = Some Dir ->
  cleanupPartialFile dest env s =
    (Returned tt,
     {| fs := fs s; trace := trace s ++ [EFs OpExists dest; EFs OpUnlink dest] |}).
Proof.
  intros Hd. destruct (fs_fault env OpUnlink dest) as [err|] eqn:Hu.
  { eapply cleanup_refused; eassumption. }
  unfold_ops. rewrite Hd, Hu. cbn [fs trace]. rewrite Hd. cbn [fs trace].
  rewrite <- app_assoc. reflexivity.
Qed.

(** The cleanup returns; it writes nothing; and unless the host refuses
    the unlink, no file is left at the path. *)
Lemma cleanup_summary s :
  exists s',
    cleanupPartialFile dest env s = (Returned tt, s') /\
    (fs s' = fs s \/ fs s' = delete dest (fs s)) /\
    (events_since s s' [EFs OpExists dest] \/
     events_since s s' [EFs OpExists dest; EFs OpUnlink dest]) /\
    (fs_fault env OpUnlink dest = None -> forall c, fs s' !! dest <> Some (File c)).
Proof.
  destruct (fs s !! dest) as [[c|]|] eqn:Hd.
  - destruct (fs_fault env OpUnlink dest) as [err|] eqn:Hu.
    + eexists. split; [eapply cleanup_refused; eassumption|].
      repeat split; [by left | by right | discriminate].
    + eexists. split; [eapply cleanup_file; eassumption|].
      repeat split; [by right | by right |]. cbn. intros _ c'.
      by rewrite fs_lookup_delete_eq.
  - eexists. split; [eapply cleanup_directory; eassumption|].
    repeat split; [by left | by right |]. cbn. intros _ c'. by rewrite Hd.
  - eexists. split; [eapply cleanup_absent; eassumption|].
    repeat split; [by left | by left |]. cbn. intros _ c'. by rewrite Hd.
Qed.

(** The handler of [downloadFile] rethrows what it caught. *)
Lemma handler_rethrows error s :
  exists s',
    (cleanupPartialFile dest ;;; @throw unit error) env s = (Thrown error, s') /\
    cleanupPartialFile dest env s = (Returned tt, s').
Proof.
  destruct (cleanup_summary s) as (s' & Hc & _). exists s'. split; [| exact Hc].
  unfold bind. rewrite Hc. reflexivity.
Qed.

End Download.

Section Transfer.
Variable dest : string.

(** The error handler of the write stream: the error it got is the one
    it rejects with, whatever the unlink does. *)
Lemma file_error_rejects env err s :
  fst ((try_catch (fsUnlink dest) (fun _ => ret tt) ;;; @throw unit err) env s) = Thrown err.
Proof.
  unfold_ops. destruct (fs_fault env OpUnlink dest); cbn [fs trace]; [reflexivity|].
  destruct (fs s !! dest) as [[c|]|]; reflexivity.
Qed.

(** The write, case by case. *)
Lemma writeResponseToFile_eq env r s :
  writeResponseToFile r dest env s =
    let s0 := {| fs := fs s; trace := trace s ++ [EFs OpOpen dest] |} in
    let file_error err st :=
      (try_catch (fsUnlink dest) (fun _ => ret tt) ;;; @throw unit err) env st in
    match fs_fault env OpOpen dest with
    | Some err => file_error err s0
    | None =>
        match fs s !! dest with
        | Some Dir =>
            file_error
              (Error ("EISDIR: illegal operation on a directory, open " +:+ dest)) s0
        | _ =>
            match stream_fault r with
            | Some (n, err) =>
                if late_open env dest then
                  (Thrown err,
                   {| fs := leave_stream dest (string_take n (body r)) (fs s);
                      trace := trace s0 |})
                else
                  match fs_fault env OpWrite dest with
                  | Some err' =>
                      file_error err'
                        {| fs := <[dest := File EmptyString]> (fs s); trace := trace s0 |}
                  | None =>
                      (Thrown err,
                       {| fs := <[dest := File (string_take n (body r))]> (fs s);
                          trace := trace s0 |})
                  end
            | None =>
                match fs_fault env OpWrite dest with
                | Some err =>
                    file_error err
                      {| fs := <[dest := File EmptyString]> (fs s); trace := trace s0 |}
                | None =>
                    (Returned tt,
                     {| fs := <[dest := File (body r)]> (fs s); trace := trace s0 |})
                end
            end
        end
    end.
Proof.
  unfold writeResponseToFile. unfold_ops.
  destruct (fs_fault env OpOpen dest) as [err|]; cbn [fs trace fst snd]; [reflexivity|].
  destruct (fs s !! dest) as [[c|]|]; cbn [fs trace fst snd]; try reflexivity;
    (destruct (stream_fault r) as [[n err]|];
     [destruct (late_open env dest); cbn [fs trace fst snd]; [reflexivity|] |]);
    destruct (fs_fault env OpWrite dest) as [err'|]; reflexivity.
Qed.

(** The stream ends well: the file holds the body. *)
Lemma write_success env r s :
  fs_fault env OpOpen dest = None ->
  fs_fault env OpWrite dest = None ->
  fs s !! dest <> Some Dir ->
  stream_fault r = None ->
  writeResponseToFile r dest env s =
    (Returned tt,
     {| fs := <[dest := File (body r)]> (fs s);
        trace := trace s ++ [EFs OpOpen dest] |}).
Proof.
  intros Ho Hw Hd Hs. rewrite writeResponseToFile_eq. cbv zeta. rewrite Ho, Hw, Hs.
  destruct (fs s !! dest) as [[c|]|]; done.
Qed.

(** The response fails after [n] characters, the file open: they are in
    the file. *)
Lemma write_stream_fault env r s n err :
  fs_fault env OpOpen dest = None ->
  fs_fault env OpWrite dest = None ->
  fs s !! dest <> Some Dir ->
  stream_fault r = Some (n, err) ->
  late_open env dest = false ->
  writeResponseToFile r dest env s =
    (Thrown err,
     {| fs := <[dest := File (string_take n (body r))]> (fs s);
        trace := trace s ++ [EFs OpOpen dest] |}).
Proof.
  intros Ho Hw Hd Hs Hl. rewrite writeResponseToFile_eq. cbv zeta. rewrite Ho, Hw, Hs, Hl.
  destruct (fs s !! dest) as [[c|]|]; done.
Qed.

(** The response fails before the file is open: nothing is written yet,
    and the write stream is left with the [n] characters. *)
Lemma write_stream_fault_early env r s n err :
  fs_fault env OpOpen dest = None ->
  fs s !! dest <> Some Dir ->
  stream_fault r = Some (n, err) ->
  late_open env dest = true ->
  writeResponseToFile r dest env s =
    (Thrown err,
     {| fs := leave_stream dest (string_take n (body r)) (fs s);
        trace := trace s ++ [EFs OpOpen dest] |}).
Proof.
  intros Ho Hd Hs Hl. rewrite writeResponseToFile_eq. cbv zeta. rewrite Ho, Hs, Hl.
  destruct (fs s !! dest) as [[c|]|]; done.
Qed.

(** The outcome of the write does not depend on the faults of unlink. *)
Lemma write_outcome_unlink env g r s :
  fst (writeResponseToFile r dest (with_unlink_fault g env) s) =
  fst (writeResponseToFile r dest env s).
Proof.
  rewrite !writeResponseToFile_eq. cbv zeta.
  change (fs_fault (with_unlink_fault g env) OpOpen dest) with (fs_fault env OpOpen dest).
  change (fs_fault (with_unlink_fault g env) OpWrite dest) with (fs_fault env OpWrite dest).
  change (late_open (with_unlink_fault g env) dest) with (late_open env dest).
  destruct (fs_fault env OpOpen dest) as [err|]; [by rewrite !file_error_rejects|].
  destruct (fs s !! dest) as [[c|]|]; try (by rewrite !file_error_rejects);
    (destruct (stream_fault r) as [[n err]|];
     [destruct (late_open env dest); [reflexivity|] |]);
    (destruct (fs_fault env OpWrite dest) as [err'|]; [by rewrite !file_error_rejects|]);
    reflexivity.
Qed.

(** A [try] with the handler of [downloadFile] has the outcome of its body. *)
Lemma handler_keeps_outcome (m : M unit) env s :
  fst (try_catch m (fun error => cleanupPartialFile dest ;;; throw error) env s) =
  fst (m env s).
Proof.
  unfold try_catch. destruct (m env s) as [[a|e|] s1]; try reflexivity.
  destruct (handler_rethrows env dest e s1) as (s' & Hh & _). by rewrite Hh.
Qed.

(** An exception of [downloadFile] comes out of its handler: the cleanup
    was the last thing done. *)
Lemma thrown_after_cleanup fuel url env s e s' :
  downloadFile fuel url dest env s = (Thrown e, s') ->
  exists s1, cleanupPartialFile dest env s1 = (Returned tt, s').
Proof.
  destruct fuel as [|fuel]; cbn [downloadFile]; unfold downloadFile_try; [discriminate|].
  unfold try_catch at 1.
  match goal with |- context [bind (https_get url) ?k env s] =>
    destruct (bind (https_get url) k env s) as [[a|e0|] s1] end;
    try discriminate.
  destruct (handler_rethrows env dest e0 s1) as (s2 & Hh & Hc).
  rewrite Hh. intros [= <- <-]. by exists s1.
Qed.

(** Deletion failures are swallowed: with other faults of unlink, or
    none, the outcome is the same. *)
Lemma download_outcome_unlink fuel env g : forall url s,
  fst (downloadFile fuel url dest (with_unlink_fault g env) s) =
  fst (downloadFile fuel url dest env s).
Proof.
  induction fuel as [|fuel IH]; intros url s; cbn [downloadFile]; unfold downloadFile_try; [reflexivity|].
  rewrite !handler_keeps_outcome.
  assert (Hget : https_get url (with_unlink_fault g env) s = https_get url env s).
  { destruct url as [u|]; unfold_ops; cbn [http_get with_unlink_fault].
    - by destruct (http_get env u).
    - by destruct (http_get env default_url). }
  rewrite !bind_unfold, Hget.
  destruct (https_get url env s) as [[r|e|] s1]; try reflexivity.
  destruct (Nat.eqb (statusCode r) 302 || Nat.eqb (statusCode r) 301); [apply IH|].
  destruct (negb (Nat.eqb (statusCode r) 200)); [reflexivity|].
  apply write_outcome_unlink.
Qed.

End Transfer.

Section DownloadFile.
Variable dest : string.

Lemma https_get_ok env u r s :
  http_get env u = inr r ->
  https_get (Some u) env s =
    (Returned r, {| fs := fs s; trace := trace s ++ [EHttpGet u] |}).
Proof. intros Hr. unfold_ops. by rewrite Hr. Qed.

(** C5: a 301 or 302 makes [downloadFile] request the [Location] target,
    again and again, however long the chain.  When the chain ends in a 200
    whose body arrives whole and the file can be written, the download
    returns with exactly that body at [destPath], having requested each URL
    of the chain once, in order, and opened the file once. *)
Theorem redirects_followed env url hops final :
  redirect_chain env url hops final ->
  stream_fault final = None ->
  fs_fault env OpOpen dest = None ->
  fs_fault env OpWrite dest = None ->
  forall fuel s,
    length hops < fuel ->
    fs s !! dest <> Some Dir ->
    downloadFile fuel (Some url) dest env s =
      (Returned tt,
       {| fs := <[dest := File (body final)]> (fs s);
          trace := trace s ++ map EHttpGet (url :: hops) ++ [EFs OpOpen dest] |}).
Proof.
  intros Hchain Hstream Hopen Hwrite.
  induction Hchain as [url final Hget Hstatus | url r next hops final Hget Hredir Hloc Hchain IH];
    intros fuel s Hfuel Hdir;
    (destruct fuel as [|fuel]; [exfalso; exact (Nat.nlt_0_r _ Hfuel)|]);
    cbn [downloadFile]; unfold downloadFile_try; apply try_catch_returned;
    rewrite (bind_returned _ _ env s _ _ (https_get_ok env _ _ s Hget)).
  - rewrite Hstatus. cbn [Nat.eqb orb negb].
    rewrite write_success by done. cbn [fs trace map].
    by rewrite <- app_assoc.
  - unfold is_redirect in Hredir. rewrite Hredir, Hloc.
    rewrite (IH Hstream fuel); [| cbn [length] in Hfuel; lia | done]. cbn [fs trace map].
    by rewrite <- app_assoc.
Qed.

(** C4, as the code has it: whatever the [try] block of [downloadFile]
    throws, from the request, the status test, the stream or a nested call,
    the cleanup runs on the state the error left and then the same error is
    thrown.  When no write stream is then still to open on [destPath] and
    the host does not refuse the unlink, the run leaves no file at
    [destPath]; and whatever the unlink does, the error thrown is the
    same. *)
Theorem failed_download_cleanup fuel url env s e s1 :
  downloadFile_try (downloadFile fuel) url dest env s = (Thrown e, s1) ->
  exists s',
    downloadFile (S fuel) url dest env s = (Thrown e, s') /\
    cleanupPartialFile dest env s1 = (Returned tt, s') /\
    (fs_fault env OpUnlink dest = None ->
     ~ In dest (map fst (streams (fs s1))) ->
     forall c, fs s' !! dest <> Some (File c) /\
               settle env (fs s') !! dest <> Some (File c)) /\
    (forall g,
       fst (downloadFile (S fuel) url dest (with_unlink_fault g env) s) = Thrown e).
Proof.
  intros Htry.
  destruct (cleanup_summary env dest s1) as (s' & Hclean & Hfs & _ & Hfile).
  assert (Hrun : downloadFile (S fuel) url dest env s = (Thrown e, s')).
  { cbn [downloadFile]. rewrite (try_catch_thrown _ _ env s e s1 Htry).
    unfold bind. by rewrite Hclean. }
  exists s'. repeat split; try done.
  - by apply Hfile.
  - rewrite settle_lookup_ne; [by apply Hfile|].
    by destruct Hfs as [-> | ->].
  - intros g. rewrite download_outcome_unlink. by rewrite Hrun.
Qed.

(** C10, as the code has it: a chain of 301 and 302 responses that ends
    in a response which is neither of them nor a 200, as a 204, a 307 or a
    308 is, makes [downloadFile] throw the error of that status.  After the
    requests, the host calls are existence tests and unlinks of [destPath]
    only: the file is never opened, so nothing is written.  The file system
    is what it was or has lost the file at [destPath], and no file is at
    [destPath] afterwards, when none was there before or the host does not
    refuse the unlink. *)
Theorem only_status_200_is_written env url hops final :
  redirect_walk env url hops final ->
  statusCode final <> 200 ->
  forall fuel s,
    length hops < fuel ->
    exists s' cleanup,
      downloadFile fuel (Some url) dest env s =
        (Thrown (Error ("Failed to download: " +:+ pretty (statusCode final))), s') /\
      trace s' = trace s ++ map EHttpGet (url :: hops) ++ cleanup /\
      Forall (fun e => e = EFs OpExists dest \/ e = EFs OpUnlink dest) cleanup /\
      (fs s' = fs s \/ fs s' = delete dest (fs s)) /\
      (fs s !! dest = None \/ fs_fault env OpUnlink dest = None ->
       forall c, fs s' !! dest <> Some (File c)).
Proof.
  intros Hwalk Hstatus.
  induction Hwalk as [url final Hget Hredir | url r next hops final Hget Hredir Hloc Hwalk IH];
    intros fuel s Hfuel;
    (destruct fuel as [|fuel]; [exfalso; exact (Nat.nlt_0_r _ Hfuel)|]);
    cbn [downloadFile]; unfold downloadFile_try.
  - pose (s1 := {| fs := fs s; trace := trace s ++ [EHttpGet url] |}).
    destruct (cleanup_summary env dest s1) as (s' & Hclean & Hfs & Hev & Hfile).
    exists s'.
    exists (match fs s !! dest with Some _ => [EFs OpExists dest; EFs OpUnlink dest]
            | None => [EFs OpExists dest] end).
    split; [| split; [| split; [| split; [exact Hfs|]]]].
    + rewrite (try_catch_thrown _ _ env s
                 (Error ("Failed to download: " +:+ pretty (statusCode final))) s1).
      * unfold bind. by rewrite Hclean.
      * rewrite (bind_returned _ _ env s _ _ (https_get_ok env _ _ s Hget)).
        unfold is_redirect in Hredir. rewrite Hredir.
        apply Nat.eqb_neq in Hstatus. by rewrite Hstatus.
    + destruct (fs s !! dest) as [node|] eqn:Hd.
      * destruct node as [c|].
        -- destruct (fs_fault env OpUnlink dest) as [err|] eqn:Hu.
           ++ rewrite (cleanup_refused env dest s1 _ err Hd Hu) in Hclean.
              injection Hclean as <-. cbn [trace map]. by rewrite <- app_assoc.
           ++ rewrite (cleanup_file env dest s1 c Hd Hu) in Hclean.
              injection Hclean as <-. cbn [trace map]. by rewrite <- app_assoc.
        -- rewrite (cleanup_directory env dest s1 Hd) in Hclean.
           injection Hclean as <-. cbn [trace map]. by rewrite <- app_assoc.
      * rewrite (cleanup_absent env dest s1 Hd) in Hclean.
        injection Hclean as <-. cbn [trace map]. by rewrite <- app_assoc.
    + destruct (fs s !! dest);
        repeat first [apply Forall_nil_2 | apply Forall_cons_2 | by left | by right].
    + intros [Hnone | Hu]; [| by apply Hfile]. intros c.
      destruct Hfs as [-> | ->]; subst s1; cbn [fs];
        [by rewrite Hnone | by rewrite fs_lookup_delete_eq].
  - pose (s1 := {| fs := fs s; trace := trace s ++ [EHttpGet url] |}).
    cbn [length] in Hfuel.
    destruct (IH Hstatus fuel s1 ltac:(lia))
      as (s2 & inner & Hrun & Htrace & Hinner & Hfs2 & Hfile2).
    destruct (cleanup_summary env dest s2) as (s' & Hclean & Hfs & Hev & Hfile).
    assert (Hev' : exists last, trace s' = trace s2 ++ last /\
              Forall (fun e => e = EFs OpExists dest \/ e = EFs OpUnlink dest) last).
    { unfold events_since in Hev. destruct Hev as [Hev | Hev]; eexists;
        (split; [exact Hev|]);
        repeat first [apply Forall_nil_2 | apply Forall_cons_2 | by left | by right]. }
    destruct Hev' as (last & Hlast & Hlast_ok).
    exists s', (inner ++ last).
    split; [| split; [| split; [| split]]].
    + rewrite (try_catch_thrown _ _ env s
                 (Error ("Failed to download: " +:+ pretty (statusCode final))) s2).
      * unfold bind. by rewrite Hclean.
      * rewrite (bind_returned _ _ env s _ _ (https_get_ok env _ _ s Hget)).
        unfold is_redirect in Hredir. rewrite Hredir, Hloc. exact Hrun.
    + rewrite Hlast, Htrace. subst s1. cbn [trace map]. by rewrite <- !app_assoc.
    + by apply Forall_app.
    + subst s1. cbn [fs] in Hfs2.
      destruct Hfs as [-> | ->], Hfs2 as [-> | ->]; auto.
      right. apply fs_delete_delete.
    + intros [Hnone | Hu]; [| by apply Hfile]. intros c.
      specialize (Hfile2 (or_introl Hnone) c).
      destruct Hfs as [-> | ->]; [exact Hfile2 | by rewrite fs_lookup_delete_eq].
Qed.

End DownloadFile.

(** ** Termination *)

Section Termination.
Variable env : Env.
Context `{Host}.

Lemma terminates_ret {A} (a : A) : terminates env (ret a).
Proof. intros s. discriminate. Qed.

Lemma terminates_throw {A} e : terminates env (@throw A e).
Proof. intros s. discriminate. Qed.

Lemma terminates_bind {A B} (m : M A) (k : A -> M B) :
  terminates env m -> (forall a, terminates env (k a)) -> terminates env (bind m k).
Proof.
  intros Hm Hk s. rewrite bind_unfold. specialize (Hm s).
  destruct (m env s) as [[a|e|] s1]; [apply Hk | discriminate | done].
Qed.

Lemma terminates_ask_bind {A} (k : Env -> M A) :
  terminates env (k env) -> terminates env (bind ask k).
Proof. intros Hk s. exact (Hk s). Qed.

Lemma terminates_try_catch {A} (m : M A) (h : js_error -> M A) :
  terminates env m -> (forall e, terminates env (h e)) -> terminates env (try_catch m h).
Proof.
  intros Hm Hh s. unfold try_catch. specialize (Hm s).
  destruct (m env s) as [[a|e|] s1]; [discriminate | apply Hh | done].
Qed.

Lemma terminates_emit e : terminates env (emit e).
Proof. intros s. discriminate. Qed.

Lemma terminates_lift_sum {A} (r : js_error + A) : terminates env (lift_sum r).
Proof. destruct r; intros s; discriminate. Qed.

Lemma terminates_exec cmd : terminates env (exec cmd).
Proof. intros s. unfold_ops. by destruct (exec_result env cmd). Qed.

Lemma terminates_exec_writing cmd : terminates env (exec_writing cmd).
Proof. intros s. unfold exec_writing. unfold_ops. by destruct (exec_result env cmd). Qed.

Lemma terminates_choice msg : terminates env (showInformationMessage_choice msg).
Proof. intros s. discriminate. Qed.

Lemma terminates_existsSync path : terminates env (fs_existsSync path).
Proof. intros s. discriminate. Qed.

Lemma terminates_mkdirSync path : terminates env (fs_mkdirSync path).
Proof.
  intros s. unfold_ops. destruct (fs_fault env OpMkdir path); cbn [fs trace]; [done|].
  destruct (fs s !! path) as [[c|]|]; [done | ..]; by destruct (existsb _ _).
Qed.

Lemma terminates_readFileSync path : terminates env (fs_readFileSync path).
Proof.
  intros s. unfold_ops. destruct (fs_fault env OpRead path); cbn [fs trace]; [done|].
  by destruct (fs s !! path) as [[c|]|].
Qed.

Lemma terminates_writeFileSync path data : terminates env (fs_writeFileSync path data).
Proof.
  intros s. unfold_ops. destruct (fs_fault env OpWrite path); cbn [fs trace]; [done|].
  by destruct (fs s !! path) as [[c|]|].
Qed.

Lemma terminates_chmodSync path mode : terminates env (fs_chmodSync path mode).
Proof.
  intros s. unfold_ops. destruct (fs_fault env OpChmod path); cbn [fs trace]; [done|].
  by destruct (fs s !! path) as [[c|]|].
Qed.

Lemma terminates_cleanupPartialFile dest : terminates env (cleanupPartialFile dest).
Proof.
  intros s. destruct (cleanup_summary env dest s) as (s' & Hc & _). by rewrite Hc.
Qed.

Lemma terminates_writeResponseToFile r dest : terminates env (writeResponseToFile r dest).
Proof.
  intros s. rewrite writeResponseToFile_eq. cbv zeta.
  destruct (fs_fault env OpOpen dest) as [err|]; [by rewrite file_error_rejects|].
  destruct (fs s !! dest) as [[c|]|]; try (by rewrite file_error_rejects);
    (destruct (stream_fault r) as [[n err]|];
     [destruct (late_open env dest); [done|] |]);
    (destruct (fs_fault env OpWrite dest) as [err'|]; [by rewrite file_error_rejects|]);
    done.
Qed.

(** The download ends when its redirects do. *)
Lemma terminates_downloadFile dest : forall fuel url,
  redirects_within env fuel url = true ->
  terminates env (downloadFile fuel url dest).
Proof.
  induction fuel as [|fuel IH]; intros url Hfuel; cbn [redirects_within] in Hfuel;
    [discriminate|]. cbn [downloadFile]; unfold downloadFile_try.
  apply terminates_try_catch.
  - intros s. rewrite bind_unfold.
    destruct url as [u|]; unfold_ops;
      [| by destruct (http_get env default_url)].
    destruct (http_get env u) as [e|r]; [done|].
    unfold is_redirect in Hfuel.
    destruct (Nat.eqb (statusCode r) 302 || Nat.eqb (statusCode r) 301); [by apply IH|].
    destruct (negb (Nat.eqb (statusCode r) 200)); [done|].
    apply terminates_writeResponseToFile.
  - intros e. apply terminates_bind; [apply terminates_cleanupPartialFile|].
    intros _. apply terminates_throw.
Qed.

Ltac terminating :=
  repeat first
    [ assumption
    | match goal with
      | |- forall _, _ => intro
      | |- terminates _ (bind ask _) => apply terminates_ask_bind
      | |- terminates _ (bind _ _) => apply terminates_bind
      | |- terminates _ (try_catch _ _) => apply terminates_try_catch
      | |- terminates _ (ret _) => apply terminates_ret
      | |- terminates _ (throw _) => apply terminates_throw
      | |- terminates _ (emit _) => apply terminates_emit
      | |- terminates _ (exec _) => apply terminates_exec
      | |- terminates _ (exec_writing _) => apply terminates_exec_writing
      | |- terminates _ (showInformationMessage_choice _) => apply terminates_choice
      | |- terminates _ (fs_existsSync _) => apply terminates_existsSync
      | |- terminates _ (fs_readFileSync _) => apply terminates_readFileSync
      | |- terminates _ (fs_chmodSync _ _) => apply terminates_chmodSync
      | |- terminates _ (lift_sum _) => apply terminates_lift_sum
      | |- terminates _ (fs_mkdirSync _) => apply terminates_mkdirSync
      | |- terminates _ (fs_writeFileSync _ _) => apply terminates_writeFileSync
      | |- terminates _ (if ?b then _ else _) => destruct b
      | |- terminates _ (match ?x with _ => _ end) => destruct x
      end ].

Variables (fuel : nat) (context : Context).
Hypothesis enough_fuel :
  redirects_within env fuel (Some (getGithubReleaseUrl env)) = true.

Lemma terminates_ensureAnemosBinary : terminates env (ensureAnemosBinary fuel context).
Proof.
  pose proof (terminates_downloadFile (binaryPath context env) fuel _ enough_fuel).
  unfold ensureAnemosBinary, downloadAnemosBinary, showInformationMessage, showErrorMessage.
  terminating.
Qed.

Lemma terminates_ensureTypesAreUpToDate :
  terminates env (ensureTypesAreUpToDate fuel context).
Proof.
  pose proof terminates_ensureAnemosBinary.
  unfold ensureTypesAreUpToDate, ensureTypesAreUpToDate_try, regenerateIfStale, regenerate,
    checkNeedsUpdate, generateAnemosTypes, getAnemosToolVersion, getAnemosToolVersion_try,
    console_log, executeCommand.
  terminating.
Qed.

End Termination.

(** ** Synchronisation *)

Section Synchronizer.
Context `{Host}.

(** No version file: the types are to be generated. *)
Lemma check_missing currentVersion env s :
  fs s !! versionFilePath = None ->
  checkNeedsUpdate currentVersion env s =
    (Returned true,
     {| fs := fs s;
        trace := trace s ++ [EFs OpExists versionFilePath;
                             ELog "No version file found, will generate types."] |}).
Proof.
  intros Hv. unfold checkNeedsUpdate. unfold_ops. rewrite Hv. cbn [fs trace].
  by rewrite <- app_assoc.
Qed.

(** A version file that reads and parses to an object with a string
    under [version]. *)
Lemma check_record currentVersion env s text fields stored :
  fs s !! versionFilePath = Some (File text) ->
  fs_fault env OpRead versionFilePath = None ->
  JSON_parse text = inr (JObject fields) ->
  assoc_lookup "version" fields = Some (JString stored) ->
  let needsUpdate :=
    negb (String.eqb stored currentVersion) || String.eqb currentVersion "0.0.0" in
  checkNeedsUpdate currentVersion env s =
    (Returned needsUpdate,
     {| fs := fs s;
        trace := trace s ++
          [EFs OpExists versionFilePath; EFs OpRead versionFilePath;
           ELog (if needsUpdate
                 then "Types need update: current version " +:+ currentVersion
                      +:+ ", stored version " +:+ stored
                 else "Types are up to date (version " +:+ currentVersion +:+ ")")] |}).
Proof.
  intros Hv Hread Hparse Hfield. cbv zeta. unfold checkNeedsUpdate. unfold_ops.
  rewrite Hv, Hread. cbn [fs trace]. rewrite Hv, Hparse.
  unfold get_property. rewrite Hfield. cbn [strict_ne_string value_to_string json_to_string].
  destruct (negb (String.eqb stored currentVersion) || String.eqb currentVersion "0.0.0");
    cbn [fs trace]; by rewrite <- !app_assoc.
Qed.

(** The check raises nothing, and leaves the file system as it is. *)
Lemma check_returns currentVersion env s :
  exists needsUpdate s1,
    checkNeedsUpdate currentVersion env s = (Returned needsUpdate, s1) /\
    fs s1 = fs s /\
    (String.eqb currentVersion "0.0.0" = true -> needsUpdate = true).
Proof.
  unfold checkNeedsUpdate. unfold_ops.
  destruct (fs s !! versionFilePath) as [node|] eqn:Hv; cbn [fs trace];
    [| by eexists _, _].
  destruct (fs_fault env OpRead versionFilePath) as [err|]; cbn [fs trace];
    [by eexists _, _|].
  rewrite Hv.
  destruct node as [text|]; cbn [fs trace]; [| by eexists _, _].
  destruct (JSON_parse text) as [err|versionData]; cbn [fs trace]; [by eexists _, _|].
  destruct (get_property versionData "version") as [err|stored]; cbn [fs trace];
    [by eexists _, _|].
  destruct (String.eqb currentVersion "0.0.0") eqn:Hzero.
  - rewrite orb_true_r. cbn [fs trace]. by eexists _, _.
  - rewrite orb_false_r.
    destruct (strict_ne_string stored currentVersion); cbn [fs trace]; by eexists _, _.
Qed.

(** The regeneration, when the tool succeeds and the record can be
    written. *)
Lemma regenerate_writes fuel context currentVersion env s s1 :
  generateAnemosTypes fuel context typesDir env s = (Returned tt, s1) ->
  fs_fault env OpWrite versionFilePath = None ->
  fs s1 !! versionFilePath <> Some Dir ->
  regenerate fuel context currentVersion env s =
    (Returned tt,
     {| fs := <[versionFilePath :=
                  File (JSON_stringify (version_record currentVersion (now env)))]> (fs s1);
        trace := trace s1 ++
          [EFs OpWrite versionFilePath;
           ELog ("Updated version file to " +:+ currentVersion);
           ECommand "typescript.restartTsServer"] |}).
Proof.
  intros Hgen Hfault Hdir. unfold regenerate. rewrite bind_unfold, Hgen.
  unfold_ops. rewrite Hfault. cbn [fs trace].
  destruct (fs s1 !! versionFilePath) as [[c|]|]; try done; cbn [fs trace];
    by rewrite <- !app_assoc.
Qed.

(** A failed version query is logged and answered with ["unknown"]. *)
Lemma version_query_failure fuel context env s e s1 :
  getAnemosToolVersion_try fuel context env s = (Thrown e, s1) ->
  getAnemosToolVersion fuel context env s =
    (Returned "unknown",
     {| fs := fs s1;
        trace := trace s1 ++
          [ELog ("Error getting anemos version: " +:+ error_to_string e)] |}).
Proof.
  intros Htry. unfold getAnemosToolVersion.
  rewrite (try_catch_thrown _ _ env s e s1 Htry). reflexivity.
Qed.

(** A version file that cannot be read, or does not parse, is logged and
    taken as stale. *)
Lemma check_unreadable currentVersion env s node e :
  fs s !! versionFilePath = Some node ->
  fs_fault env OpRead versionFilePath = Some e ->
  checkNeedsUpdate currentVersion env s =
    (Returned true,
     {| fs := fs s;
        trace := trace s ++
          [EFs OpExists versionFilePath; EFs OpRead versionFilePath;
           ELog ("Error reading version file: " +:+ error_to_string e)] |}).
Proof.
  intros Hv Hread. unfold checkNeedsUpdate. unfold_ops. rewrite Hv, Hread.
  cbn [fs trace]. by rewrite <- !app_assoc.
Qed.

Lemma check_unparsable currentVersion env s text e :
  fs s !! versionFilePath = Some (File text) ->
  fs_fault env OpRead versionFilePath = None ->
  JSON_parse text = inl e ->
  checkNeedsUpdate currentVersion env s =
    (Returned true,
     {| fs := fs s;
        trace := trace s ++
          [EFs OpExists versionFilePath; EFs OpRead versionFilePath;
           ELog ("Error reading version file: " +:+ error_to_string e)] |}).
Proof.
  intros Hv Hread Hparse. unfold checkNeedsUpdate. unfold_ops. rewrite Hv, Hread.
  cbn [fs trace]. rewrite Hv, Hparse. cbn [fs trace]. by rewrite <- !app_assoc.
Qed.

(** An exception of the [try] block is logged; the function returns. *)
Lemma pass_failure_logged fuel context env s e s1 :
  ensureTypesAreUpToDate_try fuel context env s = (Thrown e, s1) ->
  ensureTypesAreUpToDate fuel context env s =
    (Returned tt,
     {| fs := fs s1;
        trace := trace s1 ++
          [ELog ("Error ensuring types are up to date: " +:+ error_to_string e)] |}).
Proof.
  intros Htry. unfold ensureTypesAreUpToDate.
  rewrite (try_catch_thrown _ _ env s e s1 Htry). reflexivity.
Qed.

(** C1, as the code has it: a failed version query is logged and stands
    for the version ["unknown"]; the pass goes on with that version as with
    any other, and when the check calls for a regeneration, the tool
    succeeds and the record can be written, the record written has
    [version] ["unknown"]. *)
Theorem failed_version_query_yields_unknown fuel context env s e s1 :
  getAnemosToolVersion_try fuel context env s = (Thrown e, s1) ->
  let s2 := {| fs := fs s1;
               trace := trace s1 ++
                 [ELog ("Error getting anemos version: " +:+ error_to_string e)] |} in
  getAnemosToolVersion fuel context env s = (Returned "unknown", s2) /\
  ensureTypesAreUpToDate_try fuel context env s =
    regenerateIfStale fuel context "unknown" env s2 /\
  (forall s3 s4,
     checkNeedsUpdate "unknown" env s2 = (Returned true, s3) ->
     generateAnemosTypes fuel context typesDir env s3 = (Returned tt, s4) ->
     fs_fault env OpWrite versionFilePath = None ->
     fs s4 !! versionFilePath <> Some Dir ->
     exists s5,
       ensureTypesAreUpToDate fuel context env s = (Returned tt, s5) /\
       fs s5 !! versionFilePath =
         Some (File (JSON_stringify (version_record "unknown" (now env))))).
Proof.
  intros Htry s2.
  pose proof (version_query_failure fuel context env s e s1 Htry) as Hquery.
  assert (Hpass : ensureTypesAreUpToDate_try fuel context env s =
                  regenerateIfStale fuel context "unknown" env s2).
  { unfold ensureTypesAreUpToDate_try. by rewrite bind_unfold, Hquery. }
  split; [exact Hquery | split; [exact Hpass|]].
  intros s3 s4 Hcheck Hgen Hfault Hdir.
  pose proof (regenerate_writes fuel context "unknown" env s3 s4 Hgen Hfault Hdir) as Hregen.
  eexists. split.
  - unfold ensureTypesAreUpToDate. apply try_catch_returned.
    rewrite Hpass. unfold regenerateIfStale. rewrite bind_unfold, Hcheck. exact Hregen.
  - cbn [fs]. apply fs_lookup_insert_eq.
Qed.

(** C8: [ensureTypesAreUpToDate] raises nothing.  A failed version query
    is logged where it is caught, in [getAnemosToolVersion]; a version file
    that cannot be read or parsed is logged by the staleness check; and every
    exception that leaves the [try] block, as those of the regeneration and
    of the write of the record do, is logged by the function, which then
    returns.  It does return as soon as the redirects of the release URL
    end within the fuel. *)
Theorem synchronizer_swallows_errors fuel context env s :
  (forall e, fst (ensureTypesAreUpToDate fuel context env s) <> Thrown e) /\
  (forall e s1,
     ensureTypesAreUpToDate_try fuel context env s = (Thrown e, s1) ->
     ensureTypesAreUpToDate fuel context env s =
       (Returned tt,
        {| fs := fs s1;
           trace := trace s1 ++
             [ELog ("Error ensuring types are up to date: " +:+ error_to_string e)] |})) /\
  (forall e s1,
     getAnemosToolVersion_try fuel context env s = (Thrown e, s1) ->
     getAnemosToolVersion fuel context env s =
       (Returned "unknown",
        {| fs := fs s1;
           trace := trace s1 ++
             [ELog ("Error getting anemos version: " +:+ error_to_string e)] |})) /\
  (forall currentVersion s0 text e,
     fs s0 !! versionFilePath = Some (File text) ->
     fs_fault env OpRead versionFilePath = Some e \/
     (fs_fault env OpRead versionFilePath = None /\ JSON_parse text = inl e) ->
     checkNeedsUpdate currentVersion env s0 =
       (Returned true,
        {| fs := fs s0;
           trace := trace s0 ++
             [EFs OpExists versionFilePath; EFs OpRead versionFilePath;
              ELog ("Error reading version file: " +:+ error_to_string e)] |})) /\
  (redirects_within env fuel (Some (getGithubReleaseUrl env)) = true ->
   fst (ensureTypesAreUpToDate fuel context env s) = Returned tt).
Proof.
  assert (Hno : forall e, fst (ensureTypesAreUpToDate fuel context env s) <> Thrown e).
  { intros e. unfold ensureTypesAreUpToDate, try_catch.
    by destruct (ensureTypesAreUpToDate_try fuel context env s) as [[[]|e'|] s1]. }
  split; [exact Hno|]. split; [apply pass_failure_logged|].
  split; [apply version_query_failure|]. split.
  - intros v s0 text e Hv [Hread | [Hread Hparse]].
    + eapply check_unreadable; eassumption.
    + eapply check_unparsable; eassumption.
  - intros Hfuel.
    pose proof (terminates_ensureTypesAreUpToDate env fuel context Hfuel s) as Hend.
    destruct (ensureTypesAreUpToDate fuel context env s) as [[[]|e|] s1] eqn:Hrun;
      cbn [fst] in *; [done | by destruct (Hno e) | done].
Qed.

End Synchronizer.

(** * Further properties of the Resolver *)

Section ResolverMore.
Context `{Host}.

(** With a location in reach, resolution returns it after the probes. *)
Lemma resolve_located fuel context env s p :
  located context env s = Some p ->
  ensureAnemosBinary fuel context env s =
    (Returned p, {| fs := fs s; trace := trace s ++ probe_events context env |}).
Proof.
  unfold located, probe_events.
  destruct (exec_result env (binaryName env +:+ " --help")) as [err|out] eqn:Hprobe.
  - destruct (fs s !! binaryPath context env) as [node|] eqn:Hnode; [| discriminate].
    intros [= <-]. eapply resolve_cached; eassumption.
  - intros [= <-]. eapply resolve_on_path; eassumption.
Qed.

(** The probes write nothing, so what they find stays in reach. *)
Lemma located_same_cache context env s s' :
  fs s' !! binaryPath context env = fs s !! binaryPath context env ->
  located context env s' = located context env s.
Proof. intros Heq. unfold located. by rewrite Heq. Qed.

End ResolverMore.

(** * Further properties of the download *)

Lemma try_catch_diverged_eq {A} (m : M A) h env s s1 :
  m env s = (Diverged, s1) -> try_catch m h env s = (Diverged, s1).
Proof. intros Hm. unfold try_catch. by rewrite Hm. Qed.

Section DownloadMore.
Variable dest : string.

(** The download along a chain of redirects that ends in a 200. *)
Lemma download_along_chain env url hops final :
  redirect_chain env url hops final ->
  stream_fault final = None ->
  fs_fault env OpOpen dest = None ->
  fs_fault env OpWrite dest = None ->
  forall fuel s,
    length hops < fuel ->
    fs s !! dest <> Some Dir ->
    downloadFile fuel (Some url) dest env s =
      (Returned tt,
       {| fs := <[dest := File (body final)]> (fs s);
          trace := trace s ++ map EHttpGet (url :: hops) ++ [EFs OpOpen dest] |}).
Proof.
  intros Hchain Hstream Hopen Hwrite.
  induction Hchain as [url final Hget Hstatus | url r next hops final Hget Hredir Hloc Hchain IH];
    intros fuel s Hfuel Hdir;
    (destruct fuel as [|fuel]; [exfalso; exact (Nat.nlt_0_r _ Hfuel)|]);
    cbn [downloadFile]; unfold downloadFile_try; apply try_catch_returned;
    rewrite (bind_returned _ _ env s _ _ (https_get_ok env _ _ s Hget)).
  - rewrite Hstatus. cbn [Nat.eqb orb negb].
    rewrite write_success by done. cbn [fs trace map].
    by rewrite <- app_assoc.
  - unfold is_redirect in Hredir. rewrite Hredir, Hloc.
    rewrite (IH Hstream fuel); [| cbn [length] in Hfuel; lia | done]. cbn [fs trace map].
    by rewrite <- app_assoc.
Qed.

(** The write returns only when the stream ended well, with the body in
    the file. *)
Lemma write_returned env r s s' :
  writeResponseToFile r dest env s = (Returned tt, s') ->
  stream_fault r = None /\
  s' = {| fs := <[dest := File (body r)]> (fs s);
          trace := trace s ++ [EFs OpOpen dest] |}.
Proof.
  rewrite writeResponseToFile_eq. cbv zeta.
  assert (Hreject : forall err st,
            (try_catch (fsUnlink dest) (fun _ => ret tt) ;;; @throw unit err) env st
            <> (Returned tt, s')).
  { intros err st Heq. pose proof (file_error_rejects dest env err st) as Hf.
    rewrite Heq in Hf. discriminate. }
  destruct (fs_fault env OpOpen dest) as [err|]; [intros Heq; by destruct (Hreject _ _ Heq)|].
  destruct (fs s !! dest) as [[c|]|];
    try (intros Heq; by destruct (Hreject _ _ Heq));
    (destruct (stream_fault r) as [[n err]|] eqn:Hstream;
     [destruct (late_open env dest); [discriminate|] |]);
    (destruct (fs_fault env OpWrite dest) as [err'|];
     [intros Heq; by destruct (Hreject _ _ Heq)|]);
    try discriminate; by intros [= <-].
Qed.

(** A request that returned a response was made to a URL, and the
    response is the answer of the host to it. *)
Lemma https_get_returned env url s r s0 :
  https_get url env s = (Returned r, s0) ->
  exists u,
    url = Some u /\ http_get env u = inr r /\
    s0 = {| fs := fs s; trace := trace s ++ [EHttpGet u] |}.
Proof.
  destruct url as [u|]; unfold_ops.
  - destruct (http_get env u) as [e|r'] eqn:Hget; [discriminate|].
    intros [= <- <-]. by exists u.
  - by destruct (http_get env default_url).
Qed.

(** X1: [downloadFile] returns only at the end of a chain of 301 and 302
    responses that leads from its URL to a 200 whose stream ended well:
    the file at [destPath] is then the body of that response, and the host
    calls were the requests of the chain and the one open. *)
Theorem returned_download_has_body env : forall fuel url s s',
  downloadFile fuel url dest env s = (Returned tt, s') ->
  exists url0 hops final,
    url = Some url0 /\
    redirect_chain env url0 hops final /\
    stream_fault final = None /\
    length hops < fuel /\
    s' = {| fs := <[dest := File (body final)]> (fs s);
            trace := trace s ++ map EHttpGet (url0 :: hops) ++ [EFs OpOpen dest] |}.
Proof.
  induction fuel as [|fuel IH]; intros url s s'; cbn [downloadFile]; [discriminate|].
  unfold try_catch.
  destruct (downloadFile_try (downloadFile fuel) url dest env s) as [[[]|e|] s1] eqn:Htry.
  - intros [= <-]. revert Htry. unfold downloadFile_try. rewrite bind_unfold.
    destruct (https_get url env s) as [[r|e|] s0] eqn:Hget; try discriminate.
    apply https_get_returned in Hget as (u & -> & Hget & ->).
    destruct (Nat.eqb (statusCode r) 302 || Nat.eqb (statusCode r) 301) eqn:Hredir.
    + intros Hrun. apply IH in Hrun as (next & hops & final & Hloc & Hchain & Hstream & Hlen & ->).
      exists u, (next :: hops), final. repeat split; try done.
      * by eapply chain_hop.
      * cbn [length]. lia.
      * cbn [fs trace map]. by rewrite <- !app_assoc.
    + destruct (Nat.eqb (statusCode r) 200) eqn:Hstatus; cbn [negb]; [| discriminate].
      apply Nat.eqb_eq in Hstatus. intros Hwrite.
      apply write_returned in Hwrite as [Hstream ->].
      exists u, [], r. repeat split; try done.
      * by apply chain_end.
      * cbn [length]. lia.
      * cbn [fs trace map]. by rewrite <- !app_assoc.
  - destruct (handler_rethrows env dest e s1) as (s2 & Hh & _). by rewrite Hh.
  - discriminate.
Qed.

(** A download that returned left a file at [destPath]. *)
Lemma download_returned_file env fuel url s s' :
  downloadFile fuel url dest env s = (Returned tt, s') ->
  exists c, fs s' !! dest = Some (File c).
Proof.
  induction fuel as [|fuel IH] in url, s, s' |- *; cbn [downloadFile]; [discriminate|].
  unfold try_catch.
  destruct (downloadFile_try (downloadFile fuel) url dest env s) as [[[]|e|] s1] eqn:Htry;
    [| destruct (handler_rethrows env dest e s1) as (s2 & Hh & _); by rewrite Hh
     | discriminate].
  intros [= <-]. revert Htry. unfold downloadFile_try. rewrite bind_unfold.
  destruct (https_get url env s) as [[r|e|] s0]; try discriminate.
  destruct (Nat.eqb (statusCode r) 302 || Nat.eqb (statusCode r) 301); [apply IH|].
  destruct (negb (Nat.eqb (statusCode r) 200)); [discriminate|].
  intros Hwrite. apply write_returned in Hwrite as [_ ->]. eexists.
  cbn [fs]. apply fs_lookup_insert_eq.
Qed.

(** X2: whatever its outcome, [downloadFile] leaves every path other than
    [destPath] as it was. *)
Theorem download_touches_only_dest fuel url env s path :
  path <> dest ->
  fs (snd (downloadFile fuel url dest env s)) !! path = fs s !! path.
Proof.
  intros Hpath.
  apply (preserves_downloadFile (same_at path) (fun p => path <> p));
    try apply _; try done; unfold same_at; cbn; intros.
  - by apply fs_lookup_insert_ne.
  - by apply fs_lookup_delete_ne.
Qed.

(** X3: a 301 or 302 whose [Location] is its own URL is followed without
    end: whatever the fuel, the download has not returned, has made that
    many requests and has not touched the file system. *)
Theorem redirect_cycle_never_ends env u r :
  http_get env u = inr r ->
  is_redirect r = true ->
  location r = Some u ->
  forall fuel s,
    downloadFile fuel (Some u) dest env s =
      (Diverged, {| fs := fs s; trace := trace s ++ replicate fuel (EHttpGet u) |}).
Proof.
  intros Hget Hredir Hloc. induction fuel as [|fuel IH]; intros s.
  - cbn. rewrite app_nil_r. by destruct s.
  - cbn [downloadFile]. unfold downloadFile_try.
    rewrite (try_catch_diverged_eq _ _ env s
               {| fs := fs s; trace := trace s ++ replicate (S fuel) (EHttpGet u) |});
      [reflexivity|].
    rewrite (bind_returned _ _ env s _ _ (https_get_ok env _ _ s Hget)).
    unfold is_redirect in Hredir. rewrite Hredir, Hloc, IH. cbn [fs trace replicate].
    by rewrite <- app_assoc.
Qed.

(** X4: a write stream that cannot be opened over an existing file
    deletes that file before it rejects with the error of the open. *)
Theorem failed_open_deletes_file env r s c err :
  fs s !! dest = Some (File c) ->
  fs_fault env OpOpen dest = Some err ->
  fs_fault env OpUnlink dest = None ->
  writeResponseToFile r dest env s =
    (Thrown err,
     {| fs := delete dest (fs s);
        trace := trace s ++ [EFs OpOpen dest; EFs OpUnlink dest] |}).
Proof.
  intros Hfile Hopen Hunlink. rewrite writeResponseToFile_eq. cbv zeta. rewrite Hopen.
  unfold_ops. rewrite Hunlink. cbn [fs trace]. rewrite Hfile. cbn [fs trace].
  by rewrite <- app_assoc.
Qed.

End DownloadMore.

(** * Acquisition and repeated resolution *)

Lemma bind_returned_inv {A B} (m : M A) (k : A -> M B) env s b s' :
  bind m k env s = (Returned b, s') ->
  exists a s1, m env s = (Returned a, s1) /\ k a env s1 = (Returned b, s').
Proof.
  rewrite bind_unfold. destruct (m env s) as [[a|e|] s1]; try discriminate. eauto.
Qed.

Lemma bind_thrown_eq {A B} (m : M A) (k : A -> M B) env s e s1 :
  m env s = (Thrown e, s1) -> bind m k env s = (Thrown e, s1).
Proof. intros Hm. unfold bind. by rewrite Hm. Qed.

Lemma try_catch_rethrow_returned_inv {A} (m : M A) (h : js_error -> M unit) env s a s' :
  try_catch m (fun error => h error ;;; throw error) env s = (Returned a, s') ->
  m env s = (Returned a, s').
Proof.
  unfold try_catch. destruct (m env s) as [[a'|e|] s1]; try done.
  rewrite bind_unfold. by destruct (h e env s1) as [[[]|e'|] s2].
Qed.

Lemma chmod_keeps_fs path mode env s :
  fs (snd (fs_chmodSync path mode env s)) = fs s.
Proof.
  unfold_ops. destruct (fs_fault env OpChmod path); cbn [fs trace snd]; [done|].
  by destruct (fs s !! path).
Qed.

(** What the host calls return. *)
Lemma choice_eq msg env s :
  showInformationMessage_choice msg env s =
    (Returned (consent env), {| fs := fs s; trace := trace s ++ [EPrompt msg] |}).
Proof. reflexivity. Qed.

Lemma existsSync_eq path env s :
  fs_existsSync path env s =
    (Returned (match fs s !! path with Some _ => true | None => false end),
     {| fs := fs s; trace := trace s ++ [EFs OpExists path] |}).
Proof. reflexivity. Qed.

Lemma no_file_among (f : FileSystem) dirs :
  (forall d c, In d dirs -> f !! d <> Some (File c)) ->
  existsb (fun d => is_file (f !! d)) dirs = false.
Proof.
  intros Hnone. apply not_true_is_false. intros Hex.
  apply existsb_exists in Hex as (d & Hin & Hfile).
  destruct (f !! d) as [[c|]|] eqn:Hd; try discriminate. by destruct (Hnone d c Hin).
Qed.

Lemma mkdir_ok `{Host} path env s :
  fs_fault env OpMkdir path = None ->
  (forall d c, In d (path :: path_ancestors path) -> fs s !! d <> Some (File c)) ->
  fs_mkdirSync path env s =
    (Returned tt,
     {| fs := make_dirs (path :: path_ancestors path) (fs s);
        trace := trace s ++ [EFs OpMkdir path] |}).
Proof.
  intros Hfault Hnode. unfold_ops. rewrite Hfault. cbn [fs trace].
  rewrite (no_file_among (fs s) (path_ancestors path))
    by (intros d c Hin; apply Hnode; by right).
  destruct (fs s !! path) as [[c|]|] eqn:Hp; try done.
  destruct (Hnode path c); [by left | done].
Qed.

Lemma chmod_ok path mode env s node :
  fs_fault env OpChmod path = None ->
  fs s !! path = Some node ->
  fs_chmodSync path mode env s =
    (Returned tt, {| fs := fs s; trace := trace s ++ [EFs OpChmod path] |}).
Proof.
  intros Hfault Hnode. unfold_ops. rewrite Hfault. cbn [fs trace]. by rewrite Hnode.
Qed.

Lemma exec_ok cmd out env s :
  exec_result env cmd = inr out ->
  exec cmd env s = (Returned out, {| fs := fs s; trace := trace s ++ [EExec cmd] |}).
Proof. intros Hcmd. unfold_ops. by rewrite Hcmd. Qed.

Lemma exec_failed cmd err env s :
  exec_result env cmd = inl err ->
  exec cmd env s = (Thrown err, {| fs := fs s; trace := trace s ++ [EExec cmd] |}).
Proof. intros Hcmd. unfold_ops. by rewrite Hcmd. Qed.

Lemma exec_writing_ok cmd out env s :
  exec_result env cmd = inr out ->
  exec_writing cmd env s =
    (Returned out,
     {| fs := write_all (exec_writes env cmd) (fs s); trace := trace s ++ [EExec cmd] |}).
Proof. intros Hcmd. unfold exec_writing. unfold_ops. by rewrite Hcmd. Qed.

Lemma exec_writing_failed cmd err env s :
  exec_result env cmd = inl err ->
  exec_writing cmd env s =
    (Thrown err,
     {| fs := write_all (exec_writes env cmd) (fs s); trace := trace s ++ [EExec cmd] |}).
Proof. intros Hcmd. unfold exec_writing. unfold_ops. by rewrite Hcmd. Qed.

(** Run the computation at the head of a [bind] with the equation [lem]. *)
Ltac bind_with lem := erewrite bind_returned; [| apply lem].
Ltac bind_refl := erewrite bind_returned; [| reflexivity].

Section Acquisition.
Context `{Host}.

(** Acquisition returns the cache path, and a file is there then. *)
Lemma acquisition_returns_cache fuel context env s p s1 :
  downloadAnemosBinary fuel context env s = (Returned p, s1) ->
  p = binaryPath context env /\ exists c, fs s1 !! binaryPath context env = Some (File c).
Proof.
  unfold downloadAnemosBinary. rewrite bind_unfold. unfold ask at 1.
  intros Hrun. apply try_catch_rethrow_returned_inv in Hrun.
  apply bind_returned_inv in Hrun as (choice & sa & _ & Hrun).
  apply bind_returned_inv in Hrun as ([] & sb & _ & Hrun).
  apply bind_returned_inv in Hrun as ([] & sc & _ & Hrun).
  apply bind_returned_inv in Hrun as (present & sd & _ & Hrun).
  apply bind_returned_inv in Hrun as ([] & se & _ & Hrun).
  apply bind_returned_inv in Hrun as ([] & sf & Hdownload & Hrun).
  apply bind_returned_inv in Hrun as ([] & sg & Hchmod & Hrun).
  apply bind_returned_inv in Hrun as ([] & sh & Hinfo & Hrun).
  injection Hrun as <- <-.
  apply download_returned_file in Hdownload as [c Hfile].
  split; [reflexivity|]. exists c.
  assert (Hg : fs sg = fs sf).
  { destruct (negb (String.eqb (os_platform env) "win32")).
    - pose proof (chmod_keeps_fs (binaryPath context env) "755" env sf) as Hk.
      by rewrite Hchmod in Hk.
    - by injection Hchmod as <-. }
  unfold showInformationMessage, emit in Hinfo. injection Hinfo as <-.
  cbn [fs]. by rewrite Hg.
Qed.

(** What resolution returned is in reach afterwards. *)
Lemma located_after_resolution fuel context env s p s1 :
  ensureAnemosBinary fuel context env s = (Returned p, s1) ->
  located context env s1 = Some p.
Proof.
  unfold located.
  destruct (exec_result env (binaryName env +:+ " --help")) as [err|out] eqn:Hprobe.
  - destruct (fs s !! binaryPath context env) as [node|] eqn:Hnode.
    + rewrite (resolve_cached fuel context env s err node Hprobe Hnode).
      intros [= <- <-]. cbn [fs]. by rewrite Hnode.
    + rewrite (resolve_acquire fuel context env s err Hprobe Hnode). intros Hacq.
      apply acquisition_returns_cache in Hacq as [-> [c Hfile]]. by rewrite Hfile.
  - rewrite (resolve_on_path fuel context env s out Hprobe). by intros [= <- <-].
Qed.

(** X5: once resolution has returned a location, resolution from any
    state with the same cache entry returns that location again after the
    probes alone: no prompt, no request, no write. *)
Theorem resolution_is_stable fuel fuel' context env s p s1 s2 :
  ensureAnemosBinary fuel context env s = (Returned p, s1) ->
  fs s2 !! binaryPath context env = fs s1 !! binaryPath context env ->
  ensureAnemosBinary fuel' context env s2 =
    (Returned p, {| fs := fs s2; trace := trace s2 ++ probe_events context env |}).
Proof.
  intros Hfirst Hcache. apply resolve_located.
  rewrite (located_same_cache context env s1 s2 Hcache).
  by eapply located_after_resolution.
Qed.

(** X6: neither probe finds the binary, the user chooses Yes, the
    release URL leads through redirects to a 200 that arrives whole, and the
    host raises no fault: resolution returns the cache path with the body in
    the cache file; the storage directory is created when it is missing,
    with the directories above it; and the mode is changed on every
    platform but win32. *)
Theorem acquisition_succeeds fuel context env s err hops final :
  exec_result env (binaryName env +:+ " --help") = inl err ->
  fs s !! binaryPath context env = None ->
  answers_yes env = true ->
  (forall c, fs s !! globalStorageUri_fsPath context <> Some (File c)) ->
  binaryPath context env <> globalStorageUri_fsPath context ->
  (fs s !! globalStorageUri_fsPath context = None ->
   forall d, In d (path_ancestors (globalStorageUri_fsPath context)) ->
     d <> binaryPath context env /\ forall c, fs s !! d <> Some (File c)) ->
  redirect_chain env (getGithubReleaseUrl env) hops final ->
  stream_fault final = None ->
  (forall op path, fs_fault env op path = None) ->
  length hops < fuel ->
  ensureAnemosBinary fuel context env s =
    (Returned (binaryPath context env),
     {| fs := <[binaryPath context env := File (body final)]>
                match fs s !! globalStorageUri_fsPath context with
                | Some _ => fs s
                | None => make_dirs (storage_dirs context) (fs s)
                end;
        trace := trace s ++
          [EExec (binaryName env +:+ " --help");
           EFs OpExists (binaryPath context env);
           EPrompt consent_message;
           EInfo "Downloading Anemos binary from GitHub...";
           EFs OpExists (globalStorageUri_fsPath context)] ++
          match fs s !! globalStorageUri_fsPath context with
          | Some _ => []
          | None => [EFs OpMkdir (globalStorageUri_fsPath context)]
          end ++
          map EHttpGet (getGithubReleaseUrl env :: hops) ++
          [EFs OpOpen (binaryPath context env)] ++
          (if String.eqb (os_platform env) "win32" then []
           else [EFs OpChmod (binaryPath context env)]) ++
          [EInfo "Anemos binary downloaded successfully."] |}).
Proof.
  intros Hprobe Hnode Hyes Hstorage Hne Habove Hchain Hstream Hfault Hfuel.
  rewrite (resolve_acquire fuel context env s err Hprobe Hnode).
  unfold downloadAnemosBinary. rewrite bind_unfold. unfold ask at 1.
  unfold answers_yes in Hyes.
  destruct (consent env) as [choice|] eqn:Hconsent; [| discriminate].
  unfold storage_dirs.
  set (bp := binaryPath context env) in *.
  set (dir := globalStorageUri_fsPath context) in *.
  apply try_catch_returned.
  bind_with choice_eq. rewrite Hconsent, Hyes. bind_refl.
  unfold showInformationMessage. bind_refl. bind_with existsSync_eq. cbn [fs trace].
  assert (Hfinish : forall st,
    fs st !! bp = None ->
    (downloadFile fuel (Some (getGithubReleaseUrl env)) bp ;;;
     (if negb (String.eqb (os_platform env) "win32")
      then fs_chmodSync bp "755" else ret tt) ;;;
     emit (EInfo "Anemos binary downloaded successfully.") ;;; ret bp) env st =
    (Returned bp,
     {| fs := <[bp := File (body final)]> (fs st);
        trace := trace st ++ map EHttpGet (getGithubReleaseUrl env :: hops) ++
          [EFs OpOpen bp] ++
          (if String.eqb (os_platform env) "win32" then [] else [EFs OpChmod bp]) ++
          [EInfo "Anemos binary downloaded successfully."] |})).
  { intros st Hst.
    erewrite bind_returned;
      [| apply (download_along_chain bp env _ _ _ Hchain); try done; by rewrite Hst].
    destruct (String.eqb (os_platform env) "win32"); cbn [negb].
    - bind_refl. bind_refl. unfold ret. cbn [fs trace]. by rewrite <- !app_assoc.
    - erewrite bind_returned;
        [| eapply chmod_ok; [apply Hfault | cbn [fs]; apply fs_lookup_insert_eq]].
      bind_refl. unfold ret. cbn [fs trace]. by rewrite <- !app_assoc. }
  destruct (fs s !! dir) as [node|] eqn:Hdir; cbn [negb].
  - bind_refl. rewrite Hfinish by done. cbn [fs trace]. by rewrite <- !app_assoc.
  - specialize (Habove eq_refl).
    erewrite bind_returned; [| apply mkdir_ok; [apply Hfault|]].
    + rewrite Hfinish; [cbn [fs trace]; by rewrite <- !app_assoc|].
      cbn [fs]. rewrite fs_lookup_make_dirs_ne; [exact Hnode|].
      intros [Heq | Hin]; [by apply Hne | by apply (Habove bp Hin)].
    + cbn [fs]. intros d c [<- | Hin]; [by rewrite Hdir | by apply (Habove d Hin)].
Qed.

End Acquisition.

(** * Further properties of the Synchronizer *)

Section SynchronizerMore.
Context `{Host}.

(** The version query with a location in reach and a tool that answers. *)
Lemma version_query_ok fuel context env s p out :
  located context env s = Some p ->
  exec_result env (version_cmd p) = inr out ->
  getAnemosToolVersion fuel context env s =
    (Returned (trim out),
     {| fs := fs s;
        trace := trace s ++ probe_events context env ++
          [EExec (version_cmd p);
           ELog ("Detected anemos tool version: " +:+ trim out)] |}).
Proof.
  intros Hloc Hcmd. unfold getAnemosToolVersion. apply try_catch_returned.
  unfold getAnemosToolVersion_try.
  bind_with (resolve_located fuel context env s p Hloc).
  erewrite bind_returned; [| apply exec_ok; exact Hcmd].
  unfold console_log. bind_refl. unfold ret. cbn [fs trace]. by rewrite <- !app_assoc.
Qed.

(** The generation with a location in reach and a tool that succeeds:
    what the tool writes is on the file system. *)
Lemma generate_ok fuel context env s p outputDir out :
  located context env s = Some p ->
  exec_result env (declarations_cmd p outputDir) = inr out ->
  generateAnemosTypes fuel context outputDir env s =
    (Returned tt,
     {| fs := write_all (exec_writes env (declarations_cmd p outputDir)) (fs s);
        trace := trace s ++
          [ELog ("Generating Anemos type definitions in " +:+ outputDir)] ++
          probe_events context env ++
          [EExec (declarations_cmd p outputDir);
           ELog "Successfully generated type definitions."] |}).
Proof.
  intros Hloc Hcmd. unfold generateAnemosTypes. apply try_catch_returned.
  unfold console_log. bind_refl.
  erewrite bind_returned; [| apply resolve_located; by rewrite <- Hloc].
  erewrite bind_returned; [| apply exec_writing_ok; exact Hcmd].
  unfold emit. cbn [fs trace]. by rewrite <- !app_assoc.
Qed.

(** The generation with a location in reach and a tool that fails: what
    the tool wrote before is on the file system, and its error is thrown. *)
Lemma generate_failed fuel context env s p outputDir e :
  located context env s = Some p ->
  exec_result env (declarations_cmd p outputDir) = inl e ->
  generateAnemosTypes fuel context outputDir env s =
    (Thrown e,
     {| fs := write_all (exec_writes env (declarations_cmd p outputDir)) (fs s);
        trace := trace s ++
          [ELog ("Generating Anemos type definitions in " +:+ outputDir)] ++
          probe_events context env ++
          [EExec (declarations_cmd p outputDir);
           ELog ("Error generating type definitions: " +:+ error_to_string e)] |}).
Proof.
  intros Hloc Hcmd. unfold generateAnemosTypes.
  rewrite (try_catch_thrown _ _ env s e
             {| fs := write_all (exec_writes env (declarations_cmd p outputDir)) (fs s);
                trace := trace s ++
                  [ELog ("Generating Anemos type definitions in " +:+ outputDir)] ++
                  probe_events context env ++ [EExec (declarations_cmd p outputDir)] |}).
  - unfold console_log, emit, bind, throw. cbn [fs trace]. by rewrite <- !app_assoc.
  - unfold console_log. bind_refl.
    erewrite bind_returned; [| apply resolve_located; by rewrite <- Hloc].
    erewrite bind_thrown_eq; [| apply exec_writing_failed; exact Hcmd].
    cbn [fs trace]. by rewrite <- !app_assoc.
Qed.

(** A pass whose check calls for the regeneration, with a tool that works
    throughout and a version file that can be written. *)
Lemma pass_when_stale fuel context env s p out out' s2 :
  located context env s = Some p ->
  exec_result env (version_cmd p) = inr out ->
  checkNeedsUpdate (trim out) env
    {| fs := fs s;
       trace := trace s ++ probe_events context env ++
         [EExec (version_cmd p);
          ELog ("Detected anemos tool version: " +:+ trim out)] |} = (Returned true, s2) ->
  exec_result env (declarations_cmd p typesDir) = inr out' ->
  fs_fault env OpWrite versionFilePath = None ->
  write_all (exec_writes env (declarations_cmd p typesDir)) (fs s) !! versionFilePath
    <> Some Dir ->
  ensureTypesAreUpToDate fuel context env s =
    (Returned tt,
     {| fs := <[versionFilePath :=
                  File (JSON_stringify (version_record (trim out) (now env)))]>
                (write_all (exec_writes env (declarations_cmd p typesDir)) (fs s));
        trace := trace s2 ++
          [ELog ("Generating Anemos type definitions in " +:+ typesDir)] ++
          probe_events context env ++
          [EExec (declarations_cmd p typesDir);
           ELog "Successfully generated type definitions.";
           EFs OpWrite versionFilePath;
           ELog ("Updated version file to " +:+ trim out);
           ECommand "typescript.restartTsServer"] |}).
Proof.
  intros Hloc Hversion Hcheck Hdecl Hwrite Hdir.
  destruct (check_returns (trim out) env
              {| fs := fs s;
                 trace := trace s ++ probe_events context env ++
                   [EExec (version_cmd p);
                    ELog ("Detected anemos tool version: " +:+ trim out)] |})
    as (b & s2' & Hcheck' & Hfs & _).
  rewrite Hcheck in Hcheck'. injection Hcheck' as <- <-. cbn [fs] in Hfs.
  unfold ensureTypesAreUpToDate. apply try_catch_returned.
  unfold ensureTypesAreUpToDate_try.
  bind_with (version_query_ok fuel context env s p out Hloc Hversion).
  unfold regenerateIfStale. bind_with Hcheck. cbv beta iota.
  assert (Hloc2 : located context env s2 = Some p).
  { rewrite <- Hloc. apply located_same_cache. by rewrite Hfs. }
  pose proof (generate_ok fuel context env s2 p typesDir out' Hloc2 Hdecl) as Hgen.
  rewrite (regenerate_writes fuel context (trim out) env s2 _ Hgen Hwrite)
    by (cbn [fs]; by rewrite Hfs).
  cbn [fs trace]. rewrite Hfs. by rewrite <- !app_assoc.
Qed.

(** The version file is no directory after writes that do not make it
    one. *)
Lemma not_made_directory writes (f : FileSystem) path :
  f !! path <> Some Dir ->
  ~ In (path, Dir) writes ->
  write_all writes f !! path <> Some Dir.
Proof.
  intros Hbefore Hwrites Hafter.
  by apply fs_lookup_write_all in Hafter as [Hnode | Hin].
Qed.

(** X7: without a version file, a pass with a working tool writes the
    record of the reported version, trimmed, over what the declarations
    command left, and asks for the restart of the TS server last. *)
Theorem first_pass_writes_record fuel context env s p out out' :
  located context env s = Some p ->
  exec_result env (version_cmd p) = inr out ->
  fs s !! versionFilePath = None ->
  exec_result env (declarations_cmd p typesDir) = inr out' ->
  ~ In (versionFilePath, Dir) (exec_writes env (declarations_cmd p typesDir)) ->
  fs_fault env OpWrite versionFilePath = None ->
  ensureTypesAreUpToDate fuel context env s =
    (Returned tt,
     {| fs := <[versionFilePath :=
                  File (JSON_stringify (version_record (trim out) (now env)))]>
                (write_all (exec_writes env (declarations_cmd p typesDir)) (fs s));
        trace := trace s ++ probe_events context env ++
          [EExec (version_cmd p);
           ELog ("Detected anemos tool version: " +:+ trim out);
           EFs OpExists versionFilePath;
           ELog "No version file found, will generate types.";
           ELog ("Generating Anemos type definitions in " +:+ typesDir)] ++
          probe_events context env ++
          [EExec (declarations_cmd p typesDir);
           ELog "Successfully generated type definitions.";
           EFs OpWrite versionFilePath;
           ELog ("Updated version file to " +:+ trim out);
           ECommand "typescript.restartTsServer"] |}).
Proof.
  intros Hloc Hversion Hmissing Hdecl Hnodir Hwrite.
  pose (s1 := {| fs := fs s;
                 trace := trace s ++ probe_events context env ++
                   [EExec (version_cmd p);
                    ELog ("Detected anemos tool version: " +:+ trim out)] |}).
  rewrite (pass_when_stale fuel context env s p out out' _ Hloc Hversion
             (check_missing (trim out) env s1 Hmissing) Hdecl Hwrite)
    by (apply not_made_directory; [by rewrite Hmissing | exact Hnodir]).
  subst s1. cbn [fs trace]. by rewrite <- !app_assoc.
Qed.

(** X8: a record of another version, whatever it is, is replaced by the
    record of the reported version, written over what the declarations
    command left. *)
Theorem stale_record_is_replaced fuel context env s p out out' text fields stored :
  located context env s = Some p ->
  exec_result env (version_cmd p) = inr out ->
  fs s !! versionFilePath = Some (File text) ->
  fs_fault env OpRead versionFilePath = None ->
  JSON_parse text = inr (JObject fields) ->
  assoc_lookup "version" fields = Some (JString stored) ->
  String.eqb stored (trim out) = false ->
  exec_result env (declarations_cmd p typesDir) = inr out' ->
  ~ In (versionFilePath, Dir) (exec_writes env (declarations_cmd p typesDir)) ->
  fs_fault env OpWrite versionFilePath = None ->
  exists s',
    ensureTypesAreUpToDate fuel context env s = (Returned tt, s') /\
    fs s' = <[versionFilePath :=
                File (JSON_stringify (version_record (trim out) (now env)))]>
              (write_all (exec_writes env (declarations_cmd p typesDir)) (fs s)) /\
    In (EExec (declarations_cmd p typesDir)) (trace s').
Proof.
  intros Hloc Hversion Hfile Hread Hparse Hfield Hstale Hdecl Hnodir Hwrite.
  pose proof (check_record (trim out) env
                {| fs := fs s;
                   trace := trace s ++ probe_events context env ++
                     [EExec (version_cmd p);
                      ELog ("Detected anemos tool version: " +:+ trim out)] |}
                text fields stored Hfile Hread Hparse Hfield) as Hcheck.
  cbv zeta in Hcheck. rewrite Hstale in Hcheck. cbn [negb orb] in Hcheck.
  eexists. split; [| split].
  - eapply (pass_when_stale fuel context env s p out out'); try eassumption.
    apply not_made_directory; [by rewrite Hfile | exact Hnodir].
  - reflexivity.
  - cbn [trace]. rewrite !in_app_iff. right. right. right. cbn. by left.
Qed.

(** X9: a record of the reported version, as [regenerate] writes it and
    [JSON.parse] reads it back, ends the pass after the check: no
    generation, no write, no restart. *)
Theorem matching_record_ends_pass fuel context env s p out generated :
  located context env s = Some p ->
  exec_result env (version_cmd p) = inr out ->
  String.eqb (trim out) "0.0.0" = false ->
  fs s !! versionFilePath =
    Some (File (JSON_stringify (version_record (trim out) generated))) ->
  fs_fault env OpRead versionFilePath = None ->
  JSON_parse (JSON_stringify (version_record (trim out) generated)) =
    inr (version_record (trim out) generated) ->
  ensureTypesAreUpToDate fuel context env s =
    (Returned tt,
     {| fs := fs s;
        trace := trace s ++ probe_events context env ++
          [EExec (version_cmd p);
           ELog ("Detected anemos tool version: " +:+ trim out);
           EFs OpExists versionFilePath; EFs OpRead versionFilePath;
           ELog ("Types are up to date (version " +:+ trim out +:+ ")")] |}).
Proof.
  intros Hloc Hversion Hzero Hfile Hread Hround.
  unfold ensureTypesAreUpToDate. apply try_catch_returned.
  unfold ensureTypesAreUpToDate_try.
  bind_with (version_query_ok fuel context env s p out Hloc Hversion).
  unfold regenerateIfStale.
  erewrite bind_returned;
    [| apply (check_record (trim out) env _
                (JSON_stringify (version_record (trim out) generated))
                [("version", JString (trim out)); ("generated", JString generated)]
                (trim out)); [exact Hfile | exact Hread | exact Hround | reflexivity]].
  rewrite String.eqb_refl, Hzero. cbn [negb orb fs trace]. unfold ret.
  by rewrite <- !app_assoc.
Qed.

(** X10: a version file that parses to anything but an object with a
    string under [version] (null, a number, an object without the key, a
    non-string value) is stale, whatever the queried version. *)
Theorem malformed_record_is_stale currentVersion env s text v :
  fs s !! versionFilePath = Some (File text) ->
  fs_fault env OpRead versionFilePath = None ->
  JSON_parse text = inr v ->
  (forall stored, get_property v "version" <> inr (Some (JString stored))) ->
  exists s1,
    checkNeedsUpdate currentVersion env s = (Returned true, s1) /\ fs s1 = fs s.
Proof.
  intros Hfile Hread Hparse Hshape. unfold checkNeedsUpdate.
  bind_with existsSync_eq. rewrite Hfile.
  unfold_ops. rewrite Hread. cbn [fs trace]. rewrite Hfile, Hparse.
  destruct (get_property v "version") as [e|stored] eqn:Hprop; cbn [fs trace];
    [by eexists|].
  assert (Hne : strict_ne_string stored currentVersion = true).
  { destruct stored as [[| | |stored| |]|]; try reflexivity. by destruct (Hshape stored). }
  rewrite Hne. cbn [orb fs trace]. by eexists.
Qed.

(** X11: a failed version query against a record that says unknown ends
    the pass without regeneration: while the query keeps failing, the types
    are not generated again. *)
Theorem unknown_record_blocks_regeneration fuel context env s e s1 text fields :
  getAnemosToolVersion_try fuel context env s = (Thrown e, s1) ->
  fs s1 !! versionFilePath = Some (File text) ->
  fs_fault env OpRead versionFilePath = None ->
  JSON_parse text = inr (JObject fields) ->
  assoc_lookup "version" fields = Some (JString "unknown") ->
  ensureTypesAreUpToDate fuel context env s =
    (Returned tt,
     {| fs := fs s1;
        trace := trace s1 ++
          [ELog ("Error getting anemos version: " +:+ error_to_string e);
           EFs OpExists versionFilePath; EFs OpRead versionFilePath;
           ELog "Types are up to date (version unknown)"] |}).
Proof.
  intros Hquery Hfile Hread Hparse Hfield.
  unfold ensureTypesAreUpToDate. apply try_catch_returned.
  unfold ensureTypesAreUpToDate_try.
  bind_with (version_query_failure fuel context env s e s1 Hquery).
  unfold regenerateIfStale.
  erewrite bind_returned;
    [| apply (check_record "unknown" env _ text fields "unknown"); cbn [fs]; eassumption].
  cbn [negb orb fs trace]. unfold ret. by rewrite <- !app_assoc.
Qed.

(** X12: resolution changes the file system at the cache path and at
    the storage directory and the directories above it only; a whole pass
    at those, at the version file and where the declarations command
    writes, and nowhere else. *)
Theorem pass_leaves_other_paths fuel context env s path :
  path <> binaryPath context env ->
  ~ In path (storage_dirs context) ->
  fs (snd (ensureAnemosBinary fuel context env s)) !! path = fs s !! path /\
  (path <> versionFilePath ->
   (forall anemosPath,
      ~ In path (map fst (exec_writes env (declarations_cmd anemosPath typesDir)))) ->
   fs (snd (ensureTypesAreUpToDate fuel context env s)) !! path = fs s !! path).
Proof.
  intros Hbin Hdir. split.
  - apply (ensureAnemosBinary_same_at fuel context env path Hbin Hdir s).
  - intros Hver Hwrites.
    apply (ensureTypesAreUpToDate_same_at fuel context env path Hbin Hdir Hwrites Hver s).
Qed.

End SynchronizerMore.

(** * The build command and the activation *)

Lemma liftM_eq {A} (m : M A) wb ws r s' :
  m (host_env wb) (host ws) = (r, s') ->
  liftM m wb ws = (r, with_host s' ws).
Proof. intros Hm. unfold liftM. by rewrite Hm. Qed.

Lemma bindW_returned {A B} (m : W A) (k : A -> W B) wb ws a ws1 :
  m wb ws = (Returned a, ws1) -> bindW m k wb ws = k a wb ws1.
Proof. intros Hm. unfold bindW. by rewrite Hm. Qed.

Lemma record_call_calls cs c term :
  record_call c (record_calls cs term) = record_calls (cs ++ [c]) term.
Proof. unfold record_call, record_calls. cbn. by rewrite <- app_assoc. Qed.

Lemma record_calls_nil term : record_calls [] term = term.
Proof. destruct term. unfold record_calls. cbn. by rewrite app_nil_r. Qed.

(** Three calls on one handle are one update of its terminal. *)
Lemma alter_three_calls (l : list terminal) t c1 c2 c3 :
  alter (record_call c3) t (alter (record_call c2) t (alter (record_call c1) t l)) =
  alter (record_calls [c1; c2; c3]) t l.
Proof.
  rewrite !list_alter_alter_eq. apply list_alter_ext; [| done].
  intros term _. unfold record_call, record_calls, compose. cbn.
  by rewrite <- !app_assoc.
Qed.

Section Build.
Context `{Host}.

(** A build whose resolution returns: a new terminal when none is usable,
    the remembered one otherwise; the calls go to that terminal. *)
Lemma build_with_binary fuel context wb ws workspaceRoot rest anemosPath s1 :
  workspaceFolders wb = Some (workspaceRoot :: rest) ->
  ensureAnemosBinary fuel context (host_env wb) (host ws) = (Returned anemosPath, s1) ->
  buildCommand fuel context wb ws =
    (Returned tt,
     if terminal_is_stale ws then
       {| host := s1;
          terminals := terminals ws ++
            [new_terminal "Anemos Build" (build_calls workspaceRoot anemosPath)];
          anemosTerminal := Some (length (terminals ws));
          ui := ui ws |}
     else
       {| host := s1;
          terminals :=
            match anemosTerminal ws with
            | Some t =>
                alter (record_calls (build_calls workspaceRoot anemosPath)) t (terminals ws)
            | None => terminals ws
            end;
          anemosTerminal := anemosTerminal ws;
          ui := ui ws |}).
Proof.
  intros Hfolders Hresolve. unfold buildCommand.
  erewrite bindW_returned; [| reflexivity]. rewrite Hfolders.
  erewrite bindW_returned;
    [| unfold try_catchW; erewrite bindW_returned;
       [reflexivity | apply liftM_eq; exact Hresolve]].
  cbv beta iota. erewrite bindW_returned; [| reflexivity].
  unfold terminal_is_stale. cbn [anemosTerminal terminals with_host].
  destruct (anemosTerminal ws) as [t|] eqn:Hcurrent.
  - unfold bindW at 1. unfold bindW at 1, terminal_exitStatus at 1.
    cbn [terminals with_host retW].
    destruct (terminals ws !! t ≫= exitStatus) as [code|] eqn:Hstatus.
    + unfold bindW, createTerminal, set_anemosTerminal, get_anemosTerminal, terminal_do, retW.
      cbn [host terminals anemosTerminal ui with_host].
      rewrite alter_three_calls.
      replace (length (terminals ws)) with (length (terminals ws) + 0) at 1 by lia.
      rewrite alter_app_r. reflexivity.
    + unfold bindW, get_anemosTerminal, terminal_do, retW.
      cbn [host terminals anemosTerminal ui with_host].
      rewrite Hcurrent. cbn [host terminals anemosTerminal ui with_host].
      by rewrite Hcurrent, alter_three_calls.
  - unfold bindW, createTerminal, set_anemosTerminal, get_anemosTerminal, terminal_do, retW.
    cbn [host terminals anemosTerminal ui with_host].
    rewrite alter_three_calls.
    replace (length (terminals ws)) with (length (terminals ws) + 0) at 1 by lia.
    rewrite alter_app_r. reflexivity.
Qed.

(** The resolution of a user who does not choose Yes. *)
Lemma resolve_refused fuel context env s err :
  exec_result env (binaryName env +:+ " --help") = inl err ->
  fs s !! binaryPath context env = None ->
  answers_yes env = false ->
  ensureAnemosBinary fuel context env s =
    (Thrown declined,
     log_error ("Failed to download Anemos: " +:+ message declined)
       {| fs := fs s;
          trace := trace s ++ [EExec (binaryName env +:+ " --help");
                               EFs OpExists (binaryPath context env);
                               EPrompt consent_message] |}).
Proof.
  intros Hprobe Hnode Hno. rewrite (resolve_acquire fuel context env s err Hprobe Hnode).
  unfold downloadAnemosBinary. rewrite bind_unfold. unfold ask at 1.
  erewrite try_catch_thrown.
  - unfold showErrorMessage, log_error. bind_refl. unfold throw. reflexivity.
  - bind_with choice_eq. unfold answers_yes in Hno.
    destruct (consent env) as [choice|]; [rewrite Hno|];
      (erewrite bind_thrown_eq; [| reflexivity]); cbn [fs trace];
      by rewrite <- !app_assoc.
Qed.

(** X13: without an open folder the build command shows its error and
    does nothing else: no resolution, no terminal. *)
Theorem build_without_workspace fuel context wb ws :
  workspaceFolders wb = None \/ workspaceFolders wb = Some [] ->
  buildCommand fuel context wb ws =
    (Returned tt, with_host (log_error "No workspace folder is open." (host ws)) ws).
Proof.
  intros Hfolders. unfold buildCommand.
  erewrite bindW_returned; [| reflexivity].
  destruct Hfolders as [-> | ->]; by apply liftM_eq.
Qed.

(** X14: when resolution throws, the build command shows its own error
    after whatever resolution showed, returns, and leaves the terminals and
    the remembered terminal as they were; the error itself is dropped. *)
Theorem failed_build_leaves_terminals fuel context wb ws workspaceRoot rest e s1 :
  workspaceFolders wb = Some (workspaceRoot :: rest) ->
  ensureAnemosBinary fuel context (host_env wb) (host ws) = (Thrown e, s1) ->
  buildCommand fuel context wb ws =
    (Returned tt,
     with_host (log_error "Failed to find or download Anemos binary." s1) ws).
Proof.
  intros Hfolders Hresolve. unfold buildCommand.
  erewrite bindW_returned; [| reflexivity]. rewrite Hfolders.
  erewrite bindW_returned;
    [| unfold try_catchW, bindW at 1; rewrite (liftM_eq _ wb ws _ _ Hresolve);
       unfold bindW, liftM, showErrorMessage, emit, retW, with_host, log_error;
       reflexivity].
  reflexivity.
Qed.

(** X15: a build that the user refuses to let download shows two error
    messages, the one of the resolution and then the one of the command. *)
Theorem refused_build_shows_two_errors fuel context wb ws workspaceRoot rest err :
  workspaceFolders wb = Some (workspaceRoot :: rest) ->
  exec_result (host_env wb) (binaryName (host_env wb) +:+ " --help") = inl err ->
  fs (host ws) !! binaryPath context (host_env wb) = None ->
  answers_yes (host_env wb) = false ->
  exists ws',
    buildCommand fuel context wb ws = (Returned tt, ws') /\
    trace (host ws') = trace (host ws) ++
      [EExec (binaryName (host_env wb) +:+ " --help");
       EFs OpExists (binaryPath context (host_env wb));
       EPrompt consent_message;
       EErrorMsg "Failed to download Anemos: User did not consent to download Anemos binary.";
       EErrorMsg "Failed to find or download Anemos binary."] /\
    terminals ws' = terminals ws.
Proof.
  intros Hfolders Hprobe Hnode Hno.
  pose proof (resolve_refused fuel context (host_env wb) (host ws) err Hprobe Hnode Hno)
    as Hresolve.
  unfold buildCommand.
  erewrite bindW_returned; [| reflexivity]. rewrite Hfolders.
  erewrite bindW_returned;
    [| unfold try_catchW, bindW at 1; rewrite (liftM_eq _ wb ws _ _ Hresolve);
       unfold bindW, liftM, showErrorMessage, emit, retW, with_host, log_error;
       reflexivity].
  eexists. split; [reflexivity|]. cbn [host terminals fs trace].
  split; [by rewrite <- !app_assoc | reflexivity].
Qed.

(** X16: a build whose resolution returns and whose remembered terminal
    still runs reuses that terminal: no terminal is created, and the
    terminal gets [show], the [cd] to the first folder and the build line,
    after what it had. *)
Theorem build_reuses_running_terminal fuel context wb ws workspaceRoot rest p s1 t term :
  workspaceFolders wb = Some (workspaceRoot :: rest) ->
  ensureAnemosBinary fuel context (host_env wb) (host ws) = (Returned p, s1) ->
  anemosTerminal ws = Some t ->
  terminals ws !! t = Some term ->
  exitStatus term = None ->
  buildCommand fuel context wb ws =
    (Returned tt,
     {| host := s1;
        terminals := <[t := record_calls (build_calls workspaceRoot p) term]> (terminals ws);
        anemosTerminal := Some t;
        ui := ui ws |}).
Proof.
  intros Hfolders Hresolve Hcurrent Hterm Hruns.
  rewrite (build_with_binary fuel context wb ws workspaceRoot rest p s1 Hfolders Hresolve).
  unfold terminal_is_stale. rewrite Hcurrent, Hterm. cbn [mbind option_bind].
  rewrite Hruns. f_equal. f_equal.
  apply list_eq. intros i. destruct (decide (i = t)) as [->|Hne].
  - rewrite list_lookup_alter_eq, Hterm. cbn.
    by rewrite list_lookup_insert_eq by (by eapply lookup_lt_Some).
  - by rewrite list_lookup_alter_ne, list_lookup_insert_ne.
Qed.

(** X17: a build whose resolution returns while no terminal is
    remembered, or the remembered one has exited, creates a terminal named
    Anemos Build, remembers it, and sends the calls to it; the terminals that
    were there get nothing. *)
Theorem build_replaces_unusable_terminal fuel context wb ws workspaceRoot rest p s1 :
  workspaceFolders wb = Some (workspaceRoot :: rest) ->
  ensureAnemosBinary fuel context (host_env wb) (host ws) = (Returned p, s1) ->
  (anemosTerminal ws = None \/
   exists t term code,
     anemosTerminal ws = Some t /\ terminals ws !! t = Some term /\
     exitStatus term = Some code) ->
  buildCommand fuel context wb ws =
    (Returned tt,
     {| host := s1;
        terminals := terminals ws ++
          [new_terminal "Anemos Build" (build_calls workspaceRoot p)];
        anemosTerminal := Some (length (terminals ws));
        ui := ui ws |}).
Proof.
  intros Hfolders Hresolve Hstale.
  rewrite (build_with_binary fuel context wb ws workspaceRoot rest p s1 Hfolders Hresolve).
  unfold terminal_is_stale.
  destruct Hstale as [-> | (t & term & code & -> & -> & Hcode)]; [reflexivity|].
  cbn [mbind option_bind]. by rewrite Hcode.
Qed.

(** X18: two builds in a row, with a binary in reach, share a terminal:
    the second creates none, remembers the same terminal, and that terminal
    ends with the calls of the second build. *)
Theorem two_builds_share_a_terminal fuel context wb ws workspaceRoot rest p :
  workspaceFolders wb = Some (workspaceRoot :: rest) ->
  located context (host_env wb) (host ws) = Some p ->
  (forall t, anemosTerminal ws = Some t -> t < length (terminals ws)) ->
  let ws1 := snd (buildCommand fuel context wb ws) in
  let ws2 := snd (buildCommand fuel context wb ws1) in
  length (terminals ws2) = length (terminals ws1) /\
  anemosTerminal ws2 = anemosTerminal ws1 /\
  exists t term,
    anemosTerminal ws2 = Some t /\ terminals ws2 !! t = Some term /\
    exitStatus term = None /\
    exists before,
      calls term = before ++ build_calls workspaceRoot p ++ build_calls workspaceRoot p.
Proof.
  intros Hfolders Hloc Hvalid ws1 ws2.
  pose proof (resolve_located fuel context (host_env wb) (host ws) p Hloc) as Hresolve.
  pose proof (build_with_binary fuel context wb ws workspaceRoot rest p _ Hfolders Hresolve)
    as Hfirst.
  assert (Hfirst' : exists t term,
            anemosTerminal ws1 = Some t /\ terminals ws1 !! t = Some term /\
            exitStatus term = None /\
            (exists before, calls term = before ++ build_calls workspaceRoot p) /\
            fs (host ws1) = fs (host ws)).
  { subst ws1. rewrite Hfirst. cbn [snd]. unfold terminal_is_stale in *.
    destruct (anemosTerminal ws) as [t|] eqn:Hcurrent.
    - destruct (terminals ws !! t) as [term|] eqn:Hterm;
        [| apply lookup_ge_None in Hterm; specialize (Hvalid t eq_refl); lia].
      cbn [mbind option_bind]. destruct (exitStatus term) as [code|] eqn:Hstatus.
      + exists (length (terminals ws)), (new_terminal "Anemos Build" (build_calls workspaceRoot p)).
        cbn [host terminals anemosTerminal fs]. repeat split; try done.
        * by rewrite lookup_app_r, Nat.sub_diag by lia.
        * by exists [].
      + exists t, (record_calls (build_calls workspaceRoot p) term).
        cbn [host terminals anemosTerminal fs]. repeat split; try done.
        * by rewrite list_lookup_alter_eq, Hterm.
        * by eexists.
    - exists (length (terminals ws)), (new_terminal "Anemos Build" (build_calls workspaceRoot p)).
      cbn [host terminals anemosTerminal fs]. repeat split; try done.
      + by rewrite lookup_app_r, Nat.sub_diag by lia.
      + by exists []. }
  destruct Hfirst' as (t & term & Hcurrent1 & Hterm1 & Hruns1 & [before Hcalls1] & Hfs1).
  assert (Hloc1 : located context (host_env wb) (host ws1) = Some p).
  { rewrite <- Hloc. apply located_same_cache. by rewrite Hfs1. }
  pose proof (resolve_located fuel context (host_env wb) (host ws1) p Hloc1) as Hresolve1.
  pose proof (build_with_binary fuel context wb ws1 workspaceRoot rest p _ Hfolders Hresolve1)
    as Hsecond.
  assert (Hfresh : terminal_is_stale ws1 = false).
  { unfold terminal_is_stale. rewrite Hcurrent1, Hterm1. cbn. by rewrite Hruns1. }
  rewrite Hfresh, Hcurrent1 in Hsecond.
  subst ws2. rewrite Hsecond. cbn [snd terminals anemosTerminal].
  split; [apply length_alter|]. split; [done|].
  exists t, (record_calls (build_calls workspaceRoot p) term).
  repeat split; try done.
  - by rewrite list_lookup_alter_eq, Hterm1.
  - exists before. cbn [calls record_calls]. by rewrite Hcalls1, <- app_assoc.
Qed.

(** X19: the close listener forgets the remembered terminal when that is
    the one that closed, and only then; after it did, the next build creates
    a terminal and leaves the closed one alone. *)
Theorem closed_terminal_is_replaced fuel context wb ws workspaceRoot rest p s1 t :
  workspaceFolders wb = Some (workspaceRoot :: rest) ->
  ensureAnemosBinary fuel context (host_env wb) (host ws) = (Returned p, s1) ->
  anemosTerminal ws = Some t ->
  (forall t', t' <> t -> onDidCloseTerminal_listener t' wb ws = (Returned tt, ws)) /\
  exists ws1,
    onDidCloseTerminal_listener t wb ws = (Returned tt, ws1) /\
    anemosTerminal ws1 = None /\
    buildCommand fuel context wb ws1 =
      (Returned tt,
       {| host := s1;
          terminals := terminals ws ++
            [new_terminal "Anemos Build" (build_calls workspaceRoot p)];
          anemosTerminal := Some (length (terminals ws));
          ui := ui ws |}).
Proof.
  intros Hfolders Hresolve Hcurrent. split.
  - intros t' Hne. unfold onDidCloseTerminal_listener, bindW, get_anemosTerminal.
    rewrite Hcurrent. apply Nat.eqb_neq in Hne. by rewrite Hne.
  - eexists. split; [| split].
    + unfold onDidCloseTerminal_listener, bindW, get_anemosTerminal.
      rewrite Hcurrent, Nat.eqb_refl. reflexivity.
    + reflexivity.
    + erewrite build_with_binary; [| exact Hfolders | exact Hresolve]. reflexivity.
Qed.

(** X20: the activation raises nothing.  When the first resolution
    throws, the type synchronisation is not run and the warning is shown;
    when it returns, the synchronisation runs and no warning is shown,
    whatever went wrong in it.  Either way the command, the listener and the
    subscription are registered, in that order. *)
Theorem activation_outcome fuel context wb ws :
  (forall e, fst (activate fuel context wb ws) <> Thrown e) /\
  (forall e s1,
     ensureAnemosBinary fuel context (host_env wb) (host ws) = (Thrown e, s1) ->
     activate fuel context wb ws =
       (Returned tt,
        {| host := s1; terminals := terminals ws; anemosTerminal := anemosTerminal ws;
           ui := ui ws ++
             [UWarning "Anemos binary not found and could not be downloaded. Some features may not work.";
              URegisterCommand "anemos.build"; UOnDidCloseTerminal;
              USubscribe "anemos.build"] |})) /\
  (forall p s1 s2,
     ensureAnemosBinary fuel context (host_env wb) (host ws) = (Returned p, s1) ->
     ensureTypesAreUpToDate fuel context (host_env wb) s1 = (Returned tt, s2) ->
     activate fuel context wb ws =
       (Returned tt,
        {| host := s2; terminals := terminals ws; anemosTerminal := anemosTerminal ws;
           ui := ui ws ++
             [URegisterCommand "anemos.build"; UOnDidCloseTerminal;
              USubscribe "anemos.build"] |})).
Proof.
  split; [| split].
  - intros e. unfold activate, bindW, try_catchW, liftM, showWarningMessage, emitW.
    destruct (ensureAnemosBinary fuel context (host_env wb) (host ws)) as [[p|e'|] s1];
      cbn [host fst]; try done.
    by destruct (ensureTypesAreUpToDate fuel context (host_env wb) s1) as [[[]|e'|] s2].
  - intros e s1 Hresolve.
    unfold activate, bindW, try_catchW, liftM, showWarningMessage, emitW.
    rewrite Hresolve. cbn. by rewrite <- !app_assoc.
  - intros p s1 s2 Hresolve Hpass.
    unfold activate, bindW, try_catchW, liftM, showWarningMessage, emitW.
    rewrite Hresolve. cbn [host]. rewrite Hpass. cbn. by rewrite <- !app_assoc.
Qed.

End Build.

(** * The host calls that a computation makes *)

#[local] Instance only_refl P : Reflexive (only P).
Proof. intros s. exists []. by rewrite app_nil_r. Qed.

#[local] Instance only_trans P : Transitive (only P).
Proof.
  intros s1 s2 s3 (l1 & H1 & F1) (l2 & H2 & F2). exists (l1 ++ l2).
  split; [by rewrite H2, H1, app_assoc | by rewrite forallb_app, F1, F2].
Qed.

Section Emits.
Variable P : event -> bool.
Variable env : Env.
Context `{Host}.

Lemma emits_emit e : P e = true -> preserves (only P) env (emit e).
Proof. intros He s. exists [e]. cbn. by rewrite He. Qed.

Lemma emits_put_fs f : preserves (only P) env (put_fs f).
Proof. intros s. exists []. cbn. by rewrite app_nil_r. Qed.

Ltac emitting :=
  repeat first
    [ assumption
    | match goal with
      | |- forall _, _ => intro
      | |- preserves _ _ (bind ask _) => apply preserves_ask_bind
      | |- preserves _ _ (bind _ _) => apply preserves_bind; [apply _ | |]
      | |- preserves _ _ (try_catch _ _) => apply preserves_try_catch; [apply _ | |]
      | |- preserves _ _ (ret _) => apply preserves_ret; apply _
      | |- preserves _ _ (throw _) => apply preserves_throw; apply _
      | |- preserves _ _ diverge => apply preserves_diverge; apply _
      | |- preserves _ _ (lift_sum _) => apply preserves_lift_sum; apply _
      | |- preserves _ _ get_fs => apply preserves_get_fs; apply _
      | |- preserves _ _ (check_fault _ _) => apply preserves_check_fault; apply _
      | |- preserves _ _ (put_fs _) => apply emits_put_fs
      | |- preserves _ _ (emit _) => apply emits_emit; try assumption
      | |- preserves _ _ (if ?b then _ else _) => destruct b
      | |- preserves _ _ (match ?x with _ => _ end) => destruct x
      end ].

Lemma emits_exec cmd : P (EExec cmd) = true -> preserves (only P) env (exec cmd).
Proof. intros Hp. unfold exec. emitting. Qed.

Lemma emits_exec_writing cmd :
  P (EExec cmd) = true -> preserves (only P) env (exec_writing cmd).
Proof. intros Hp. unfold exec_writing. emitting. Qed.

Lemma emits_https_get url :
  (forall u, P (EHttpGet u) = true) -> preserves (only P) env (https_get url).
Proof. intros Hp. unfold https_get. emitting; apply Hp. Qed.

Lemma emits_existsSync path :
  P (EFs OpExists path) = true -> preserves (only P) env (fs_existsSync path).
Proof. intros Hp. unfold fs_existsSync. emitting. Qed.

Lemma emits_mkdirSync path :
  P (EFs OpMkdir path) = true -> preserves (only P) env (fs_mkdirSync path).
Proof. intros Hp. unfold fs_mkdirSync. emitting. Qed.

Lemma emits_readFileSync path :
  P (EFs OpRead path) = true -> preserves (only P) env (fs_readFileSync path).
Proof. intros Hp. unfold fs_readFileSync. emitting. Qed.

Lemma emits_writeFileSync path data :
  P (EFs OpWrite path) = true -> preserves (only P) env (fs_writeFileSync path data).
Proof. intros Hp. unfold fs_writeFileSync. emitting. Qed.

Lemma emits_chmodSync path mode :
  P (EFs OpChmod path) = true -> preserves (only P) env (fs_chmodSync path mode).
Proof. intros Hp. unfold fs_chmodSync. emitting. Qed.

Lemma emits_unlink path :
  P (EFs OpUnlink path) = true -> preserves (only P) env (fsUnlink path).
Proof. intros Hp. unfold fsUnlink. emitting. Qed.

Lemma emits_cleanupPartialFile dest :
  P (EFs OpExists dest) = true -> P (EFs OpUnlink dest) = true ->
  preserves (only P) env (cleanupPartialFile dest).
Proof.
  intros He Hu. pose proof (emits_existsSync dest He). pose proof (emits_unlink dest Hu).
  unfold cleanupPartialFile. emitting.
Qed.

Lemma emits_writeResponseToFile r dest :
  P (EFs OpOpen dest) = true -> P (EFs OpUnlink dest) = true ->
  preserves (only P) env (writeResponseToFile r dest).
Proof.
  intros Ho Hu. pose proof (emits_unlink dest Hu).
  unfold writeResponseToFile. apply preserves_ask_bind. cbv zeta. emitting.
Qed.

Lemma emits_downloadFile dest :
  (forall u, P (EHttpGet u) = true) ->
  P (EFs OpExists dest) = true -> P (EFs OpOpen dest) = true ->
  P (EFs OpUnlink dest) = true ->
  forall fuel url, preserves (only P) env (downloadFile fuel url dest).
Proof.
  intros Hg He Ho Hu. induction fuel as [|fuel IH]; intros url; cbn [downloadFile].
  - emitting.
  - pose proof (emits_https_get url Hg).
    pose proof (emits_cleanupPartialFile dest He Hu).
    pose proof (fun r => emits_writeResponseToFile r dest Ho Hu) as Hwrite.
    unfold downloadFile_try. emitting; first [apply IH | apply Hwrite].
Qed.

End Emits.

(** X21: whatever happens, the host calls of a download are requests and
    the existence test, the open and the unlink of [destPath]: it asks the
    user nothing, shows nothing, logs nothing and starts no process. *)
Theorem download_makes_only_its_calls dest fuel url env s :
  only (download_call dest) s (snd (downloadFile fuel url dest env s)).
Proof.
  apply (emits_downloadFile (download_call dest) env dest); cbn;
    first [reflexivity | apply String.eqb_refl].
Qed.

Lemma prompts_app t1 t2 : prompts (t1 ++ t2) = prompts t1 + prompts t2.
Proof. unfold prompts. by rewrite List.filter_app, length_app. Qed.

Lemma prompts_unprompted l :
  forallb unprompted_call l = true -> prompts l = 0.
Proof.
  unfold prompts, unprompted_call. induction l as [|e l IH]; cbn; [done|].
  destruct (is_prompt e); cbn; [discriminate | exact IH].
Qed.

Lemma prompts_silent l : forallb silent_call l = true -> prompts l = 0.
Proof.
  unfold prompts, silent_call. induction l as [|e l IH]; cbn; [done|].
  destruct (is_prompt e); cbn; [discriminate|]. destruct (is_request e); cbn; [discriminate|].
  exact IH.
Qed.

Section Prompts.
Context `{Host}.

Ltac emitting_with tac :=
  repeat first
    [ assumption
    | match goal with
      | |- forall _, _ => intro
      | |- preserves _ _ (bind ask _) => apply preserves_ask_bind
      | |- preserves _ _ (bind _ _) => apply preserves_bind; [apply _ | |]
      | |- preserves _ _ (try_catch _ _) => apply preserves_try_catch; [apply _ | |]
      | |- preserves _ _ (ret _) => apply preserves_ret; apply _
      | |- preserves _ _ (throw _) => apply preserves_throw; apply _
      | |- preserves _ _ (lift_sum _) => apply preserves_lift_sum; apply _
      | |- preserves _ _ (if ?b then _ else _) => destruct b
      | |- preserves _ _ (match ?x with _ => _ end) => destruct x
      end
    | tac ].

(** After its prompt, the acquisition asks nothing more. *)
Lemma acquisition_after_prompt fuel context env s :
  only unprompted_call
    {| fs := fs s; trace := trace s ++ [EPrompt consent_message] |}
    (snd (downloadAnemosBinary fuel context env s)).
Proof.
  unfold downloadAnemosBinary. unfold bind at 1, ask at 1.
  rewrite (try_catch_bind_returned _ _ _ env s (consent env)
             {| fs := fs s; trace := trace s ++ [EPrompt consent_message] |})
    by reflexivity.
  match goal with
  | |- only _ ?s1 (snd (try_catch ?m ?h env ?s1)) =>
      generalize s1; change (preserves (only unprompted_call) env (try_catch m h))
  end.
  unfold showInformationMessage, showErrorMessage.
  emitting_with ltac:(first
    [ apply emits_emit; reflexivity
    | apply emits_existsSync; reflexivity
    | apply emits_mkdirSync; reflexivity
    | apply emits_chmodSync; reflexivity
    | apply emits_downloadFile; intros; reflexivity ]).
Qed.

(** One resolution asks the user at most once, and not at all when a
    location is in reach. *)
Lemma resolution_prompts fuel context env s :
  let s' := snd (ensureAnemosBinary fuel context env s) in
  prompts (trace s') <= prompts (trace s) + 1 /\
  (forall p, located context env s = Some p -> prompts (trace s') = prompts (trace s)).
Proof.
  cbv zeta. unfold located.
  destruct (exec_result env (binaryName env +:+ " --help")) as [err|out] eqn:Hprobe.
  - destruct (fs s !! binaryPath context env) as [node|] eqn:Hnode.
    + rewrite (resolve_cached fuel context env s err node Hprobe Hnode). cbn [snd trace].
      rewrite prompts_app. cbn. split; [lia | intros; lia].
    + rewrite (resolve_acquire fuel context env s err Hprobe Hnode).
      split; [| discriminate].
      destruct (acquisition_after_prompt fuel context env
                  {| fs := fs s;
                     trace := trace s ++ [EExec (binaryName env +:+ " --help");
                                          EFs OpExists (binaryPath context env)] |})
        as (l & Htrace & Hquiet).
      rewrite Htrace. cbn [trace]. rewrite !prompts_app, (prompts_unprompted l Hquiet).
      cbn. lia.
  - rewrite (resolve_on_path fuel context env s out Hprobe). cbn [snd trace].
    rewrite prompts_app. cbn. split; [lia | intros; lia].
Qed.

(** X22: one call of [ensureAnemosBinary] asks the user at most once;
    when the search path or the cache has the binary it does not ask. *)
Theorem resolution_asks_at_most_once fuel context env s :
  prompts (trace (snd (ensureAnemosBinary fuel context env s))) <= prompts (trace s) + 1 /\
  (forall p,
     located context env s = Some p ->
     prompts (trace (snd (ensureAnemosBinary fuel context env s))) = prompts (trace s)).
Proof.
  destruct (resolution_prompts fuel context env s) as [Hmost Hnone].
  split; [exact Hmost | exact Hnone].
Qed.

End Prompts.

Section SilentPass.
Context `{Host}.
Variables (fuel : nat) (context : Context) (env : Env) (p : string).

#[local] Instance silent_from_refl : Reflexive (silent_from context env p).
Proof. intros s Hloc. split; [exact Hloc | reflexivity]. Qed.

#[local] Instance silent_from_trans : Transitive (silent_from context env p).
Proof.
  intros s1 s2 s3 H12 H23 Hloc. destruct (H12 Hloc) as [Hloc2 Ho12].
  destruct (H23 Hloc2) as [Hloc3 Ho23]. split; [exact Hloc3 | by etransitivity].
Qed.

(** A computation that makes silent calls and leaves the file system as
    it is. *)
Lemma silent_reader {A} (m : M A) :
  preserves (only silent_call) env m ->
  (forall s, fs (snd (m env s)) = fs s) ->
  preserves (silent_from context env p) env m.
Proof.
  intros Honly Hfs s Hloc. split; [| apply Honly].
  rewrite <- Hloc. apply located_same_cache. by rewrite Hfs.
Qed.

Lemma silent_emit e :
  silent_call e = true -> preserves (silent_from context env p) env (emit e).
Proof. intros He. apply silent_reader; [by apply emits_emit | done]. Qed.

Lemma silent_exec cmd : preserves (silent_from context env p) env (exec cmd).
Proof.
  apply silent_reader; [by apply emits_exec|].
  intros s. unfold_ops. by destruct (exec_result env cmd).
Qed.

(** A process that writes keeps what is in reach: it removes nothing. *)
Lemma silent_exec_writing cmd :
  preserves (silent_from context env p) env (exec_writing cmd).
Proof.
  intros s Hloc. split; [| by apply emits_exec_writing].
  assert (Hfs : fs (snd (exec_writing cmd env s)) = write_all (exec_writes env cmd) (fs s)).
  { unfold exec_writing. unfold_ops. by destruct (exec_result env cmd). }
  revert Hloc. unfold located. rewrite Hfs.
  destruct (exec_result env (binaryName env +:+ " --help")) as [err|out]; [| done].
  destruct (fs s !! binaryPath context env) as [node|] eqn:Hnode; [| discriminate].
  destruct (fs_lookup_write_all_some (exec_writes env cmd) (fs s) _ node Hnode)
    as [node' Hnode'].
  by rewrite Hnode'.
Qed.

Lemma silent_existsSync path :
  preserves (silent_from context env p) env (fs_existsSync path).
Proof. apply silent_reader; [by apply emits_existsSync | done]. Qed.

Lemma silent_readFileSync path :
  preserves (silent_from context env p) env (fs_readFileSync path).
Proof.
  apply silent_reader; [by apply emits_readFileSync|].
  intros s. unfold_ops. destruct (fs_fault env OpRead path); cbn [fs trace snd]; [done|].
  by destruct (fs s !! path) as [[c|]|].
Qed.

(** A write keeps what is in reach: it removes nothing. *)
Lemma silent_writeFileSync path data :
  preserves (silent_from context env p) env (fs_writeFileSync path data).
Proof.
  intros s Hloc. split; [| by apply emits_writeFileSync].
  revert Hloc. unfold located, fs_writeFileSync. unfold_ops.
  destruct (exec_result env (binaryName env +:+ " --help")) as [err|out]; [| done].
  destruct (fs_fault env OpWrite path); cbn [fs trace snd]; [done|].
  destruct (fs s !! path) as [[c|]|] eqn:Hpath; cbn [fs trace snd]; try done;
    (destruct (decide (path = binaryPath context env)) as [->|Hne];
     [rewrite fs_lookup_insert_eq; by destruct (fs s !! binaryPath context env)
     | by rewrite fs_lookup_insert_ne]).
Qed.

(** Resolution with the location in reach. *)
Lemma silent_ensureAnemosBinary :
  preserves (silent_from context env p) env (ensureAnemosBinary fuel context).
Proof.
  intros s Hloc. rewrite (resolve_located fuel context env s p Hloc). cbn [snd].
  split; [rewrite <- Hloc; by apply located_same_cache|].
  exists (probe_events context env). split; [done|].
  unfold probe_events. by destruct (exec_result env (binaryName env +:+ " --help")).
Qed.

Ltac silent :=
  repeat first
    [ assumption
    | match goal with
      | |- forall _, _ => intro
      | |- preserves _ _ (bind ask _) => apply preserves_ask_bind
      | |- preserves _ _ (bind _ _) => apply preserves_bind; [apply _ | |]
      | |- preserves _ _ (try_catch _ _) => apply preserves_try_catch; [apply _ | |]
      | |- preserves _ _ (ret _) => apply preserves_ret; apply _
      | |- preserves _ _ (throw _) => apply preserves_throw; apply _
      | |- preserves _ _ (lift_sum _) => apply preserves_lift_sum; apply _
      | |- preserves _ _ (emit _) => apply silent_emit; reflexivity
      | |- preserves _ _ (exec _) => apply silent_exec
      | |- preserves _ _ (exec_writing _) => apply silent_exec_writing
      | |- preserves _ _ (fs_existsSync _) => apply silent_existsSync
      | |- preserves _ _ (fs_readFileSync _) => apply silent_readFileSync
      | |- preserves _ _ (fs_writeFileSync _ _) => apply silent_writeFileSync
      | |- preserves _ _ (ensureAnemosBinary _ _) => apply silent_ensureAnemosBinary
      | |- preserves _ _ (if ?b then _ else _) => destruct b
      | |- preserves _ _ (match ?x with _ => _ end) => destruct x
      end ].

Lemma silent_pass :
  preserves (silent_from context env p) env (ensureTypesAreUpToDate fuel context).
Proof.
  unfold ensureTypesAreUpToDate, ensureTypesAreUpToDate_try, regenerateIfStale, regenerate,
    checkNeedsUpdate, generateAnemosTypes, getAnemosToolVersion, getAnemosToolVersion_try,
    console_log, executeCommand.
  silent.
Qed.

End SilentPass.

Section ActivationPrompts.
Context `{Host}.

(** X23: with the binary on the search path or in the cache, a pass asks
    the user nothing and requests nothing, whatever the tool and the file
    system answer. *)
Theorem pass_with_binary_is_silent fuel context env s p :
  located context env s = Some p ->
  exists l,
    trace (snd (ensureTypesAreUpToDate fuel context env s)) = trace s ++ l /\
    List.filter is_prompt l = [] /\ List.filter is_request l = [].
Proof.
  intros Hloc.
  destruct (silent_pass fuel context env p s Hloc) as [_ (l & Htrace & Hsilent)].
  exists l. split; [exact Htrace|]. clear Htrace.
  induction l as [|e l IH]; [done|]. cbn in Hsilent.
  apply andb_true_iff in Hsilent as [He Hl]. unfold silent_call in He.
  apply andb_true_iff in He as [Hp Hr]. apply negb_true_iff in Hp, Hr.
  destruct (IH Hl) as [IHp IHr]. cbn. by rewrite Hp, Hr.
Qed.

(** X24: the activation asks the user at most once: when the first
    resolution returns, the binary is in reach for the pass that follows. *)
Theorem activation_asks_at_most_once fuel context wb ws :
  prompts (trace (host (snd (activate fuel context wb ws)))) <=
  prompts (trace (host ws)) + 1.
Proof.
  pose proof (resolution_prompts fuel context (host_env wb) (host ws)) as [Hmost _].
  cbv zeta in Hmost.
  unfold activate, bindW, try_catchW, liftM, showWarningMessage, emitW.
  destruct (ensureAnemosBinary fuel context (host_env wb) (host ws)) as [[p|e|] s1] eqn:Hresolve;
    cbn [snd host] in *; try exact Hmost.
  apply located_after_resolution in Hresolve.
  destruct (silent_pass fuel context (host_env wb) p s1 Hresolve) as [_ (l & Htrace & Hsilent)].
  assert (Hsame : prompts (trace (snd (ensureTypesAreUpToDate fuel context (host_env wb) s1)))
                  = prompts (trace s1)).
  { rewrite Htrace, prompts_app, (prompts_silent l Hsilent). lia. }
  destruct (ensureTypesAreUpToDate fuel context (host_env wb) s1) as [[[]|e|] s2];
    cbn [snd host] in *; lia.
Qed.

End ActivationPrompts.

(** * The regeneration and the record *)

Section Regeneration.
Context `{Host}.

(** The generation, case by case: the log line, the resolution, and when
    that returns a location the declarations command, whose writes are on
    the file system whatever its result. *)
Lemma generate_runs fuel context env s outputDir :
  generateAnemosTypes fuel context outputDir env s =
    match ensureAnemosBinary fuel context env (generation_started outputDir s) with
    | (Returned p, s1) =>
        let cmd := declarations_cmd p outputDir in
        let f := write_all (exec_writes env cmd) (fs s1) in
        match exec_result env cmd with
        | inr _ =>
            (Returned tt,
             {| fs := f;
                trace := trace s1 ++
                  [EExec cmd; ELog "Successfully generated type definitions."] |})
        | inl e =>
            (Thrown e,
             {| fs := f;
                trace := trace s1 ++
                  [EExec cmd;
                   ELog ("Error generating type definitions: " +:+ error_to_string e)] |})
        end
    | (Thrown e, s1) =>
        (Thrown e,
         {| fs := fs s1;
            trace := trace s1 ++
              [ELog ("Error generating type definitions: " +:+ error_to_string e)] |})
    | (Diverged, s1) => (Diverged, s1)
    end.
Proof.
  unfold generateAnemosTypes, generation_started, generation_log, declarations_cmd.
  unfold try_catch at 1. unfold console_log at 1. rewrite bind_unfold.
  unfold emit at 1. cbv beta iota. rewrite bind_unfold.
  destruct (ensureAnemosBinary fuel context env _) as [[p|e|] s1]; try reflexivity.
  rewrite bind_unfold. unfold exec_writing, console_log. unfold_ops.
  destruct (exec_result env _) as [e|out]; cbn [fs trace]; by rewrite <- !app_assoc.
Qed.

(** The regeneration after a generation that returned, case by case. *)
Lemma regenerate_after_generation fuel context currentVersion env s s1 :
  generateAnemosTypes fuel context typesDir env s = (Returned tt, s1) ->
  let record := File (JSON_stringify (version_record currentVersion (now env))) in
  let s2 := {| fs := fs s1; trace := trace s1 ++ [EFs OpWrite versionFilePath] |} in
  regenerate fuel context currentVersion env s =
    match fs_fault env OpWrite versionFilePath with
    | Some err => (Thrown err, s2)
    | None =>
        match fs s1 !! versionFilePath with
        | Some Dir =>
            (Thrown (Error ("EISDIR: illegal operation on a directory, open "
                            +:+ versionFilePath)), s2)
        | _ =>
            (Returned tt,
             {| fs := <[versionFilePath := record]> (fs s1);
                trace := trace s2 ++
                  [ELog ("Updated version file to " +:+ currentVersion);
                   ECommand "typescript.restartTsServer"] |})
        end
    end.
Proof.
  intros Hgen. cbv zeta. unfold regenerate. rewrite bind_unfold, Hgen. unfold_ops.
  destruct (fs_fault env OpWrite versionFilePath) as [err|]; cbn [fs trace]; [done|].
  destruct (fs s1 !! versionFilePath) as [[c|]|]; cbn [fs trace]; try done;
    by rewrite <- !app_assoc.
Qed.

End Regeneration.

(** ** Host calls that are no write *)


Lemma only_app P s s' l1 l2 :
  trace s' = trace s ++ l1 ++ l2 ->
  forallb P l1 = true -> forallb P l2 = true -> only P s s'.
Proof.
  intros Htrace H1 H2. exists (l1 ++ l2). split; [exact Htrace|].
  rewrite forallb_app. by rewrite H1, H2.
Qed.

Section NoWrite.
Context `{Host}.
Variable env : Env.

Ltac quiet :=
  repeat first
    [ assumption
    | match goal with
      | |- forall _, _ => intro
      | |- preserves _ _ (bind ask _) => apply preserves_ask_bind
      | |- preserves _ _ (bind _ _) => apply preserves_bind; [apply _ | |]
      | |- preserves _ _ (try_catch _ _) => apply preserves_try_catch; [apply _ | |]
      | |- preserves _ _ (ret _) => apply preserves_ret; apply _
      | |- preserves _ _ (throw _) => apply preserves_throw; apply _
      | |- preserves _ _ (lift_sum _) => apply preserves_lift_sum; apply _
      | |- preserves _ _ (emit _) => apply emits_emit; reflexivity
      | |- preserves _ _ (exec _) => apply emits_exec; reflexivity
      | |- preserves _ _ (exec_writing _) => apply emits_exec_writing; reflexivity
      | |- preserves _ _ (showInformationMessage_choice _) =>
          unfold showInformationMessage_choice
      | |- preserves _ _ (fs_existsSync _) => apply emits_existsSync; reflexivity
      | |- preserves _ _ (fs_readFileSync _) => apply emits_readFileSync; reflexivity
      | |- preserves _ _ (fs_mkdirSync _) => apply emits_mkdirSync; reflexivity
      | |- preserves _ _ (fs_chmodSync _ _) => apply emits_chmodSync; reflexivity
      | |- preserves _ _ (downloadFile _ _ _) =>
          apply emits_downloadFile; intros; reflexivity
      | |- preserves _ _ (if ?b then _ else _) => destruct b
      | |- preserves _ _ (match ?x with _ => _ end) => destruct x
      end ].

(** Resolution, the version query and the staleness check write no file
    with [writeFileSync]. *)
Lemma quiet_ensureAnemosBinary fuel context :
  preserves (only not_write) env (ensureAnemosBinary fuel context).
Proof.
  unfold ensureAnemosBinary, downloadAnemosBinary, showInformationMessage,
    showErrorMessage.
  quiet.
Qed.



End NoWrite.


Section Record.
Context `{Host}.

(** The regeneration, case by case. *)
Lemma regenerate_eq fuel context currentVersion env s :
  regenerate fuel context currentVersion env s =
    match ensureAnemosBinary fuel context env (generation_started typesDir s) with
    | (Returned p, s1) =>
        let cmd := declarations_cmd p typesDir in
        let f := write_all (exec_writes env cmd) (fs s1) in
        match exec_result env cmd with
        | inr _ =>
            let s2 := {| fs := f;
                         trace := trace s1 ++
                           [EExec cmd; ELog "Successfully generated type definitions.";
                            EFs OpWrite versionFilePath] |} in
            match fs_fault env OpWrite versionFilePath with
            | Some err => (Thrown err, s2)
            | None =>
                match f !! versionFilePath with
                | Some Dir =>
                    (Thrown (Error ("EISDIR: illegal operation on a directory, open "
                                    +:+ versionFilePath)), s2)
                | _ =>
                    (Returned tt,
                     {| fs := <[versionFilePath :=
                                  File (JSON_stringify
                                          (version_record currentVersion (now env)))]> f;
                        trace := trace s2 ++
                          [ELog ("Updated version file to " +:+ currentVersion);
                           ECommand "typescript.restartTsServer"] |})
                end
            end
        | inl e =>
            (Thrown e,
             {| fs := f;
                trace := trace s1 ++
                  [EExec cmd;
                   ELog ("Error generating type definitions: " +:+ error_to_string e)] |})
        end
    | (Thrown e, s1) =>
        (Thrown e,
         {| fs := fs s1;
            trace := trace s1 ++
              [ELog ("Error generating type definitions: " +:+ error_to_string e)] |})
    | (Diverged, s1) => (Diverged, s1)
    end.
Proof.
  pose proof (generate_runs fuel context env s typesDir) as Hgen.
  destruct (ensureAnemosBinary fuel context env (generation_started typesDir s))
    as [[p|e|] s1]; cbv zeta in *.
  - destruct (exec_result env (declarations_cmd p typesDir)) as [e|out].
    + unfold regenerate. by rewrite bind_unfold, Hgen.
    + rewrite (regenerate_after_generation fuel context currentVersion env s _ Hgen).
      cbv zeta. cbn [fs trace].
      destruct (fs_fault env OpWrite versionFilePath) as [err|];
        [by rewrite <- !app_assoc|].
      destruct (write_all _ (fs s1) !! versionFilePath) as [[c|]|];
        by rewrite <- !app_assoc.
  - unfold regenerate. by rewrite bind_unfold, Hgen.
  - unfold regenerate. by rewrite bind_unfold, Hgen.
Qed.


(** The pass after a version query that returned and a check that calls
    for the regeneration. *)
Lemma pass_regenerates fuel context env s currentVersion s0 s1 :
  getAnemosToolVersion fuel context env s = (Returned currentVersion, s0) ->
  checkNeedsUpdate currentVersion env s0 = (Returned true, s1) ->
  ensureTypesAreUpToDate fuel context env s =
    match regenerate fuel context currentVersion env s1 with
    | (Thrown e, s2) =>
        (Returned tt,
         {| fs := fs s2;
            trace := trace s2 ++
              [ELog ("Error ensuring types are up to date: " +:+ error_to_string e)] |})
    | r => r
    end.
Proof.
  intros Hquery Hcheck. unfold ensureTypesAreUpToDate, try_catch, ensureTypesAreUpToDate_try.
  rewrite bind_unfold, Hquery. unfold regenerateIfStale. rewrite bind_unfold, Hcheck.
  by destruct (regenerate fuel context currentVersion env s1) as [[[]|e|] s2].
Qed.



End Record.

Section Staleness.
Context `{Host}.

(** The regeneration starts with the log line of the generation; and when
    the resolution that follows returns a location, the declarations
    command is launched with it, and what the command writes is on the file
    system afterwards, under the record if that is written. *)
Lemma regenerate_trace fuel context currentVersion env s :
  let s' := snd (regenerate fuel context currentVersion env s) in
  (exists rest, events_since s s' (generation_log typesDir :: rest)) /\
  (forall p s1,
     ensureAnemosBinary fuel context env (generation_started typesDir s) =
       (Returned p, s1) ->
     let cmd := declarations_cmd p typesDir in
     (exists rest, events_since s1 s' (EExec cmd :: rest)) /\
     (fs s' = write_all (exec_writes env cmd) (fs s1) \/
      fs s' = <[versionFilePath :=
                  File (JSON_stringify (version_record currentVersion (now env)))]>
                (write_all (exec_writes env cmd) (fs s1)))).
Proof.
  cbv zeta. unfold events_since.
  destruct (quiet_ensureAnemosBinary env fuel context (generation_started typesDir s))
    as (l & Hl & _).
  cbn [generation_started trace] in Hl.
  destruct (ensureAnemosBinary fuel context env (generation_started typesDir s))
    as [[p|e|] s1] eqn:Hensure; cbn [snd] in Hl.
  - destruct (exec_result env (declarations_cmd p typesDir)) as [e|out] eqn:Hcmd.
    + assert (Hrun : regenerate fuel context currentVersion env s =
                (Thrown e,
                 {| fs := write_all (exec_writes env (declarations_cmd p typesDir)) (fs s1);
                    trace := trace s1 ++
                      [EExec (declarations_cmd p typesDir);
                       ELog ("Error generating type definitions: "
                             +:+ error_to_string e)] |})).
      { unfold regenerate. rewrite bind_unfold, generate_runs, Hensure. cbv zeta.
        by rewrite Hcmd. }
      rewrite Hrun. cbn [snd fs trace]. split.
      * eexists. rewrite Hl, <- !app_assoc. reflexivity.
      * intros p' s1' [= <- <-]. split; [by eexists | by left].
    + pose proof (generate_runs fuel context env s typesDir) as Hgen.
      rewrite Hensure in Hgen. cbv zeta in Hgen. rewrite Hcmd in Hgen.
      rewrite (regenerate_after_generation fuel context currentVersion env s _ Hgen).
      cbv zeta. cbn [fs trace].
      destruct (fs_fault env OpWrite versionFilePath) as [err|]; cbn [snd fs trace].
      * split; [eexists; rewrite Hl, <- !app_assoc; reflexivity|].
        intros p' s1' [= <- <-]. split; [| by left].
        eexists. rewrite <- !app_assoc. reflexivity.
      * destruct (write_all (exec_writes env (declarations_cmd p typesDir)) (fs s1)
                  !! versionFilePath) as [[c|]|]; cbn [snd fs trace];
          (split; [eexists; rewrite Hl, <- !app_assoc; reflexivity|]);
          intros p' s1' [= <- <-];
          (split; [eexists; rewrite <- !app_assoc; reflexivity|]);
          first [by right | by left].
  - assert (Hrun : regenerate fuel context currentVersion env s =
              (Thrown e,
               {| fs := fs s1;
                  trace := trace s1 ++
                    [ELog ("Error generating type definitions: "
                           +:+ error_to_string e)] |})).
    { unfold regenerate. by rewrite bind_unfold, generate_runs, Hensure. }
    rewrite Hrun. cbn [snd trace]. split; [| discriminate].
    eexists. rewrite Hl, <- !app_assoc. reflexivity.
  - assert (Hrun : regenerate fuel context currentVersion env s = (Diverged, s1)).
    { unfold regenerate. by rewrite bind_unfold, generate_runs, Hensure. }
    rewrite Hrun. cbn [snd]. split; [| discriminate].
    eexists. rewrite Hl, <- !app_assoc. reflexivity.
Qed.

(** Find an event among the alternatives of a membership. *)
Ltac find_event := first [reflexivity | left; find_event | right; find_event].

(** A pass in which the tool, in reach, reports 0.0.0 launches the
    declarations command, whatever the version file holds. *)
Lemma dev_version_launches_declarations fuel context env s p out :
  located context env s = Some p ->
  exec_result env (version_cmd p) = inr out ->
  trim out = "0.0.0" ->
  In (EExec (declarations_cmd p typesDir))
     (trace (snd (ensureTypesAreUpToDate fuel context env s))).
Proof.
  intros Hloc Hversion Hzero.
  pose proof (version_query_ok fuel context env s p out Hloc Hversion) as Hquery.
  rewrite Hzero in Hquery.
  match type of Hquery with _ = (_, ?st) => set (s0 := st) in * end.
  destruct (check_returns "0.0.0" env s0) as (b & s1 & Hcheck & Hfs & Hb).
  rewrite (Hb eq_refl) in Hcheck.
  assert (Hloc1 : located context env (generation_started typesDir s1) = Some p).
  { rewrite <- Hloc. apply located_same_cache. cbn [generation_started fs]. by rewrite Hfs. }
  rewrite (pass_regenerates fuel context env s "0.0.0" s0 s1 Hquery Hcheck).
  rewrite regenerate_eq, (resolve_located fuel context env _ p Hloc1). cbv zeta.
  destruct (exec_result env (declarations_cmd p typesDir)) as [e|out'];
    [| destruct (fs_fault env OpWrite versionFilePath) as [err|];
       [| destruct (write_all _ _ !! versionFilePath) as [[c|]|]]];
    cbn [snd trace]; rewrite ?in_app_iff; cbn [In];
    find_event.
Qed.

(** C2: with a version file holding a record whose [version] is the
    string [stored], the staleness decision is
    [stored <> currentVersion || currentVersion = "0.0.0"]; without a
    version file it is true.  So a record equal to the queried version,
    as 1.2.0 against 1.2.0, ends the pass with no regeneration: the only host
    calls are the existence test, the read and a log line.  And with 0.0.0
    queried the regeneration takes place, whatever is stored: after the
    check comes the log line of the generation, and when the resolution
    that follows returns a location, the declarations command is launched
    with it and what it writes is on the file system afterwards.  So a
    pass in which the tool in reach reports 0.0.0 launches the declarations
    command, whatever the version file holds. *)
Theorem staleness_decision fuel context currentVersion env s :
  (fs s !! versionFilePath = None ->
   exists s1, checkNeedsUpdate currentVersion env s = (Returned true, s1)) /\
  (forall text fields stored,
     fs s !! versionFilePath = Some (File text) ->
     fs_fault env OpRead versionFilePath = None ->
     JSON_parse text = inr (JObject fields) ->
     assoc_lookup "version" fields = Some (JString stored) ->
     (exists s1,
        checkNeedsUpdate currentVersion env s =
          (Returned (negb (String.eqb stored currentVersion)
                     || String.eqb currentVersion "0.0.0"), s1)) /\
     (stored = currentVersion ->
      String.eqb currentVersion "0.0.0" = false ->
      regenerateIfStale fuel context currentVersion env s =
        (Returned tt,
         {| fs := fs s;
            trace := trace s ++
              [EFs OpExists versionFilePath; EFs OpRead versionFilePath;
               ELog ("Types are up to date (version " +:+ currentVersion +:+ ")")] |}))) /\
  (String.eqb currentVersion "0.0.0" = true ->
   exists s1,
     checkNeedsUpdate currentVersion env s = (Returned true, s1) /\
     fs s1 = fs s /\
     regenerateIfStale fuel context currentVersion env s =
       regenerate fuel context currentVersion env s1 /\
     let s' := snd (regenerateIfStale fuel context currentVersion env s) in
     (exists rest, events_since s1 s' (generation_log typesDir :: rest)) /\
     (forall p s2,
        ensureAnemosBinary fuel context env (generation_started typesDir s1) =
          (Returned p, s2) ->
        let cmd := declarations_cmd p typesDir in
        (exists rest, events_since s2 s' (EExec cmd :: rest)) /\
        (fs s' = write_all (exec_writes env cmd) (fs s2) \/
         fs s' = <[versionFilePath :=
                     File (JSON_stringify (version_record currentVersion (now env)))]>
                   (write_all (exec_writes env cmd) (fs s2))))) /\
  (forall p out,
     located context env s = Some p ->
     exec_result env (version_cmd p) = inr out ->
     trim out = "0.0.0" ->
     In (EExec (declarations_cmd p typesDir))
        (trace (snd (ensureTypesAreUpToDate fuel context env s)))).
Proof.
  split; [| split; [| split; [| apply dev_version_launches_declarations]]].
  - intros Hv. eexists. by apply check_missing.
  - intros text fields stored Hv Hread Hparse Hfield.
    pose proof (check_record currentVersion env s text fields stored
                  Hv Hread Hparse Hfield) as Hcheck.
    cbv zeta in Hcheck. split; [by eexists|].
    intros -> Hzero. unfold regenerateIfStale. rewrite bind_unfold, Hcheck.
    by rewrite String.eqb_refl, Hzero.
  - intros Hzero.
    destruct (check_returns currentVersion env s) as (b & s1 & Hcheck & Hfs & Hb).
    rewrite (Hb Hzero) in Hcheck. exists s1.
    assert (Hrun : regenerateIfStale fuel context currentVersion env s =
                   regenerate fuel context currentVersion env s1).
    { unfold regenerateIfStale. by rewrite bind_unfold, Hcheck. }
    split; [exact Hcheck | split; [exact Hfs | split; [exact Hrun|]]].
    rewrite Hrun. apply regenerate_trace.
Qed.

End Staleness.

(** * Worked instances *)

(** ** Small evaluations *)

Example trim_version_output :
  trim ("  1.2.0 " +:+ String (ascii_of_nat 10) EmptyString) = "1.2.0".
Proof. reflexivity. Qed.

Example trim_keeps_inner_space : trim " a b " = "a b".
Proof. reflexivity. Qed.

(** A no-break space (U+00A0) before and a line separator (U+2028) and a
    byte order mark (U+FEFF) after are stripped as well. *)
Example trim_unicode_space :
  trim (utf8 [194; 160] +:+ "0.0.0" +:+ utf8 [226; 128; 168; 239; 187; 191]) = "0.0.0".
Proof. reflexivity. Qed.

(** A zero-width space (U+200B) is no white space. *)
Example trim_keeps_zero_width_space :
  trim ("1.2.0" +:+ utf8 [226; 128; 139]) = "1.2.0" +:+ utf8 [226; 128; 139].
Proof. reflexivity. Qed.

Example release_url_linux_x64 :
  getGithubReleaseUrl env_redirects =
    "https://github.com/ohayocorp/anemos/releases/latest/download/anemos-linux-amd64".
Proof. reflexivity. Qed.

Example release_url_darwin_ia32 :
  getGithubReleaseUrl env_darwin_ia32 =
    "https://github.com/ohayocorp/anemos/releases/latest/download/anemos-darwin-amd64".
Proof. reflexivity. Qed.

Example version_of_null : get_property JNull "version" =
  inl (TypeError "Cannot read properties of null (reading 'version')").
Proof. reflexivity. Qed.

Example number_is_not_the_version :
  strict_ne_string (Some (JNumber "1")) "1" = true.
Proof. reflexivity. Qed.

Example resolve_from_search_path :
  ensureAnemosBinary (H := sample_host) 1 sample_context env_tool_1_2_0 empty_state =
    (Returned "anemos", {| fs := ∅; trace := [EExec "anemos --help"] |}).
Proof. reflexivity. Qed.

(** ** The release URL on a 32-bit macOS host *)

Lemma release_url_shape_witness :
  String.eqb (os_arch env_darwin_ia32) "arm64" = false /\
  occurrences "amd64" (getGithubReleaseUrl env_darwin_ia32) = 1.
Proof.
  split; [reflexivity|].
  destruct (release_url_shape env_darwin_ia32) as (_ & _ & Harch & _).
  apply Harch. reflexivity.
Defined.

(** ** The user answers No *)

Lemma declined_consent_creates_nothing_witness :
  answers_yes env_user_declines = false /\
  ensureAnemosBinary (H := sample_host) 1 sample_context env_user_declines empty_state =
    (Thrown declined,
     {| fs := ∅;
        trace := [EExec "anemos --help"; EFs OpExists "/store/anemos";
                  EPrompt consent_message;
                  EErrorMsg "Failed to download Anemos: User did not consent to download Anemos binary."] |}).
Proof.
  split; [reflexivity|].
  apply (declined_consent_creates_nothing (H := sample_host) 1 sample_context
           env_user_declines empty_state (Error "Command failed"));
    reflexivity.
Defined.

(** ** Two redirects, then the binary *)

Lemma redirects_followed_witness :
  redirect_chain env_redirects "https://example.org/a"
    ["https://example.org/b"; "https://example.org/c"] (page 200 "binary") /\
  downloadFile 3 (Some "https://example.org/a") "/store/anemos" env_redirects empty_state =
    (Returned tt,
     {| fs := <["/store/anemos" := File "binary"]> ∅;
        trace := [EHttpGet "https://example.org/a"; EHttpGet "https://example.org/b";
                  EHttpGet "https://example.org/c"; EFs OpOpen "/store/anemos"] |}).
Proof.
  assert (Hchain : redirect_chain env_redirects "https://example.org/a"
            ["https://example.org/b"; "https://example.org/c"] (page 200 "binary")).
  { eapply chain_hop; [reflexivity | reflexivity | reflexivity |].
    eapply chain_hop; [reflexivity | reflexivity | reflexivity |].
    apply chain_end; reflexivity. }
  split; [exact Hchain|].
  apply (redirects_followed "/store/anemos" env_redirects _ _ _ Hchain);
    [reflexivity | reflexivity | reflexivity | cbn; lia | vm_compute; discriminate].
Defined.

(** ** A stream that breaks *)

(** C4: the response breaks after three characters and the host refuses
    the unlink: [downloadFile] throws the stream error and the three
    characters stay at [destPath]. *)
Lemma failed_download_may_leave_file :
  let run := downloadFile 1 (Some "https://example.org/a") "/store/anemos"
               (env_stream_breaks unlink_refused) empty_state in
  fst run = Thrown (Error "read ECONNRESET") /\
  trace (snd run) = [EHttpGet "https://example.org/a"; EFs OpOpen "/store/anemos";
                     EFs OpExists "/store/anemos"; EFs OpUnlink "/store/anemos"] /\
  fs (snd run) !! "/store/anemos" = Some (File "bin").
Proof. vm_compute. repeat split. Qed.

(** The file left behind is what the next cache probe returns. *)
Example partial_file_is_trusted :
  let first := ensureAnemosBinary (H := sample_host) 1 sample_context
                 (env_release_breaks unlink_refused) empty_state in
  fst first = Thrown (Error "read ECONNRESET") /\
  fs (snd first) !! "/store/anemos" = Some (File "bin") /\
  fst (ensureAnemosBinary (H := sample_host) 1 sample_context
         (env_release_breaks unlink_refused) (snd first)) = Returned "/store/anemos".
Proof. vm_compute. repeat split. Qed.

(** The response breaks after three characters, before the host has
    opened the file of the write stream: the cleanup finds no file, the
    error is thrown, and the file appears afterwards with the three
    characters, although the unlink is not refused. *)
Example early_error_leaves_file :
  let env := with_late_open (env_stream_breaks no_fault) in
  let run := downloadFile 1 (Some "https://example.org/a") "/store/anemos" env empty_state in
  fst run = Thrown (Error "read ECONNRESET") /\
  trace (snd run) = [EHttpGet "https://example.org/a"; EFs OpOpen "/store/anemos";
                     EFs OpExists "/store/anemos"] /\
  fs (snd run) !! "/store/anemos" = None /\
  settle env (fs (snd run)) !! "/store/anemos" = Some (File "bin").
Proof. vm_compute. repeat split. Qed.

(** The file that appears afterwards is what the next cache probe
    returns. *)
Example late_file_is_trusted :
  let env := with_late_open (env_release_breaks no_fault) in
  let first := ensureAnemosBinary (H := sample_host) 1 sample_context env empty_state in
  let later := {| fs := settle env (fs (snd first)); trace := trace (snd first) |} in
  fst first = Thrown (Error "read ECONNRESET") /\
  fs later !! "/store/anemos" = Some (File "bin") /\
  fst (ensureAnemosBinary (H := sample_host) 1 sample_context env later) =
    Returned "/store/anemos".
Proof. vm_compute. repeat split. Qed.

Lemma failed_download_cleanup_witness :
  exists s',
    downloadFile 1 (Some "https://example.org/a") "/store/anemos"
      (env_stream_breaks no_fault) empty_state =
      (Thrown (Error "read ECONNRESET"), s') /\
    forall c, settle (env_stream_breaks no_fault) (fs s') !! "/store/anemos"
              <> Some (File c).
Proof.
  destruct (failed_download_cleanup "/store/anemos" 0 (Some "https://example.org/a")
              (env_stream_breaks no_fault) empty_state (Error "read ECONNRESET")
              (snd (downloadFile_try (downloadFile 0) (Some "https://example.org/a")
                      "/store/anemos" (env_stream_breaks no_fault) empty_state)))
    as (s' & Hrun & _ & Hfile & _); [vm_compute; reflexivity|].
  exists s'. split; [exact Hrun|]. intros c.
  apply Hfile; [reflexivity | vm_compute; tauto].
Defined.

(** ** A 204 *)

(** C10: a 204 arrives while a file is at [destPath] and the host refuses
    the unlink: [downloadFile] throws, nothing is written, and the file
    that was there is still there. *)
Lemma old_file_may_remain :
  let run := downloadFile 1 (Some "https://example.org/a") "/store/anemos"
               (env_no_content unlink_refused) (state_with [("/store/anemos", "old")]) in
  fst run = Thrown (Error "Failed to download: 204") /\
  trace (snd run) = [EHttpGet "https://example.org/a"; EFs OpExists "/store/anemos";
                     EFs OpUnlink "/store/anemos"] /\
  fs (snd run) !! "/store/anemos" = Some (File "old").
Proof. vm_compute. repeat split. Qed.

Lemma only_status_200_is_written_witness :
  redirect_walk (env_redirect_then_no_content no_fault) "https://example.org/a"
    ["https://example.org/b"] (page 204 EmptyString) /\
  exists s',
    downloadFile 2 (Some "https://example.org/a") "/store/anemos"
      (env_redirect_then_no_content no_fault) empty_state =
      (Thrown (Error "Failed to download: 204"), s') /\
    trace s' = [EHttpGet "https://example.org/a"; EHttpGet "https://example.org/b";
                EFs OpExists "/store/anemos"; EFs OpExists "/store/anemos"] /\
    forall c, fs s' !! "/store/anemos" <> Some (File c).
Proof.
  assert (Hwalk : redirect_walk (env_redirect_then_no_content no_fault)
            "https://example.org/a" ["https://example.org/b"] (page 204 EmptyString)).
  { eapply walk_hop; [reflexivity | reflexivity | reflexivity |].
    apply walk_end; reflexivity. }
  split; [exact Hwalk|].
  destruct (only_status_200_is_written "/store/anemos"
              (env_redirect_then_no_content no_fault) _ _ _ Hwalk
              ltac:(vm_compute; discriminate) 2 empty_state ltac:(cbn; lia))
    as (s' & cleanup & Hrun & _ & _ & _ & Hfile).
  exists s'. split; [exact Hrun | split].
  - vm_compute in Hrun. by injection Hrun as <-.
  - apply Hfile. left. reflexivity.
Defined.

(** ** The tool reports 1.2.0 and the record says 1.2.0 *)

Lemma staleness_decision_witness :
  regenerateIfStale (H := sample_host) 1 sample_context "1.2.0"
    env_tool_1_2_0 state_record_1_2_0 =
    (Returned tt,
     {| fs := fs state_record_1_2_0;
        trace := [EFs OpExists sample_version_file; EFs OpRead sample_version_file;
                  ELog "Types are up to date (version 1.2.0)"] |}).
Proof.
  destruct (staleness_decision (H := sample_host) 1 sample_context "1.2.0"
              env_tool_1_2_0 state_record_1_2_0) as (_ & Hrecord & _).
  destruct (Hrecord (json_print (version_record "1.2.0" "2025-01-01T00:00:00.000Z"))
              [("version", JString "1.2.0");
               ("generated", JString "2025-01-01T00:00:00.000Z")]
              "1.2.0") as [_ Hfresh]; [reflexivity ..|].
  apply Hfresh; reflexivity.
Defined.

(** ** The version query fails, the declarations work *)

(** C1: [--version] fails, [declarations] succeeds, no record is there:
    the pass regenerates and writes a record whose version is unknown. *)
Lemma unknown_version_is_recorded :
  let run := ensureTypesAreUpToDate (H := sample_host) 1 sample_context
               env_version_query_fails empty_state in
  exec_result env_version_query_fails sample_version_cmd =
    inl (Error "Command failed: anemos --version") /\
  fst run = Returned tt /\
  trace (snd run) =
    [EExec "anemos --help"; EExec sample_version_cmd;
     ELog "Error getting anemos version: Error: Command failed: anemos --version";
     EFs OpExists sample_version_file;
     ELog "No version file found, will generate types.";
     ELog "Generating Anemos type definitions in /ext/node_modules/anemos-typescript-plugin/.anemos-types";
     EExec "anemos --help"; EExec sample_declarations_cmd;
     ELog "Successfully generated type definitions.";
     EFs OpWrite sample_version_file;
     ELog "Updated version file to unknown";
     ECommand "typescript.restartTsServer"] /\
  fs (snd run) !! sample_version_file =
    Some (File (json_print (version_record "unknown" "2025-06-01T12:00:00.000Z"))).
Proof. vm_compute. repeat split. Qed.

Lemma failed_version_query_yields_unknown_witness :
  fst (getAnemosToolVersion_try (H := sample_host) 1 sample_context
         env_version_query_fails empty_state)
    = Thrown (Error "Command failed: anemos --version") /\
  exists s5,
    ensureTypesAreUpToDate (H := sample_host) 1 sample_context
      env_version_query_fails empty_state = (Returned tt, s5) /\
    fs s5 !! versionFilePath (H := sample_host) =
      Some (File (json_print (version_record "unknown" "2025-06-01T12:00:00.000Z"))).
Proof.
  split; [reflexivity|].
  pose (s1 := snd (getAnemosToolVersion_try (H := sample_host) 1 sample_context
                     env_version_query_fails empty_state)).
  destruct (failed_version_query_yields_unknown (H := sample_host) 1 sample_context
              env_version_query_fails empty_state
              (Error "Command failed: anemos --version") s1)
    as (Hquery & _ & Hrecord); [vm_compute; reflexivity|].
  pose (s2 := snd (getAnemosToolVersion (H := sample_host) 1 sample_context
                     env_version_query_fails empty_state)).
  pose (s3 := snd (checkNeedsUpdate (H := sample_host) "unknown"
                     env_version_query_fails s2)).
  pose (s4 := snd (generateAnemosTypes (H := sample_host) 1 sample_context
                     (typesDir (H := sample_host)) env_version_query_fails s3)).
  apply (Hrecord s3 s4);
    [vm_compute; reflexivity | vm_compute; reflexivity | reflexivity
    | vm_compute; discriminate].
Defined.

(** ** A pass with the tool at 1.2.0 and no record *)


(** The declarations command fails: its error ends the regeneration and
    the pass writes no record. *)
Example failed_declarations_write_no_record :
  let run := ensureTypesAreUpToDate (H := sample_host) 1 sample_context
               env_declarations_fail state_record_0_0_0 in
  fst run = Returned tt /\
  ~ In (EFs OpWrite sample_version_file) (trace (snd run)) /\
  fs (snd run) !! sample_version_file = fs state_record_0_0_0 !! sample_version_file.
Proof.
  vm_compute. repeat split. intros Hin.
  repeat (destruct Hin as [Hin | Hin]; [discriminate Hin|]). exact Hin.
Qed.

(** ** The tool reports 0.0.0 and the record says 0.0.0 *)

Example dev_version_regenerates :
  let run := ensureTypesAreUpToDate (H := host_knowing
                 [version_record "0.0.0" "2025-01-01T00:00:00.000Z"])
               1 sample_context env_tool_0_0_0 state_record_0_0_0 in
  trace (snd run) =
    [EExec "anemos --help"; EExec sample_version_cmd;
     ELog "Detected anemos tool version: 0.0.0";
     EFs OpExists sample_version_file; EFs OpRead sample_version_file;
     ELog "Types need update: current version 0.0.0, stored version 0.0.0";
     ELog "Generating Anemos type definitions in /ext/node_modules/anemos-typescript-plugin/.anemos-types";
     EExec "anemos --help"; EExec sample_declarations_cmd;
     ELog "Successfully generated type definitions.";
     EFs OpWrite sample_version_file;
     ELog "Updated version file to 0.0.0";
     ECommand "typescript.restartTsServer"] /\
  fs (snd run) !! (sample_types_dir +:+ "/index.d.ts") =
    Some (File "declare module 'anemos';").
Proof. vm_compute. repeat split. Qed.

(** ** A pass without network *)

Lemma synchronizer_swallows_errors_witness :
  redirects_within env_offline 1 (Some (getGithubReleaseUrl env_offline)) = true /\
  fst (ensureTypesAreUpToDate (H := sample_host) 1 sample_context
         env_offline empty_state) = Returned tt.
Proof.
  split; [reflexivity|].
  apply (synchronizer_swallows_errors (H := sample_host) 1 sample_context
           env_offline empty_state). reflexivity.
Defined.

(** * Worked instances of the further properties *)

Example standalone_pass_may_ask_twice :
  prompts (trace (snd (ensureTypesAreUpToDate (H := sample_host) 1 sample_context
                         env_offline empty_state))) = 2.
Proof. reflexivity. Qed.

Lemma acquisition_succeeds_witness :
  exists s',
    ensureAnemosBinary (H := sample_host) 2 deep_context env_release_available empty_state =
      (Returned "/home/dev/store/anemos", s') /\
    fs s' !! "/home/dev/store/anemos" = Some (File "binary") /\
    fs s' !! "/home/dev/store" = Some Dir /\
    fs s' !! "/home/dev" = Some Dir /\
    fs s' !! "/home" = Some Dir.
Proof.
  eexists. split; [| repeat split].
  - apply (acquisition_succeeds (H := sample_host) 2 deep_context env_release_available
             empty_state (Error "Command failed")
             ["https://objects.example.org/anemos"] (page 200 "binary")).
    + reflexivity.
    + reflexivity.
    + reflexivity.
    + intros c. discriminate.
    + discriminate.
    + intros _ d Hin. split; [| intros c; discriminate].
      vm_compute in Hin. destruct Hin as [<- | [<- | []]]; discriminate.
    + eapply chain_hop; [reflexivity | reflexivity | reflexivity |].
      apply chain_end; reflexivity.
    + reflexivity.
    + reflexivity.
    + cbn. lia.
  - reflexivity.
  - reflexivity.
  - reflexivity.
  - reflexivity.
Defined.

Lemma resolution_is_stable_witness :
  let s1 := snd (ensureAnemosBinary (H := sample_host) 2 sample_context
                   env_release_available empty_state) in
  ensureAnemosBinary (H := sample_host) 0 sample_context env_release_available s1 =
    (Returned "/store/anemos",
     {| fs := fs s1;
        trace := trace s1 ++ [EExec "anemos --help"; EFs OpExists "/store/anemos"] |}).
Proof.
  cbv zeta.
  apply (resolution_is_stable (H := sample_host) 2 0 sample_context env_release_available
           empty_state "/store/anemos"
           (snd (ensureAnemosBinary (H := sample_host) 2 sample_context
                   env_release_available empty_state))
           (snd (ensureAnemosBinary (H := sample_host) 2 sample_context
                   env_release_available empty_state)));
    [vm_compute|]; reflexivity.
Defined.

Lemma resolution_asks_at_most_once_witness :
  prompts (trace (snd (ensureAnemosBinary (H := sample_host) 1 sample_context
                         env_tool_1_2_0 empty_state))) = 0.
Proof.
  destruct (resolution_asks_at_most_once (H := sample_host) 1 sample_context
              env_tool_1_2_0 empty_state) as [_ Hnone].
  apply (Hnone "anemos"). reflexivity.
Defined.

Lemma returned_download_has_body_witness :
  exists hops final,
    redirect_chain env_redirects "https://example.org/a" hops final /\
    fs (snd (downloadFile 3 (Some "https://example.org/a") "/store/anemos"
               env_redirects empty_state)) =
      <["/store/anemos" := File (body final)]> (fs empty_state).
Proof.
  destruct (returned_download_has_body "/store/anemos" env_redirects 3
              (Some "https://example.org/a") empty_state
              (snd (downloadFile 3 (Some "https://example.org/a") "/store/anemos"
                      env_redirects empty_state)))
    as (url0 & hops & final & Hurl & Hchain & _ & _ & Hstate); [vm_compute; reflexivity|].
  injection Hurl as <-. exists hops, final. split; [exact Hchain|].
  by rewrite Hstate.
Defined.

Lemma download_touches_only_dest_witness :
  fs (snd (downloadFile 1 (Some "https://example.org/a") "/store/anemos"
             (env_stream_breaks no_fault)
             (state_with [("/store/other", "kept")]))) !! "/store/other" =
  Some (File "kept").
Proof.
  rewrite (download_touches_only_dest "/store/anemos" 1 (Some "https://example.org/a")
             (env_stream_breaks no_fault) (state_with [("/store/other", "kept")])
             "/store/other"); [reflexivity | discriminate].
Defined.

Lemma redirect_cycle_never_ends_witness :
  fst (downloadFile 50 (Some "https://example.org/a") "/store/anemos"
         env_redirect_cycle empty_state) = Diverged.
Proof.
  rewrite (redirect_cycle_never_ends "/store/anemos" env_redirect_cycle
             "https://example.org/a" (redirect_to 301 "https://example.org/a"));
    reflexivity.
Defined.

Lemma failed_open_deletes_file_witness :
  writeResponseToFile (page 200 "binary") "/store/anemos" env_open_refused
    (state_with [("/store/anemos", "old")]) =
    (Thrown (Error "EACCES: permission denied, open"),
     {| fs := delete "/store/anemos" (fs (state_with [("/store/anemos", "old")]));
        trace := [EFs OpOpen "/store/anemos"; EFs OpUnlink "/store/anemos"] |}).
Proof.
  apply (failed_open_deletes_file "/store/anemos" env_open_refused (page 200 "binary")
           (state_with [("/store/anemos", "old")]) "old"); reflexivity.
Defined.

Lemma first_pass_writes_record_witness :
  let s' := snd (ensureTypesAreUpToDate (H := sample_host) 1 sample_context
                   env_tool_1_2_0 empty_state) in
  fs s' !! sample_version_file =
    Some (File (json_print (version_record "1.2.0" "2025-06-01T12:00:00.000Z"))) /\
  fs s' !! (sample_types_dir +:+ "/index.d.ts") = Some (File "declare module 'anemos';").
Proof.
  cbv zeta.
  rewrite (first_pass_writes_record (H := sample_host) 1 sample_context env_tool_1_2_0
             empty_state "anemos" "1.2.0" EmptyString);
    [split; reflexivity | reflexivity | reflexivity | reflexivity | reflexivity
    | vm_compute; intros [Heq | [Heq | []]]; discriminate Heq | reflexivity].
Defined.

Lemma stale_record_is_replaced_witness :
  exists s',
    ensureTypesAreUpToDate (H := sample_host) 1 sample_context
      env_tool_2_0_0 state_record_1_2_0 = (Returned tt, s') /\
    fs s' !! sample_version_file =
      Some (File (json_print (version_record "2.0.0" "2025-06-01T12:00:00.000Z"))) /\
    fs s' !! (sample_types_dir +:+ "/index.d.ts") = Some (File "declare module 'anemos';").
Proof.
  destruct (stale_record_is_replaced (H := sample_host) 1 sample_context env_tool_2_0_0
              state_record_1_2_0 "anemos" "2.0.0" EmptyString
              (json_print (version_record "1.2.0" "2025-01-01T00:00:00.000Z"))
              [("version", JString "1.2.0");
               ("generated", JString "2025-01-01T00:00:00.000Z")] "1.2.0")
    as (s' & Hrun & Hfs & _);
    [reflexivity | reflexivity | reflexivity | reflexivity | reflexivity | reflexivity
    | reflexivity | reflexivity
    | vm_compute; intros [Heq | [Heq | []]]; discriminate Heq | reflexivity |].
  exists s'. split; [exact Hrun|]. rewrite Hfs. split; reflexivity.
Defined.

Lemma matching_record_ends_pass_witness :
  ensureTypesAreUpToDate (H := sample_host) 1 sample_context
    env_tool_1_2_0 state_record_1_2_0 =
    (Returned tt,
     {| fs := fs state_record_1_2_0;
        trace := [EExec "anemos --help"; EExec sample_version_cmd;
                  ELog "Detected anemos tool version: 1.2.0";
                  EFs OpExists sample_version_file; EFs OpRead sample_version_file;
                  ELog "Types are up to date (version 1.2.0)"] |}).
Proof.
  apply (matching_record_ends_pass (H := sample_host) 1 sample_context env_tool_1_2_0
           state_record_1_2_0 "anemos" "1.2.0" "2025-01-01T00:00:00.000Z"); reflexivity.
Defined.

Lemma malformed_record_is_stale_witness :
  exists s1,
    checkNeedsUpdate (H := host_knowing [JNull]) "1.2.0" env_tool_1_2_0 state_record_null =
      (Returned true, s1) /\
    fs s1 = fs state_record_null.
Proof.
  apply (malformed_record_is_stale (H := host_knowing [JNull]) "1.2.0" env_tool_1_2_0
           state_record_null "null" JNull); try reflexivity.
  intros stored. discriminate.
Defined.

Lemma unknown_record_blocks_regeneration_witness :
  exists s',
    ensureTypesAreUpToDate
      (H := host_knowing [version_record "unknown" "2025-01-01T00:00:00.000Z"])
      1 sample_context env_version_query_fails state_record_unknown = (Returned tt, s') /\
    fs s' = fs state_record_unknown.
Proof.
  eexists. split.
  - apply (unknown_record_blocks_regeneration
             (H := host_knowing [version_record "unknown" "2025-01-01T00:00:00.000Z"])
             1 sample_context env_version_query_fails state_record_unknown
             (Error "Command failed: anemos --version")
             (snd (getAnemosToolVersion_try
                     (H := host_knowing [version_record "unknown" "2025-01-01T00:00:00.000Z"])
                     1 sample_context env_version_query_fails state_record_unknown))
             (json_print (version_record "unknown" "2025-01-01T00:00:00.000Z"))
             [("version", JString "unknown");
              ("generated", JString "2025-01-01T00:00:00.000Z")]);
      [vm_compute; reflexivity | reflexivity ..].
  - reflexivity.
Defined.

Lemma pass_leaves_other_paths_witness :
  fs (snd (ensureTypesAreUpToDate (H := sample_host) 1 deep_context env_tool_1_2_0
             (state_with [("/home/dev/notes.txt", "kept")]))) !! "/home/dev/notes.txt" =
  Some (File "kept").
Proof.
  destruct (pass_leaves_other_paths (H := sample_host) 1 deep_context env_tool_1_2_0
              (state_with [("/home/dev/notes.txt", "kept")]) "/home/dev/notes.txt")
    as [_ Hpass].
  - vm_compute. discriminate.
  - vm_compute. intros [Heq | [Heq | [Heq | []]]]; discriminate Heq.
  - rewrite Hpass; [reflexivity | vm_compute; discriminate |].
    intros anemosPath. unfold exec_writes, env_tool_1_2_0, sample_env, sample_writes.
    destruct (String.eqb _ sample_declarations_cmd); [| intros []].
    vm_compute. intros [Heq | [Heq | []]]; discriminate Heq.
Defined.

Lemma pass_with_binary_is_silent_witness :
  exists l,
    trace (snd (ensureTypesAreUpToDate (H := sample_host) 1 sample_context
                  env_version_query_fails empty_state)) = trace empty_state ++ l /\
    List.filter is_prompt l = [] /\ List.filter is_request l = [].
Proof.
  apply (pass_with_binary_is_silent (H := sample_host) 1 sample_context
           env_version_query_fails empty_state "anemos"). reflexivity.
Defined.

Lemma build_without_workspace_witness :
  buildCommand (H := sample_host) 1 sample_context
    {| host_env := env_tool_1_2_0; workspaceFolders := Some [] |} fresh_wstate =
    (Returned tt,
     with_host (log_error "No workspace folder is open." empty_state) fresh_wstate).
Proof.
  apply (build_without_workspace (H := sample_host) 1 sample_context
           {| host_env := env_tool_1_2_0; workspaceFolders := Some [] |} fresh_wstate).
  by right.
Defined.

Lemma failed_build_leaves_terminals_witness :
  terminals (snd (buildCommand (H := sample_host) 1 sample_context
                    (sample_workbench env_offline) wstate_with_terminal)) =
  terminals wstate_with_terminal.
Proof.
  rewrite (failed_build_leaves_terminals (H := sample_host) 1 sample_context
             (sample_workbench env_offline) wstate_with_terminal "/home/dev/project" []
             (Error "getaddrinfo ENOTFOUND")
             (snd (ensureAnemosBinary (H := sample_host) 1 sample_context env_offline
                     empty_state)));
    [reflexivity | reflexivity | vm_compute; reflexivity].
Defined.

Lemma refused_build_shows_two_errors_witness :
  exists ws',
    buildCommand (H := sample_host) 1 sample_context
      (sample_workbench env_user_declines) fresh_wstate = (Returned tt, ws') /\
    terminals ws' = [].
Proof.
  destruct (refused_build_shows_two_errors (H := sample_host) 1 sample_context
              (sample_workbench env_user_declines) fresh_wstate "/home/dev/project" []
              (Error "Command failed"))
    as (ws' & Hrun & _ & Hterminals); [reflexivity ..|].
  by exists ws'.
Defined.

Lemma build_reuses_running_terminal_witness :
  terminals (snd (buildCommand (H := sample_host) 1 sample_context
                    (sample_workbench env_tool_1_2_0) wstate_with_terminal)) =
  [new_terminal "Anemos Build" (build_calls "/home/dev/project" "anemos")].
Proof.
  rewrite (build_reuses_running_terminal (H := sample_host) 1 sample_context
             (sample_workbench env_tool_1_2_0) wstate_with_terminal "/home/dev/project" []
             "anemos"
             (snd (ensureAnemosBinary (H := sample_host) 1 sample_context env_tool_1_2_0
                     empty_state))
             0 (new_terminal "Anemos Build" [])); reflexivity.
Defined.

Lemma build_replaces_unusable_terminal_witness :
  let ws := terminal_exits 0 0 wstate_with_terminal in
  anemosTerminal (snd (buildCommand (H := sample_host) 1 sample_context
                         (sample_workbench env_tool_1_2_0) ws)) = Some 1.
Proof.
  cbv zeta.
  rewrite (build_replaces_unusable_terminal (H := sample_host) 1 sample_context
             (sample_workbench env_tool_1_2_0) (terminal_exits 0 0 wstate_with_terminal)
             "/home/dev/project" [] "anemos"
             (snd (ensureAnemosBinary (H := sample_host) 1 sample_context env_tool_1_2_0
                     empty_state)));
    [reflexivity | reflexivity | reflexivity |].
  right. exists 0, {| terminal_name := "Anemos Build"; exitStatus := Some 0; calls := [] |}, 0.
  repeat split.
Defined.

Lemma two_builds_share_a_terminal_witness :
  let wb := sample_workbench env_tool_1_2_0 in
  let ws1 := snd (buildCommand (H := sample_host) 1 sample_context wb fresh_wstate) in
  let ws2 := snd (buildCommand (H := sample_host) 1 sample_context wb ws1) in
  length (terminals ws2) = length (terminals ws1) /\
  anemosTerminal ws2 = anemosTerminal ws1.
Proof.
  cbv zeta.
  destruct (two_builds_share_a_terminal (H := sample_host) 1 sample_context
              (sample_workbench env_tool_1_2_0) fresh_wstate "/home/dev/project" [] "anemos")
    as (Hlen & Hsame & _); [reflexivity | reflexivity | discriminate |].
  split; [exact Hlen | exact Hsame].
Defined.

Lemma closed_terminal_is_replaced_witness :
  exists ws1,
    onDidCloseTerminal_listener 0 (sample_workbench env_tool_1_2_0) wstate_with_terminal =
      (Returned tt, ws1) /\
    anemosTerminal ws1 = None.
Proof.
  destruct (closed_terminal_is_replaced (H := sample_host) 1 sample_context
              (sample_workbench env_tool_1_2_0) wstate_with_terminal "/home/dev/project" []
              "anemos"
              (snd (ensureAnemosBinary (H := sample_host) 1 sample_context env_tool_1_2_0
                      empty_state)) 0)
    as [_ (ws1 & Hlisten & Hnone & _)]; [reflexivity ..|].
  by exists ws1.
Defined.

Lemma activation_outcome_witness :
  ui (snd (activate (H := sample_host) 1 sample_context
             (sample_workbench env_user_declines) fresh_wstate)) =
  [UWarning "Anemos binary not found and could not be downloaded. Some features may not work.";
   URegisterCommand "anemos.build"; UOnDidCloseTerminal; USubscribe "anemos.build"].
Proof.
  destruct (activation_outcome (H := sample_host) 1 sample_context
              (sample_workbench env_user_declines) fresh_wstate) as (_ & Hthrown & _).
  rewrite (Hthrown declined
             (snd (ensureAnemosBinary (H := sample_host) 1 sample_context
                     env_user_declines empty_state)));
    [reflexivity | vm_compute; reflexivity].
Defined.
